(** * PMtool: the maintenance-cost analysis engine, embedded in Rocq

    The development follows the JavaScript sources of the repository:

    - [Maintenance]  : [server/routes/maintenance.js] ([getLaborRate],
      [getPartCost], [getDefaultHours], [round2], [runAnalysis] and the
      handlers of [/calculate] and [/compare]);
    - [Stateful]     : [runAnalysis] once more, statement by statement,
      over the input objects and the wall clock;
    - [Calculator]   : [server/services/calculator.js]
      ([calculateFullAnalysis]);
    - [Weibull]      : the reliability service ([weibullPDF], [weibullCDF],
      [generateFailureCurve], [optimalReplacementInterval],
      [gammaFunction]);
    - [FleetSchedule]: the reliability service
      ([generateReplacementSchedule]);
    - [PriceLists]   : the price-list route ([normalizeColumnName] and the
      column check of the upload).

    Numbers.  The two cost engines only use the field operations,
    [Math.floor], [Math.ceil], [Math.round] and [Math.pow] with an integer
    exponent, so their numbers are modelled by exact rationals [Q] and every
    definition computes.  The rounding error of IEEE doubles is not
    modelled, and a quotient whose divisor is zero (NaN or Infinity in
    JavaScript, [0] in [Q]) is outside the model; the sites where the source
    divides without a guard are marked where they occur.  The reliability
    service uses [Math.exp], [Math.pow] with real exponents, [Math.sqrt] and
    [Math.sin]; it is modelled over the real numbers extended with NaN and
    the two infinities, because what it returns on degenerate arguments is
    the subject of the specification. *)

From Stdlib Require Import ZArith QArith Qround Qpower Qabs.
From Stdlib Require Import Reals Psatz.
From Stdlib Require Import List String Ascii Bool Sorted.
Import ListNotations.

(* ================================================================== *)
(** * JavaScript primitives used by the engines *)
(* ================================================================== *)

Module Js.
Local Open Scope Q_scope.

(** [x || d] on a number that may be [null]/[undefined]: [0] is falsy. *)
Definition or_num (x : option Q) (d : Q) : Q :=
  match x with
  | Some q => if Qeq_bool q 0 then d else q
  | None => d
  end.

(** [x || d] on a number that is always present. *)
Definition or_zero (x d : Q) : Q := if Qeq_bool x 0 then d else x.

(** [x || d] on a string that may be absent: the empty string is falsy. *)
Definition or_str (x : option string) (d : string) : string :=
  match x with
  | Some s => if String.eqb s EmptyString then d else s
  | None => d
  end.

(** Truthiness of a nullable number, as tested by [if (x)]. *)
Definition truthy (x : option Q) : bool :=
  match x with
  | Some q => negb (Qeq_bool q 0)
  | None => false
  end.

Definition Math_floor (x : Q) : Z := Qfloor x.
Definition Math_ceil (x : Q) : Z := Qceiling x.

(** [Math.round] rounds to the nearest integer, ties towards +infinity. *)
Definition Math_round (x : Q) : Z := Qfloor (x + (1 # 2)).

(** [Math.pow] at an integer exponent. *)
Definition Math_pow (b : Q) (n : Z) : Q := Qpower b n.

Definition Math_min (x y : Q) : Q := if Qle_bool x y then x else y.

(** Comparisons as booleans. *)
Definition ltb (x y : Q) : bool := negb (Qle_bool y x).
Definition leb (x y : Q) : bool := Qle_bool x y.

(** [String.prototype.toLowerCase] on the ASCII letters.  No character
    outside ASCII lower-cases to one of the letters of ["specialist"] or
    ["engineer"], so the comparisons made by the engine are not affected
    by the restriction. *)
Definition lower_ascii (c : ascii) : ascii :=
  let n := nat_of_ascii c in
  if (Nat.leb 65 n && Nat.leb n 90)%bool then ascii_of_nat (n + 32) else c.

Fixpoint toLowerCase (s : string) : string :=
  match s with
  | EmptyString => EmptyString
  | String c s' => String (lower_ascii c) (toLowerCase s')
  end.

(** The integers [1; ...; n] visited by [for (i = 1; i <= n; i++)]. *)
Definition upto (n : Z) : list Z :=
  map Z.of_nat (seq 1 (Z.to_nat n)).
End Js.

(* ================================================================== *)
(** * server/routes/maintenance.js *)
(* ================================================================== *)

Module Maintenance.
Import Js.
Local Open Scope Q_scope.
Local Open Scope string_scope.

(** ** Resolved input records (rows read by [loadScenarioData]) *)

Record Scenario := {
  sc_id : option Z;
  sc_name : string;
  sc_fleet_name : option string;
  fleet_id : option Z;
  pm_schedule_id : option Z;
  price_list_id : option Z;
  analysis_period_years : Q;
  labor_rate : Q;
  labor_rate_specialist : Q;
  labor_rate_engineer : Q;
  parts_discount_pct : Q;
  overhead_markup_pct : Q;
  working_days_per_year : Q;
  hours_per_day : Q;
  target_utilization_pct : Q;
  discount_rate_pct : Q;
  inflation_rate_pct : Q;
  fuel_cost_per_unit : Q;
  downtime_cost_per_hour : Q;
  include_fuel_costs : bool;
  include_downtime_costs : bool
}.

Record FleetUnit := {
  equipment_model_id : Z;
  unit_name : option string;
  model_number : string;
  quantity : Q;
  application_type : option string;
  annual_hours : option Q;
  duty_cycle : option Q;
  commissioning_rate_per_month : option Q;
  power_rating_kw : Q;
  fuel_consumption_rate_full : option Q;
  fuel_consumption_rate_75 : option Q;
  fuel_consumption_rate_50 : option Q;
  fuel_consumption_unit : option string;
  default_annual_hours_standby : option Q;
  default_annual_hours_prime : option Q;
  default_annual_hours_ltp : option Q;
  default_annual_hours_continuous : option Q
}.

Record TaskPart := {
  part_number : option string;
  part_description : option string;
  part_quantity : Q;
  is_optional : bool
}.

Record PMTask := {
  task_id : option Z;
  task_name : string;
  skill_level : option string;
  is_one_time : bool;
  interval_hours : option Q;
  interval_months : option Q;
  labor_hours : Q;
  parts : list TaskPart
}.

Record PriceListItem := {
  item_part_number : string;
  unit_price : Q
}.

(** [priceMap] is the object filled by [priceMap[item.part_number] = item]
    over the rows of the price list: a later row replaces an earlier one. *)
Definition PriceMap := list PriceListItem.

Fixpoint price_lookup (priceMap : PriceMap) (pn : string)
  : option PriceListItem :=
  match priceMap with
  | [] => None
  | item :: rest =>
      match price_lookup rest pn with
      | Some later => Some later
      | None => if String.eqb (item_part_number item) pn
                then Some item else None
      end
  end.

Record ComponentLifecycle := {
  lc_equipment_model_id : Z;
  component_name : string;
  category : option string;
  expected_life_hours : Q;
  replacement_labor_hours : Q;
  criticality : option string
}.

Record ScenarioData := {
  scenario : Scenario;
  fleetUnits : list FleetUnit;
  pmTasks : list PMTask;
  priceMap : PriceMap;
  componentLifecycles : list ComponentLifecycle
}.

(** ** Helpers *)

Definition getLaborRate (sc : Scenario) (skillLevel : option string) : Q :=
  let s := toLowerCase (or_str skillLevel "technician") in
  if String.eqb s "specialist" then labor_rate_specialist sc
  else if String.eqb s "engineer" then labor_rate_engineer sc
  else labor_rate sc.

Definition getPartCost (pm : PriceMap) (partNumber : option string)
    (qty discountPct : Q) : Q :=
  match partNumber with
  | None => 0
  | Some pn =>
      if String.eqb pn EmptyString then 0
      else match price_lookup pm pn with
           | None => 0
           | Some item =>
               let discount := discountPct / 100 in
               unit_price item * (1 - discount) * qty
           end
  end.

Definition default_hours_key (u : FleetUnit) (appType : string)
  : option Q :=
  if String.eqb appType "standby" then default_annual_hours_standby u
  else if String.eqb appType "prime" then default_annual_hours_prime u
  else if String.eqb appType "ltp" then default_annual_hours_ltp u
  else if String.eqb appType "continuous"
       then default_annual_hours_continuous u
  else None.

Definition getDefaultHours (u : FleetUnit) : Q :=
  let appType := or_str (application_type u) "prime" in
  or_num (default_hours_key u appType)
         (or_num (default_annual_hours_prime u) 6500).

Definition round2 (val : Q) : Q :=
  inject_Z (Math_round (val * 100)) / 100.

(** [unit.annual_hours || getDefaultHours(unit)] *)
Definition unitHours (u : FleetUnit) : Q :=
  or_num (annual_hours u) (getDefaultHours u).

(** ** [runAnalysis]: fleet aggregates and the PM task breakdown *)

Record PartDetail := {
  pd_part_number : option string;
  pd_description : option string;
  pd_quantity : Q;
  pd_unit_cost : Q;
  pd_discounted_cost : Q;
  pd_total_cost_per_service : Q
}.

Record TaskRow := {
  row_task_id : option Z;
  row_task_name : string;
  row_skill_level : option string;
  row_is_one_time : bool;
  row_interval_hours : option Q;
  row_interval_months : option Q;
  services_per_year : Q;
  labor_hours_per_service : Q;
  labor_hours_per_year : Q;
  row_labor_rate : Q;
  labor_cost_per_year : Q;
  parts_cost_per_service : Q;
  parts_cost_per_year : Q;
  total_cost_per_year : Q;
  row_parts : list PartDetail
}.

Section RunAnalysis.
Variable data : ScenarioData.

Definition analysisPeriod : Q := analysis_period_years (scenario data).
Definition discountRate : Q := discount_rate_pct (scenario data) / 100.
Definition inflationRate : Q := inflation_rate_pct (scenario data) / 100.
Definition overheadMarkup : Q := overhead_markup_pct (scenario data) / 100.
Definition partsDiscount : Q := parts_discount_pct (scenario data).
Definition availableHoursPerTech : Q :=
  working_days_per_year (scenario data) * hours_per_day (scenario data)
  * (target_utilization_pct (scenario data) / 100).

Definition totalUnits : Q :=
  fold_left (fun sum u => sum + quantity u) (fleetUnits data) 0.

Definition totalKw : Q :=
  fold_left (fun sum u => sum + power_rating_kw u * quantity u)
            (fleetUnits data) 0.

Definition totalWeightedHours : Q :=
  fold_left (fun sum u => sum + unitHours u * quantity u)
            (fleetUnits data) 0.

Definition avgAnnualHours : Q :=
  if ltb 0 totalUnits then totalWeightedHours / totalUnits else 0.

(** The recurrence rule of a task: one-time first, then the hours
    interval, then the calendar interval. *)
Definition servicesPerYear (task : PMTask) : Q :=
  if is_one_time task then totalUnits
  else if truthy (interval_hours task)
       then (totalUnits * avgAnnualHours) / or_num (interval_hours task) 0
  else if truthy (interval_months task)
       then totalUnits * (12 / or_num (interval_months task) 0)
  else 0.

Definition laborHoursPerYear (task : PMTask) : Q :=
  servicesPerYear task * labor_hours task.

Definition laborCostPerYear (task : PMTask) : Q :=
  laborHoursPerYear task * getLaborRate (scenario data) (skill_level task).

Definition partCost (part : TaskPart) : Q :=
  getPartCost (priceMap data) (part_number part) (part_quantity part)
              partsDiscount.

Definition partsPerService (task : PMTask) : Q :=
  fold_left (fun acc part =>
               if is_optional part then acc else acc + partCost part)
            (parts task) 0.

Definition unit_cost_of (pn : option string) : Q :=
  match pn with
  | None => 0
  | Some s => match price_lookup (priceMap data) s with
              | Some item => unit_price item
              | None => 0
              end
  end.

Definition partDetail (part : TaskPart) : PartDetail :=
  let cost := partCost part in
  {| pd_part_number := part_number part;
     pd_description := part_description part;
     pd_quantity := part_quantity part;
     pd_unit_cost := unit_cost_of (part_number part);
     pd_discounted_cost := cost / or_zero (part_quantity part) 1;
     pd_total_cost_per_service := cost |}.

Definition partDetails (task : PMTask) : list PartDetail :=
  map partDetail (filter (fun part => negb (is_optional part)) (parts task)).

Definition partsCostPerYear (task : PMTask) : Q :=
  partsPerService task * servicesPerYear task.

Definition taskRow (task : PMTask) : TaskRow :=
  {| row_task_id := task_id task;
     row_task_name := task_name task;
     row_skill_level := skill_level task;
     row_is_one_time := is_one_time task;
     row_interval_hours := interval_hours task;
     row_interval_months := interval_months task;
     services_per_year := round2 (servicesPerYear task);
     labor_hours_per_service := labor_hours task;
     labor_hours_per_year := round2 (laborHoursPerYear task);
     row_labor_rate := getLaborRate (scenario data) (skill_level task);
     labor_cost_per_year := round2 (laborCostPerYear task);
     parts_cost_per_service := round2 (partsPerService task);
     parts_cost_per_year := round2 (partsCostPerYear task);
     total_cost_per_year :=
       round2 (laborCostPerYear task + partsCostPerYear task);
     row_parts := partDetails task |}.

Definition taskBreakdown : list TaskRow := map taskRow (pmTasks data).

Definition totalAnnualLaborHours : Q :=
  fold_left (fun acc t => acc + laborHoursPerYear t) (pmTasks data) 0.
Definition totalAnnualLaborCost : Q :=
  fold_left (fun acc t => acc + laborCostPerYear t) (pmTasks data) 0.
Definition totalAnnualPartsCost : Q :=
  fold_left (fun acc t => acc + partsCostPerYear t) (pmTasks data) 0.

(** Overhead markup on the aggregate of labor and parts. *)
Definition annualMaintenanceCostBase : Q :=
  totalAnnualLaborCost + totalAnnualPartsCost.
Definition annualOverhead : Q := annualMaintenanceCostBase * overheadMarkup.
Definition totalAnnualMaintenanceCost : Q :=
  annualMaintenanceCostBase + annualOverhead.

(** ** Staffing requirements *)

Definition safetyFactor : Q := 1.15.

Definition techniciansFor (laborHoursPerYear' : Q) : Z :=
  if ltb 0 availableHoursPerTech
  then Math_ceil ((laborHoursPerYear' * safetyFactor) / availableHoursPerTech)
  else 0%Z.

Definition techniciansNeeded : Z := techniciansFor totalAnnualLaborHours.

Record Staffing := {
  total_annual_labor_hours : Q;
  available_hours_per_technician : Q;
  safety_factor : Q;
  technicians_needed : Z;
  utilization_without_safety : Q
}.

(** The quotient of [utilization_without_safety] is taken without a
    guard on [techniciansNeeded]. *)
Definition staffing : Staffing :=
  {| total_annual_labor_hours := round2 totalAnnualLaborHours;
     available_hours_per_technician := round2 availableHoursPerTech;
     safety_factor := safetyFactor;
     technicians_needed := techniciansNeeded;
     utilization_without_safety :=
       if ltb 0 availableHoursPerTech
       then round2 ((totalAnnualLaborHours
                     / (inject_Z techniciansNeeded * availableHoursPerTech))
                    * 100)
       else 0 |}.

(** ** Fuel cost projections *)

Definition dutyCycle (u : FleetUnit) : Q := or_num (duty_cycle u) 0.75.

(** The consumption-rate tier chosen by the duty cycle. *)
Definition fuelRate (u : FleetUnit) : Q :=
  if leb 0.85 (dutyCycle u)
  then or_num (fuel_consumption_rate_full u) 0
  else if leb 0.6 (dutyCycle u)
  then or_num (fuel_consumption_rate_75 u)
              (or_num (fuel_consumption_rate_full u) 0)
  else or_num (fuel_consumption_rate_50 u)
              (or_num (fuel_consumption_rate_75 u)
                      (or_num (fuel_consumption_rate_full u) 0)).

Definition unitFuelCost (u : FleetUnit) : Q :=
  fuelRate u * unitHours u * fuel_cost_per_unit (scenario data)
  * quantity u.

Record FuelDetail := {
  fd_unit_name : string;
  fd_model_number : string;
  fd_quantity : Q;
  fd_annual_hours : Q;
  fd_duty_cycle : Q;
  fuel_rate : Q;
  fuel_unit : string;
  annual_fuel_cost : Q
}.

Definition fuelDetail (u : FleetUnit) : FuelDetail :=
  {| fd_unit_name := or_str (unit_name u) (model_number u);
     fd_model_number := model_number u;
     fd_quantity := quantity u;
     fd_annual_hours := unitHours u;
     fd_duty_cycle := dutyCycle u;
     fuel_rate := fuelRate u;
     fuel_unit := or_str (fuel_consumption_unit u) "therms/hr";
     annual_fuel_cost := round2 (unitFuelCost u) |}.

Definition annualFuelCost : Q :=
  if include_fuel_costs (scenario data)
  then fold_left (fun acc u => acc + unitFuelCost u) (fleetUnits data) 0
  else 0.

Definition fuelDetails : list FuelDetail :=
  if include_fuel_costs (scenario data)
  then map fuelDetail (fleetUnits data)
  else [].

(** ** Component replacement schedule *)

Record ScheduleItem := {
  replacement_number : Z;
  si_year : Z;
  estimated_cost : Q
}.

Record ComponentReplacement := {
  cr_component_name : string;
  cr_category : option string;
  cr_model_number : string;
  cr_unit_name : option string;
  cr_quantity : Q;
  cr_expected_life_hours : Q;
  years_per_replacement : Q;
  replacements_over_period : Z;
  cr_labor_hours : Q;
  cost_per_replacement : Q;
  cr_criticality : option string;
  schedule : list ScheduleItem
}.

Definition yearsPerReplacement (lc : ComponentLifecycle) (u : FleetUnit)
  : Q := expected_life_hours lc / unitHours u.

Definition replacementsOverPeriod (lc : ComponentLifecycle)
    (u : FleetUnit) : Z :=
  Math_floor (analysisPeriod / yearsPerReplacement lc u).

Definition costPerReplacement (lc : ComponentLifecycle) : Q :=
  let laborRate := getLaborRate (scenario data) (Some "specialist") in
  let laborCost := replacement_labor_hours lc * laborRate in
  let partsCost :=
    getPartCost (priceMap data) (Some (component_name lc)) 1
                partsDiscount in
  laborCost + partsCost.

(** The body of [for (r = 1; r <= replacementsOverPeriod; r++)], over
    the remaining values of [r]; the loop is left as soon as a year
    exceeds the analysis period.  Each event carries its inflated cost
    before rounding. *)
Fixpoint scheduleLoop (ypr cost : Q) (rs : list Z) : list (Z * Z * Q) :=
  match rs with
  | [] => []
  | r :: rest =>
      let year := Math_ceil (ypr * inject_Z r) in
      if ltb analysisPeriod (inject_Z year) then []
      else (r, year, cost * Math_pow (1 + inflationRate) year)
           :: scheduleLoop ypr cost rest
  end.

Definition scheduleEvents (lc : ComponentLifecycle) (u : FleetUnit)
  : list (Z * Z * Q) :=
  scheduleLoop (yearsPerReplacement lc u) (costPerReplacement lc)
               (upto (replacementsOverPeriod lc u)).

Definition scheduleItem (e : Z * Z * Q) : ScheduleItem :=
  let '(r, year, inflatedCost) := e in
  {| replacement_number := r;
     si_year := year;
     estimated_cost := round2 inflatedCost |}.

(** The units of the lifecycle's model that yield an entry: positive
    hours, positive life and at least one replacement in the period. *)
Definition replacingUnits (lc : ComponentLifecycle) : list FleetUnit :=
  filter (fun u =>
            Z.eqb (equipment_model_id u) (lc_equipment_model_id lc)
            && negb (leb (unitHours u) 0
                     || leb (expected_life_hours lc) 0)
            && negb (Z.leb (replacementsOverPeriod lc u) 0))%bool
         (fleetUnits data).

Definition componentReplacement (lc : ComponentLifecycle) (u : FleetUnit)
  : ComponentReplacement :=
  let sched := map scheduleItem (scheduleEvents lc u) in
  {| cr_component_name := component_name lc;
     cr_category := category lc;
     cr_model_number := model_number u;
     cr_unit_name := unit_name u;
     cr_quantity := quantity u;
     cr_expected_life_hours := expected_life_hours lc;
     years_per_replacement := round2 (yearsPerReplacement lc u);
     replacements_over_period := Z.of_nat (List.length sched);
     cr_labor_hours := replacement_labor_hours lc;
     cost_per_replacement := round2 (costPerReplacement lc);
     cr_criticality := criticality lc;
     schedule := sched |}.

Definition componentReplacements : list ComponentReplacement :=
  flat_map (fun lc => map (componentReplacement lc) (replacingUnits lc))
           (componentLifecycles data).

Definition totalComponentCostOverPeriod : Q :=
  fold_left
    (fun acc lc =>
       fold_left
         (fun acc' u =>
            fold_left (fun a e => a + snd e) (scheduleEvents lc u) acc')
         (replacingUnits lc) acc)
    (componentLifecycles data) 0.

(** ** Downtime cost estimate *)

Definition totalServicesPerYear : Q :=
  fold_left (fun sum t => sum + services_per_year t) taskBreakdown 0.

(** [totalAnnualLaborHours / totalServicesPerYear] is taken without a
    guard on the divisor. *)
Definition avgDowntimePerService : Q :=
  match pmTasks data with
  | [] => 0
  | _ :: _ => (totalAnnualLaborHours / totalServicesPerYear) * 1.5
  end.

Definition annualDowntimeCost : Q :=
  if include_downtime_costs (scenario data)
  then (totalServicesPerYear * avgDowntimePerService)
       * downtime_cost_per_hour (scenario data)
  else 0.

(** ** Year-by-year projection *)

Definition inflationMultiplier (year : Z) : Q :=
  Math_pow (1 + inflationRate) (year - 1).
Definition discountMultiplier (year : Z) : Q :=
  Math_pow (1 + discountRate) year.

Definition oneTimeCosts : Q :=
  fold_left (fun sum t => sum + total_cost_per_year t)
            (filter row_is_one_time taskBreakdown) 0.

(** Maintenance cost of a year: the inflated annual cost, less the
    inflated one-time costs in every year after the first. *)
Definition yearMaintenanceCost (year : Z) : Q :=
  let c := totalAnnualMaintenanceCost * inflationMultiplier year in
  if (1 <? year)%Z then c - oneTimeCosts * inflationMultiplier year
  else c.

Definition yearFuelCost (year : Z) : Q :=
  if include_fuel_costs (scenario data)
  then annualFuelCost * inflationMultiplier year else 0.

Definition yearDowntimeCost (year : Z) : Q :=
  if include_downtime_costs (scenario data)
  then annualDowntimeCost * inflationMultiplier year else 0.

Definition yearComponentCost (year : Z) : Q :=
  fold_left
    (fun acc comp =>
       fold_left
         (fun acc' sched =>
            if Z.eqb (si_year sched) year
            then acc' + estimated_cost sched * cr_quantity comp
            else acc')
         (schedule comp) acc)
    componentReplacements 0.

Definition yearTotalCost (year : Z) : Q :=
  yearMaintenanceCost year + yearFuelCost year + yearDowntimeCost year
  + yearComponentCost year.

Definition yearNpv (year : Z) : Q :=
  yearTotalCost year / discountMultiplier year.

(** Units of one fleet row commissioned by the end of [year]. *)
Definition unitCommissioned (year : Z) (u : FleetUnit) : Q :=
  let rate := or_num (commissioning_rate_per_month u) 1 in
  let monthsToFullDeploy := Math_ceil (quantity u / rate) in
  let yearsToFullDeploy := inject_Z monthsToFullDeploy / 12 in
  if (Math_ceil yearsToFullDeploy <=? year)%Z then quantity u
  else
    let monthsElapsed := inject_Z (year * 12) in
    Math_min (quantity u) (inject_Z (Math_floor (monthsElapsed * rate))).

Definition unitsCommissioned (year : Z) : Q :=
  fold_left (fun acc u => acc + unitCommissioned year u)
            (fleetUnits data) 0.

Definition yearLaborHoursScaled (year : Z) : Q :=
  if ltb 0 totalUnits
  then totalAnnualLaborHours * (unitsCommissioned year / totalUnits)
  else 0.

Record ProjectionRow := {
  pr_year : Z;
  units_commissioned : Q;
  pr_technicians_needed : Z;
  maintenance_cost : Q;
  fuel_cost : Q;
  downtime_cost : Q;
  component_replacement_cost : Q;
  total_cost : Q;
  cumulative_cost : Q;
  npv_of_year : Q
}.

(** The accumulators of the projection loop. *)
Record ProjectionState := {
  cumulativeCost : Q;
  npvTotal : Q;
  annualProjections : list ProjectionRow
}.

Definition projectionStep (st : ProjectionState) (year : Z)
  : ProjectionState :=
  let cumulative := cumulativeCost st + yearTotalCost year in
  {| cumulativeCost := cumulative;
     npvTotal := npvTotal st + yearNpv year;
     annualProjections :=
       annualProjections st ++
       [ {| pr_year := year;
            units_commissioned := unitsCommissioned year;
            pr_technicians_needed :=
              techniciansFor (yearLaborHoursScaled year);
            maintenance_cost := round2 (yearMaintenanceCost year);
            fuel_cost := round2 (yearFuelCost year);
            downtime_cost := round2 (yearDowntimeCost year);
            component_replacement_cost :=
              round2 (yearComponentCost year);
            total_cost := round2 (yearTotalCost year);
            cumulative_cost := round2 cumulative;
            npv_of_year := round2 (yearNpv year) |} ] |}.

(** [for (let year = 1; year <= analysisPeriod; year++)] *)
Definition projection : ProjectionState :=
  fold_left projectionStep (upto (Math_floor analysisPeriod))
            {| cumulativeCost := 0; npvTotal := 0;
               annualProjections := [] |}.

(** ** The result record *)

Definition totalAnnualKwh : Q := totalKw * avgAnnualHours.

Definition costPerKwh : Q :=
  if ltb 0 totalAnnualKwh
  then totalAnnualMaintenanceCost / totalAnnualKwh else 0.

Record Tco := {
  total_npv : Q;
  total_nominal : Q;
  tco_analysis_period_years : Q;
  average_annual_cost : Q;
  average_annual_cost_npv : Q
}.

Definition tco : Tco :=
  {| total_npv := round2 (npvTotal projection);
     total_nominal := round2 (cumulativeCost projection);
     tco_analysis_period_years := analysisPeriod;
     average_annual_cost :=
       round2 (cumulativeCost projection / analysisPeriod);
     average_annual_cost_npv :=
       round2 (npvTotal projection / analysisPeriod) |}.

Record FleetSummary := {
  fleet_name : option string;
  fs_total_units : Q;
  fs_total_kw : Q;
  average_annual_hours : Q;
  total_annual_kwh : Q
}.

Record MaintenanceCostSummary := {
  annual_labor_cost : Q;
  annual_parts_cost : Q;
  annual_overhead : Q;
  mcs_overhead_markup_pct : Q;
  total_annual_maintenance_cost : Q
}.

Record FuelSummary := {
  fuel_enabled : bool;
  fs_fuel_cost_per_unit : Q;
  fs_annual_fuel_cost : Q;
  details : list FuelDetail
}.

Record DowntimeSummary := {
  downtime_enabled : bool;
  ds_downtime_cost_per_hour : Q;
  annual_downtime_cost : Q
}.

Record ComponentSummary := {
  total_cost_over_period : Q;
  components : list ComponentReplacement
}.

Record Parameters := {
  p_analysis_period_years : Q;
  p_labor_rate : Q;
  p_labor_rate_specialist : Q;
  p_labor_rate_engineer : Q;
  p_parts_discount_pct : Q;
  p_overhead_markup_pct : Q;
  p_discount_rate_pct : Q;
  p_inflation_rate_pct : Q;
  p_fuel_cost_per_unit : Q;
  p_downtime_cost_per_hour : Q
}.

Record AnalysisResult := {
  scenario_id : option Z;
  scenario_name : string;
  calculated_at : string;
  fleet_summary : FleetSummary;
  maintenance_cost_summary : MaintenanceCostSummary;
  pm_task_breakdown : list TaskRow;
  res_staffing : Staffing;
  fuel_summary : FuelSummary;
  downtime_summary : DowntimeSummary;
  component_replacements : ComponentSummary;
  cost_per_kwh : Q;
  res_tco : Tco;
  annual_projections : list ProjectionRow;
  parameters : Parameters
}.

(** [runAnalysis(data)].  The source reads the wall clock once, for
    [calculated_at: new Date().toISOString()]; the reading is the
    explicit argument [now]. *)
Definition runAnalysis (now : string) : AnalysisResult :=
  let sc := scenario data in
  {| scenario_id := sc_id sc;
     scenario_name := sc_name sc;
     calculated_at := now;
     fleet_summary :=
       {| fleet_name := sc_fleet_name sc;
          fs_total_units := totalUnits;
          fs_total_kw := round2 totalKw;
          average_annual_hours := round2 avgAnnualHours;
          total_annual_kwh := round2 totalAnnualKwh |};
     maintenance_cost_summary :=
       {| annual_labor_cost := round2 totalAnnualLaborCost;
          annual_parts_cost := round2 totalAnnualPartsCost;
          annual_overhead := round2 annualOverhead;
          mcs_overhead_markup_pct := overhead_markup_pct sc;
          total_annual_maintenance_cost :=
            round2 totalAnnualMaintenanceCost |};
     pm_task_breakdown := taskBreakdown;
     res_staffing := staffing;
     fuel_summary :=
       {| fuel_enabled := include_fuel_costs sc;
          fs_fuel_cost_per_unit := fuel_cost_per_unit sc;
          fs_annual_fuel_cost := round2 annualFuelCost;
          details := fuelDetails |};
     downtime_summary :=
       {| downtime_enabled := include_downtime_costs sc;
          ds_downtime_cost_per_hour := downtime_cost_per_hour sc;
          annual_downtime_cost := round2 annualDowntimeCost |};
     component_replacements :=
       {| total_cost_over_period := round2 totalComponentCostOverPeriod;
          components := componentReplacements |};
     cost_per_kwh := round2 costPerKwh;
     res_tco := tco;
     annual_projections := annualProjections projection;
     parameters :=
       {| p_analysis_period_years := analysisPeriod;
          p_labor_rate := labor_rate sc;
          p_labor_rate_specialist := labor_rate_specialist sc;
          p_labor_rate_engineer := labor_rate_engineer sc;
          p_parts_discount_pct := parts_discount_pct sc;
          p_overhead_markup_pct := overhead_markup_pct sc;
          p_discount_rate_pct := discount_rate_pct sc;
          p_inflation_rate_pct := inflation_rate_pct sc;
          p_fuel_cost_per_unit := fuel_cost_per_unit sc;
          p_downtime_cost_per_hour := downtime_cost_per_hour sc |} |}.
End RunAnalysis.

(** ** [POST /compare]: the comparison summary built from the results *)

Record ComparisonRow := {
  cmp_scenario_id : option Z;
  cmp_scenario_name : string;
  cmp_total_units : Q;
  cmp_total_kw : Q;
  cmp_annual_maintenance_cost : Q;
  cmp_annual_fuel_cost : Q;
  cmp_annual_downtime_cost : Q;
  cmp_cost_per_kwh : Q;
  cmp_technicians_needed : Z;
  tco_npv : Q;
  tco_nominal : Q;
  cmp_average_annual_cost : Q
}.

Definition comparisonRow (r : AnalysisResult) : ComparisonRow :=
  {| cmp_scenario_id := scenario_id r;
     cmp_scenario_name := scenario_name r;
     cmp_total_units := fs_total_units (fleet_summary r);
     cmp_total_kw := fs_total_kw (fleet_summary r);
     cmp_annual_maintenance_cost :=
       total_annual_maintenance_cost (maintenance_cost_summary r);
     cmp_annual_fuel_cost := fs_annual_fuel_cost (fuel_summary r);
     cmp_annual_downtime_cost := annual_downtime_cost (downtime_summary r);
     cmp_cost_per_kwh := cost_per_kwh r;
     cmp_technicians_needed := technicians_needed (res_staffing r);
     tco_npv := total_npv (res_tco r);
     tco_nominal := total_nominal (res_tco r);
     cmp_average_annual_cost := average_annual_cost (res_tco r) |}.

(** [[...rows].sort((a, b) => a.tco_npv - b.tco_npv)].  [Array.prototype.sort]
    is stable and the comparator orders finite numbers consistently, so
    the result is the stable ascending arrangement; it is computed here
    by insertion, each row going behind the rows that do not exceed it. *)
Fixpoint insertByNpv (x : ComparisonRow) (l : list ComparisonRow)
  : list ComparisonRow :=
  match l with
  | [] => [x]
  | y :: l' =>
      if ltb 0 (tco_npv y - tco_npv x) then x :: y :: l'
      else y :: insertByNpv x l'
  end.

Definition sortByNpv (l : list ComparisonRow) : list ComparisonRow :=
  fold_left (fun acc x => insertByNpv x acc) l [].

Fixpoint lastRow (l : list ComparisonRow) : option ComparisonRow :=
  match l with
  | [] => None
  | [x] => Some x
  | _ :: l' => lastRow l'
  end.

Record LowestTco := {
  lt_scenario_id : option Z;
  lt_scenario_name : string;
  lt_tco_npv : Q;
  savings_vs_highest : Q
}.

Record CompareError := {
  err_scenario_id : Z;
  err_message : string
}.

Record Comparison := {
  scenarios : list ComparisonRow;
  full_results : list AnalysisResult;
  errors : option (list CompareError);
  lowest_tco : option LowestTco
}.

Definition lowestTco (rows : list ComparisonRow) : option LowestTco :=
  if (2 <=? List.length rows)%nat then
    let sorted := sortByNpv rows in
    match sorted, lastRow sorted with
    | first :: _, Some highest =>
        Some {| lt_scenario_id := cmp_scenario_id first;
                lt_scenario_name := cmp_scenario_name first;
                lt_tco_npv := tco_npv first;
                savings_vs_highest :=
                  round2 (tco_npv highest - tco_npv first) |}
    | _, _ => None
    end
  else None.

Definition buildComparison (results : list AnalysisResult)
    (errs : list CompareError) : Comparison :=
  let rows := map comparisonRow results in
  {| scenarios := rows;
     full_results := results;
     errors := match errs with [] => None | _ :: _ => Some errs end;
     lowest_tco := lowestTco rows |}.

(** The order in which the sort arranges the rows. *)
Definition npv_le (a b : ComparisonRow) : Prop := tco_npv a <= tco_npv b.

(** ** The property names every object inherits

    [priceMap] is an object literal, so [priceMap[name]] is also truthy
    for the names of [Object.prototype], and an assignment to
    [priceMap["__proto__"]] replaces the prototype instead of adding a
    key.  [price_lookup] only knows the rows of the price list; the two
    agree on every part number outside this list, provided no row is
    numbered ["__proto__"]. *)
Definition inheritedNames : list string :=
  [ "constructor"; "hasOwnProperty"; "isPrototypeOf";
    "propertyIsEnumerable"; "toLocaleString"; "toString"; "valueOf";
    "__proto__"; "__defineGetter__"; "__defineSetter__";
    "__lookupGetter__"; "__lookupSetter__" ].

Definition ownNames (pm : PriceMap) (pn : string) : Prop :=
  ~ In pn inheritedNames
  /\ forall item, In item pm -> item_part_number item <> "__proto__".

(** ** The route handlers [POST /calculate] and [POST /compare]

    [loadScenarioData] reads the database; the handlers receive it as
    the function from a scenario id to the loaded data, [None] when the
    scenario row does not exist.  [clock k] is the reading of the wall
    clock taken by the analysis that follows [k] earlier ones in the same
    request.  The answers with status 500 of the [catch] blocks (a failing
    database) have no counterpart: nothing in the model throws. *)

(** [!x] is false for an id other than [null], [undefined] and [0]. *)
Definition truthy_id (x : option Z) : bool :=
  match x with
  | Some z => negb (Z.eqb z 0)
  | None => false
  end.

Inductive Response (A : Type) : Type :=
| Json (body : A)
| Failure (status : Z) (error : string) (details : list CompareError).

Arguments Json {A} body.
Arguments Failure {A} status error details.

Section Handlers.
Variable loadScenarioData : Z -> option ScenarioData.
Variable clock : nat -> string.

Definition calculateHandler (scenario_id : option Z)
  : Response AnalysisResult :=
  match scenario_id with
  | None => Failure 400 "Missing required field: scenario_id" []
  | Some id =>
      if negb (truthy_id (Some id))
      then Failure 400 "Missing required field: scenario_id" []
      else
        match loadScenarioData id with
        | None => Failure 404 "Scenario not found" []
        | Some data =>
            if negb (truthy_id (fleet_id (scenario data)))
            then Failure 400 "Scenario has no fleet assigned" []
            else if negb (truthy_id (pm_schedule_id (scenario data)))
            then Failure 400 "Scenario has no PM schedule assigned" []
            else if (List.length (fleetUnits data) =? 0)%nat
            then Failure 400 "Fleet has no units" []
            else Json (runAnalysis data (clock 0))
        end
  end.

Definition incompleteScenario (data : ScenarioData) : bool :=
  negb (truthy_id (fleet_id (scenario data)))
  || negb (truthy_id (pm_schedule_id (scenario data)))
  || (List.length (fleetUnits data) =? 0)%nat.

(** The body of [for (const scenarioId of scenario_ids)] on the two
    arrays [results] and [errors]. *)
Definition compareStep
    (st : list AnalysisResult * list CompareError) (scenarioId : Z)
  : list AnalysisResult * list CompareError :=
  let (results, errs) := st in
  match loadScenarioData scenarioId with
  | None =>
      (results,
       (errs ++ [ {| err_scenario_id := scenarioId;
                     err_message := "Scenario not found" |} ])%list)
  | Some data =>
      if incompleteScenario data
      then (results,
            (errs ++ [ {| err_scenario_id := scenarioId;
                          err_message :=
                            "Scenario is incomplete (missing fleet, PM schedule, or fleet has no units)" |} ])%list)
      else ((results
             ++ [runAnalysis data (clock (List.length results))])%list,
            errs)
  end.

(** [scenario_ids] is [None] when the field is missing or not an
    array. *)
Definition compareHandler (scenario_ids : option (list Z))
  : Response Comparison :=
  match scenario_ids with
  | None => Failure 400 "Provide at least 2 scenario_ids as an array" []
  | Some ids =>
      if (List.length ids <? 2)%nat
      then Failure 400 "Provide at least 2 scenario_ids as an array" []
      else
        let (results, errs) := fold_left compareStep ids ([], []) in
        match results with
        | [] => Failure 400 "No valid scenarios to compare" errs
        | _ :: _ => Json (buildComparison results errs)
        end
  end.
End Handlers.
End Maintenance.

(* ================================================================== *)
(** * [runAnalysis], statement by statement *)
(* ================================================================== *)

(** [Maintenance.runAnalysis] gives each quantity of the result as a
    function of the input.  The source computes them in one pass: it
    reads properties of the objects behind [data], assigns its own
    variables and pushes onto arrays it has created, and reads the wall
    clock when it builds the result.  This module follows the statements
    in their order, in a state monad over what a run could touch. *)
Module Stateful.
Import Js Maintenance.
Local Open Scope Q_scope.
Local Open Scope string_scope.

(** The objects reachable from the argument [data], the successive
    readings of the wall clock and the number of readings taken so far.
    The file declares no variable that [runAnalysis], [getLaborRate],
    [getPartCost], [getDefaultHours] or [round2] read or assign, so the
    world has no further component. *)
Record World := {
  input : ScenarioData;
  wallClock : nat -> string;
  readings : nat
}.

Definition M (A : Type) : Type := World -> A * World.

Definition ret {A} (a : A) : M A := fun w => (a, w).

Definition bind {A B} (m : M A) (k : A -> M B) : M B :=
  fun w => let (a, w') := m w in k a w'.

Notation "x <- m ;; k" := (bind m (fun x => k))
  (at level 61, m at next level, right associativity).

(** An expression over properties of the input objects. *)
Definition read {A} (f : ScenarioData -> A) : M A :=
  fun w => (f (input w), w).

(** The world after one reading of the clock. *)
Definition tick (w : World) : World :=
  {| input := input w;
     wallClock := wallClock w;
     readings := S (readings w) |}.

(** [new Date().toISOString()] *)
Definition newDate : M string :=
  fun w => (wallClock w (readings w), tick w).

(** [for (const x of l) { body }], on the variables [s] that the body
    assigns. *)
Fixpoint forEach {A S} (l : list A) (body : S -> A -> M S) (s : S) : M S :=
  match l with
  | [] => ret s
  | x :: l' => s' <- body s x ;; forEach l' body s'
  end.

(** ** The loop over the PM tasks *)

Record PartsLoop := {
  partsPerService : Q;
  partDetails : list PartDetail
}.

(** [for (const part of task.parts)] *)
Definition partStep (partsDiscount : Q) (st : PartsLoop) (part : TaskPart)
  : M PartsLoop :=
  if is_optional part then ret st
  else
    cost <- read (fun d => getPartCost (priceMap d) (part_number part)
                                       (part_quantity part) partsDiscount) ;;
    unit_cost <- read (fun d => unit_cost_of d (part_number part)) ;;
    ret {| partsPerService := partsPerService st + cost;
           partDetails :=
             partDetails st ++
             [ {| pd_part_number := part_number part;
                  pd_description := part_description part;
                  pd_quantity := part_quantity part;
                  pd_unit_cost := unit_cost;
                  pd_discounted_cost := cost / or_zero (part_quantity part) 1;
                  pd_total_cost_per_service := cost |} ] |}.

Record TaskLoop := {
  taskBreakdown : list TaskRow;
  totalAnnualLaborHours : Q;
  totalAnnualLaborCost : Q;
  totalAnnualPartsCost : Q
}.

(** [for (const task of pmTasks)] *)
Definition taskStep (totalUnits avgAnnualHours partsDiscount : Q)
    (st : TaskLoop) (task : PMTask) : M TaskLoop :=
  let servicesPerYear :=
    if is_one_time task then totalUnits
    else if truthy (interval_hours task)
         then (totalUnits * avgAnnualHours) / or_num (interval_hours task) 0
    else if truthy (interval_months task)
         then totalUnits * (12 / or_num (interval_months task) 0)
    else 0 in
  laborRate <- read (fun d => getLaborRate (scenario d) (skill_level task)) ;;
  let laborHoursPerYear := servicesPerYear * labor_hours task in
  let laborCostPerYear := laborHoursPerYear * laborRate in
  parts <- forEach (parts task) (partStep partsDiscount)
                   {| partsPerService := 0; partDetails := [] |} ;;
  let partsCostPerYear := partsPerService parts * servicesPerYear in
  ret {| taskBreakdown :=
           taskBreakdown st ++
           [ {| row_task_id := task_id task;
                row_task_name := task_name task;
                row_skill_level := skill_level task;
                row_is_one_time := is_one_time task;
                row_interval_hours := interval_hours task;
                row_interval_months := interval_months task;
                services_per_year := round2 servicesPerYear;
                labor_hours_per_service := labor_hours task;
                labor_hours_per_year := round2 laborHoursPerYear;
                row_labor_rate := laborRate;
                labor_cost_per_year := round2 laborCostPerYear;
                parts_cost_per_service := round2 (partsPerService parts);
                parts_cost_per_year := round2 partsCostPerYear;
                total_cost_per_year :=
                  round2 (laborCostPerYear + partsCostPerYear);
                row_parts := partDetails parts |} ];
         totalAnnualLaborHours := totalAnnualLaborHours st + laborHoursPerYear;
         totalAnnualLaborCost := totalAnnualLaborCost st + laborCostPerYear;
         totalAnnualPartsCost := totalAnnualPartsCost st + partsCostPerYear |}.

(** ** The loop over the fleet for the fuel cost *)

Record FuelLoop := {
  annualFuelCost : Q;
  fuelDetails : list FuelDetail
}.

(** [for (const unit of fleetUnits)] under [include_fuel_costs] *)
Definition fuelStep (st : FuelLoop) (unit : FleetUnit) : M FuelLoop :=
  let hours := or_num (annual_hours unit) (getDefaultHours unit) in
  let dutyCycle := or_num (duty_cycle unit) 0.75 in
  let fuelRate :=
    if leb 0.85 dutyCycle
    then or_num (fuel_consumption_rate_full unit) 0
    else if leb 0.6 dutyCycle
    then or_num (fuel_consumption_rate_75 unit)
                (or_num (fuel_consumption_rate_full unit) 0)
    else or_num (fuel_consumption_rate_50 unit)
                (or_num (fuel_consumption_rate_75 unit)
                        (or_num (fuel_consumption_rate_full unit) 0)) in
  fuelCostPerUnit <- read (fun d => fuel_cost_per_unit (scenario d)) ;;
  let unitFuelCost := fuelRate * hours * fuelCostPerUnit * quantity unit in
  ret {| annualFuelCost := annualFuelCost st + unitFuelCost;
         fuelDetails :=
           fuelDetails st ++
           [ {| fd_unit_name := or_str (unit_name unit) (model_number unit);
                fd_model_number := model_number unit;
                fd_quantity := quantity unit;
                fd_annual_hours := hours;
                fd_duty_cycle := dutyCycle;
                fuel_rate := fuelRate;
                fuel_unit := or_str (fuel_consumption_unit unit) "therms/hr";
                annual_fuel_cost := round2 unitFuelCost |} ] |}.

(** ** The loops of the component replacement schedule *)

Record ComponentLoop := {
  componentReplacements : list ComponentReplacement;
  totalComponentCostOverPeriod : Q
}.

(** [for (let r = 1; r <= replacementsOverPeriod; r++)] over the
    remaining values of [r], on [schedule] and
    [totalComponentCostOverPeriod]; it reads no property of the input. *)
Fixpoint replacementLoop
    (analysisPeriod inflationRate yearsPerReplacement costPerReplacement : Q)
    (rs : list Z) (schedule : list ScheduleItem) (total : Q)
  : list ScheduleItem * Q :=
  match rs with
  | [] => (schedule, total)
  | r :: rest =>
      let year := Math_ceil (yearsPerReplacement * inject_Z r) in
      if ltb analysisPeriod (inject_Z year) then (schedule, total)
      else
        let inflatedCost :=
          costPerReplacement * Math_pow (1 + inflationRate) year in
        replacementLoop analysisPeriod inflationRate yearsPerReplacement
          costPerReplacement rest
          (schedule ++ [ {| replacement_number := r;
                            si_year := year;
                            estimated_cost := round2 inflatedCost |} ])
          (total + inflatedCost)
  end.

(** [for (const unit of matchingUnits)] *)
Definition unitStep (analysisPeriod inflationRate partsDiscount : Q)
    (lifecycle : ComponentLifecycle) (st : ComponentLoop) (unit : FleetUnit)
  : M ComponentLoop :=
  let hours := or_num (annual_hours unit) (getDefaultHours unit) in
  if (leb hours 0 || leb (expected_life_hours lifecycle) 0)%bool then ret st
  else
    let yearsPerReplacement := expected_life_hours lifecycle / hours in
    let replacementsOverPeriod :=
      Math_floor (analysisPeriod / yearsPerReplacement) in
    if (replacementsOverPeriod <=? 0)%Z then ret st
    else
      laborRate <- read (fun d => getLaborRate (scenario d)
                                               (Some "specialist")) ;;
      let laborCost := replacement_labor_hours lifecycle * laborRate in
      partsCost <- read (fun d => getPartCost (priceMap d)
                                    (Some (component_name lifecycle)) 1
                                    partsDiscount) ;;
      let costPerReplacement := laborCost + partsCost in
      let (schedule, total) :=
        replacementLoop analysisPeriod inflationRate yearsPerReplacement
          costPerReplacement (upto replacementsOverPeriod) []
          (totalComponentCostOverPeriod st) in
      ret {| componentReplacements :=
               componentReplacements st ++
               [ {| cr_component_name := component_name lifecycle;
                    cr_category := category lifecycle;
                    cr_model_number := model_number unit;
                    cr_unit_name := unit_name unit;
                    cr_quantity := quantity unit;
                    cr_expected_life_hours := expected_life_hours lifecycle;
                    years_per_replacement := round2 yearsPerReplacement;
                    replacements_over_period :=
                      Z.of_nat (List.length schedule);
                    cr_labor_hours := replacement_labor_hours lifecycle;
                    cost_per_replacement := round2 costPerReplacement;
                    cr_criticality := criticality lifecycle;
                    Maintenance.schedule := schedule |} ];
             totalComponentCostOverPeriod := total |}.

(** [for (const lifecycle of componentLifecycles)] *)
Definition lifecycleStep (analysisPeriod inflationRate partsDiscount : Q)
    (st : ComponentLoop) (lifecycle : ComponentLifecycle)
  : M ComponentLoop :=
  matchingUnits <-
    read (fun d =>
            filter (fun u => Z.eqb (equipment_model_id u)
                                   (lc_equipment_model_id lifecycle))
                   (fleetUnits d)) ;;
  if (List.length matchingUnits =? 0)%nat then ret st
  else forEach matchingUnits
               (unitStep analysisPeriod inflationRate partsDiscount
                         lifecycle) st.

(** ** The loop over the years *)

(** [for (let year = 1; year <= analysisPeriod; year++)], on
    [cumulativeCost], [npvTotal] and [annualProjections]. *)
Definition yearStep
    (discountRate inflationRate availableHoursPerTech totalUnits : Q)
    (taskBreakdown : list TaskRow)
    (totalAnnualLaborHours totalAnnualMaintenanceCost : Q)
    (annualFuelCost annualDowntimeCost : Q)
    (componentReplacements : list ComponentReplacement)
    (st : ProjectionState) (year : Z) : M ProjectionState :=
  let inflationMultiplier := Math_pow (1 + inflationRate) (year - 1) in
  let discountMultiplier := Math_pow (1 + discountRate) year in
  let oneTimeCosts :=
    fold_left (fun sum t => sum + total_cost_per_year t)
              (filter row_is_one_time taskBreakdown) 0 in
  let yearMaintenanceCost :=
    if (1 <? year)%Z
    then totalAnnualMaintenanceCost * inflationMultiplier
         - oneTimeCosts * inflationMultiplier
    else totalAnnualMaintenanceCost * inflationMultiplier in
  includeFuel <- read (fun d => include_fuel_costs (scenario d)) ;;
  let yearFuelCost :=
    if includeFuel then annualFuelCost * inflationMultiplier else 0 in
  includeDowntime <- read (fun d => include_downtime_costs (scenario d)) ;;
  let yearDowntimeCost :=
    if includeDowntime then annualDowntimeCost * inflationMultiplier
    else 0 in
  let yearComponentCost :=
    fold_left
      (fun acc comp =>
         fold_left
           (fun acc' sched =>
              if Z.eqb (si_year sched) year
              then acc' + estimated_cost sched * cr_quantity comp
              else acc')
           (Maintenance.schedule comp) acc)
      componentReplacements 0 in
  let yearTotalCost :=
    yearMaintenanceCost + yearFuelCost + yearDowntimeCost
    + yearComponentCost in
  let cumulative := cumulativeCost st + yearTotalCost in
  let yearNpv := yearTotalCost / discountMultiplier in
  fleetUnits <- read fleetUnits ;;
  let unitsCommissioned :=
    fold_left
      (fun acc unit =>
         let rate := or_num (commissioning_rate_per_month unit) 1 in
         let monthsToFullDeploy := Math_ceil (quantity unit / rate) in
         let yearsToFullDeploy := inject_Z monthsToFullDeploy / 12 in
         if (Math_ceil yearsToFullDeploy <=? year)%Z
         then acc + quantity unit
         else
           let monthsElapsed := inject_Z (year * 12) in
           acc + Math_min (quantity unit)
                          (inject_Z (Math_floor (monthsElapsed * rate))))
      fleetUnits 0 in
  let yearLaborHoursScaled :=
    if ltb 0 totalUnits
    then totalAnnualLaborHours * (unitsCommissioned / totalUnits)
    else 0 in
  let yearTechsNeeded :=
    if ltb 0 availableHoursPerTech
    then Math_ceil ((yearLaborHoursScaled * 1.15) / availableHoursPerTech)
    else 0%Z in
  ret {| cumulativeCost := cumulative;
         npvTotal := npvTotal st + yearNpv;
         annualProjections :=
           annualProjections st ++
           [ {| pr_year := year;
                units_commissioned := unitsCommissioned;
                pr_technicians_needed := yearTechsNeeded;
                maintenance_cost := round2 yearMaintenanceCost;
                fuel_cost := round2 yearFuelCost;
                downtime_cost := round2 yearDowntimeCost;
                component_replacement_cost := round2 yearComponentCost;
                total_cost := round2 yearTotalCost;
                cumulative_cost := round2 cumulative;
                npv_of_year := round2 yearNpv |} ] |}.

(** ** [runAnalysis(data)] *)

Definition runAnalysis : M AnalysisResult :=
  analysisPeriod <- read (fun d => analysis_period_years (scenario d)) ;;
  discountRate <- read (fun d => discount_rate_pct (scenario d) / 100) ;;
  inflationRate <- read (fun d => inflation_rate_pct (scenario d) / 100) ;;
  overheadMarkup <- read (fun d => overhead_markup_pct (scenario d) / 100) ;;
  partsDiscount <- read (fun d => parts_discount_pct (scenario d)) ;;
  availableHoursPerTech <-
    read (fun d => working_days_per_year (scenario d)
                   * hours_per_day (scenario d)
                   * (target_utilization_pct (scenario d) / 100)) ;;
  totalUnits <-
    read (fun d => fold_left (fun sum u => sum + quantity u)
                             (fleetUnits d) 0) ;;
  totalKw <-
    read (fun d => fold_left
                     (fun sum u => sum + power_rating_kw u * quantity u)
                     (fleetUnits d) 0) ;;
  totalWeightedHours <-
    read (fun d => fold_left
                     (fun sum u =>
                        sum + or_num (annual_hours u) (getDefaultHours u)
                              * quantity u)
                     (fleetUnits d) 0) ;;
  let avgAnnualHours :=
    if ltb 0 totalUnits then totalWeightedHours / totalUnits else 0 in
  pmTasks <- read pmTasks ;;
  tasks <- forEach pmTasks (taskStep totalUnits avgAnnualHours partsDiscount)
                   {| taskBreakdown := [];
                      totalAnnualLaborHours := 0;
                      totalAnnualLaborCost := 0;
                      totalAnnualPartsCost := 0 |} ;;
  let annualMaintenanceCostBase :=
    totalAnnualLaborCost tasks + totalAnnualPartsCost tasks in
  let annualOverhead := annualMaintenanceCostBase * overheadMarkup in
  let totalAnnualMaintenanceCost :=
    annualMaintenanceCostBase + annualOverhead in
  let safetyFactor := 1.15 in
  let techniciansNeeded :=
    if ltb 0 availableHoursPerTech
    then Math_ceil ((totalAnnualLaborHours tasks * safetyFactor)
                    / availableHoursPerTech)
    else 0%Z in
  let staffing :=
    {| total_annual_labor_hours := round2 (totalAnnualLaborHours tasks);
       available_hours_per_technician := round2 availableHoursPerTech;
       safety_factor := safetyFactor;
       technicians_needed := techniciansNeeded;
       utilization_without_safety :=
         if ltb 0 availableHoursPerTech
         then round2 ((totalAnnualLaborHours tasks
                       / (inject_Z techniciansNeeded
                          * availableHoursPerTech))
                      * 100)
         else 0 |} in
  includeFuel <- read (fun d => include_fuel_costs (scenario d)) ;;
  fuel <- (if includeFuel
           then fleetUnits <- read fleetUnits ;;
                forEach fleetUnits fuelStep
                        {| annualFuelCost := 0; fuelDetails := [] |}
           else ret {| annualFuelCost := 0; fuelDetails := [] |}) ;;
  componentLifecycles <- read componentLifecycles ;;
  comps <- forEach componentLifecycles
                   (lifecycleStep analysisPeriod inflationRate partsDiscount)
                   {| componentReplacements := [];
                      totalComponentCostOverPeriod := 0 |} ;;
  includeDowntime <- read (fun d => include_downtime_costs (scenario d)) ;;
  annualDowntimeCost <-
    (if includeDowntime
     then
       let totalServicesPerYear :=
         fold_left (fun sum t => sum + services_per_year t)
                   (taskBreakdown tasks) 0 in
       let avgDowntimePerService :=
         if (0 <? List.length pmTasks)%nat
         then (totalAnnualLaborHours tasks / totalServicesPerYear) * 1.5
         else 0 in
       let totalDowntimeHours :=
         totalServicesPerYear * avgDowntimePerService in
       downtimeCostPerHour <-
         read (fun d => downtime_cost_per_hour (scenario d)) ;;
       ret (totalDowntimeHours * downtimeCostPerHour)
     else ret 0) ;;
  years <- forEach (upto (Math_floor analysisPeriod))
                   (yearStep discountRate inflationRate availableHoursPerTech
                             totalUnits (taskBreakdown tasks)
                             (totalAnnualLaborHours tasks)
                             totalAnnualMaintenanceCost
                             (annualFuelCost fuel) annualDowntimeCost
                             (componentReplacements comps))
                   {| cumulativeCost := 0; npvTotal := 0;
                      annualProjections := [] |} ;;
  let totalAnnualKwh := totalKw * avgAnnualHours in
  let costPerKwh :=
    if ltb 0 totalAnnualKwh
    then totalAnnualMaintenanceCost / totalAnnualKwh else 0 in
  let tco :=
    {| total_npv := round2 (npvTotal years);
       total_nominal := round2 (cumulativeCost years);
       tco_analysis_period_years := analysisPeriod;
       average_annual_cost :=
         round2 (cumulativeCost years / analysisPeriod);
       average_annual_cost_npv :=
         round2 (npvTotal years / analysisPeriod) |} in
  scenarioId <- read (fun d => sc_id (scenario d)) ;;
  scenarioName <- read (fun d => sc_name (scenario d)) ;;
  now <- newDate ;;
  sc <- read scenario ;;
  ret {| scenario_id := scenarioId;
         scenario_name := scenarioName;
         calculated_at := now;
         fleet_summary :=
           {| fleet_name := sc_fleet_name sc;
              fs_total_units := totalUnits;
              fs_total_kw := round2 totalKw;
              average_annual_hours := round2 avgAnnualHours;
              total_annual_kwh := round2 totalAnnualKwh |};
         maintenance_cost_summary :=
           {| annual_labor_cost := round2 (totalAnnualLaborCost tasks);
              annual_parts_cost := round2 (totalAnnualPartsCost tasks);
              annual_overhead := round2 annualOverhead;
              mcs_overhead_markup_pct := overhead_markup_pct sc;
              total_annual_maintenance_cost :=
                round2 totalAnnualMaintenanceCost |};
         pm_task_breakdown := taskBreakdown tasks;
         res_staffing := staffing;
         fuel_summary :=
           {| fuel_enabled := include_fuel_costs sc;
              fs_fuel_cost_per_unit := fuel_cost_per_unit sc;
              fs_annual_fuel_cost := round2 (annualFuelCost fuel);
              details := fuelDetails fuel |};
         downtime_summary :=
           {| downtime_enabled := include_downtime_costs sc;
              ds_downtime_cost_per_hour := downtime_cost_per_hour sc;
              annual_downtime_cost := round2 annualDowntimeCost |};
         component_replacements :=
           {| total_cost_over_period :=
                round2 (totalComponentCostOverPeriod comps);
              components := componentReplacements comps |};
         cost_per_kwh := round2 costPerKwh;
         res_tco := tco;
         annual_projections := annualProjections years;
         parameters :=
           {| p_analysis_period_years := analysisPeriod;
              p_labor_rate := labor_rate sc;
              p_labor_rate_specialist := labor_rate_specialist sc;
              p_labor_rate_engineer := labor_rate_engineer sc;
              p_parts_discount_pct := parts_discount_pct sc;
              p_overhead_markup_pct := overhead_markup_pct sc;
              p_discount_rate_pct := discount_rate_pct sc;
              p_inflation_rate_pct := inflation_rate_pct sc;
              p_fuel_cost_per_unit := fuel_cost_per_unit sc;
              p_downtime_cost_per_hour := downtime_cost_per_hour sc |} |}.
(** The fleet units that the loop over [matchingUnits] does not skip with
    one of its two [continue] statements. *)
Definition replacing (d : ScenarioData) (lc : ComponentLifecycle)
    (u : FleetUnit) : bool :=
  (negb (leb (unitHours u) 0 || leb (expected_life_hours lc) 0)
   && negb (Z.leb (replacementsOverPeriod d lc u) 0))%bool.
End Stateful.

(* ================================================================== *)
(** * server/services/calculator.js *)
(* ================================================================== *)

Module Calculator.
Import Js.
Local Open Scope Q_scope.
Local Open Scope string_scope.

(** ** The resolved configuration *)

Record FleetUnit := {
  quantity : option Q;
  annual_hours : option Q;
  duty_cycle : option Q;
  commissioning_rate_per_month : option Q;
  fuel_consumption_rate : option Q;
  fuel_consumption_unit : option string;
  power_rating_kw : option Q
}.

Record Part := {
  part_number : option string;
  part_quantity : option Q;
  unit_price : option Q
}.

Record PMTask := {
  name : string;
  interval_hours : option Q;
  labor_hours : Q;
  skill_level : option string;
  is_one_time : bool;
  is_automated : bool;
  enabled : option bool;
  parts : list Part
}.

Record ComponentLifecycle := {
  component_name : string;
  category : option string;
  expected_life_hours : option Q;
  replacement_labor_hours : option Q;
  replacement_cost : option Q
}.

(** The fields of [config] after the defaults of the destructuring
    pattern have filled the absent ones ([labor_rate = 120],
    [labor_rate_specialist = 180], [labor_rate_engineer = 250],
    [parts_discount_pct = 20], [overhead_markup_pct = 15],
    [working_days_per_year = 250], [hours_per_day = 8],
    [target_utilization_pct = 75], [analysis_period_years = 20],
    [discount_rate_pct = 5], [inflation_rate_pct = 3],
    [fuel_cost_per_unit = 1.0], [downtime_cost_per_hour = 500], both
    flags [true], no component lifecycle, and the six rates of the
    enhanced cost categories). *)
Record Config := {
  fleet_units : list FleetUnit;
  pm_tasks : list PMTask;
  labor_rate : Q;
  labor_rate_specialist : Q;
  labor_rate_engineer : Q;
  parts_discount_pct : Q;
  overhead_markup_pct : Q;
  working_days_per_year : Q;
  hours_per_day : Q;
  target_utilization_pct : Q;
  analysis_period_years : Q;
  discount_rate_pct : Q;
  inflation_rate_pct : Q;
  fuel_cost_per_unit : Q;
  downtime_cost_per_hour : Q;
  include_fuel_costs : bool;
  include_downtime_costs : bool;
  component_lifecycles : list ComponentLifecycle;
  energy_efficiency_cost_per_kw : Q;
  environmental_compliance_cost_per_unit : Q;
  training_cost_per_technician : Q;
  insurance_cost_pct : Q;
  warranty_cost_pct : Q;
  equipment_value_per_kw : Q
}.

Inductive TaskStatus := automated | disabled | active.
Inductive TaskType := one_time | recurring.

Record TaskRow := {
  row_name : string;
  status : TaskStatus;
  type : option TaskType;
  row_interval_hours : option Q;
  services_per_year : Q;
  labor_hours_per_year : Q;
  labor_cost_per_year : Q;
  parts_cost_per_year : Q;
  total_cost_per_year : Q;
  pct_of_workload : Q
}.

(** A row of the staffing ramp (the display label ["Month m"] is the
    month number again). *)
Record StaffingRow := {
  month : Z;
  units_active : Q;
  technicians : Z
}.

Record ScheduleItem := { si_year : Z; si_cost : Q }.

Record ComponentReplacement := {
  cr_component_name : string;
  cr_category : option string;
  cr_expected_life_hours : Q;
  years_to_replacement : Q;
  replacements_in_period : Z;
  cost_per_replacement : Q;
  cr_total_cost : Q;
  schedule : list ScheduleItem
}.

Record YearRow := {
  yr_year : Z;
  maintenance : Q;
  fuel : Q;
  downtime : Q;
  replacements : Q;
  total : Q;
  cumulative : Q;
  npv_cumulative : Q
}.

Section CalculateFullAnalysis.
Variable config : Config.

Definition partsDiscount : Q := parts_discount_pct config / 100.
Definition overheadMarkup : Q := overhead_markup_pct config / 100.
Definition discountRate : Q := discount_rate_pct config / 100.
Definition inflationRate : Q := inflation_rate_pct config / 100.
Definition utilization : Q := target_utilization_pct config / 100.
Definition availableHoursPerTech : Q :=
  working_days_per_year config * hours_per_day config * utilization.

(** ** Aggregate fleet totals *)

Definition qty (u : FleetUnit) : Q := or_num (quantity u) 1.
Definition hours (u : FleetUnit) : Q := or_num (annual_hours u) 6500.
Definition rate (u : FleetUnit) : Q :=
  or_num (commissioning_rate_per_month u) (qty u).

Definition totalUnits : Q :=
  fold_left (fun acc u => acc + qty u) (fleet_units config) 0.
Definition weightedAnnualHours : Q :=
  fold_left (fun acc u => acc + qty u * hours u) (fleet_units config) 0.
Definition totalPowerKw : Q :=
  fold_left (fun acc u => acc + qty u * or_num (power_rating_kw u) 0)
            (fleet_units config) 0.

Definition maxCommissioningMonths : Z :=
  fold_left (fun acc u =>
               if ltb 0 (rate u)
               then Z.max acc (Math_ceil (qty u / rate u))
               else acc)
            (fleet_units config) 0%Z.

(** A rate given in CFH is divided by 100 (1 therm is about 100 cubic
    feet); any other unit is taken as it is. *)
Definition normalizedFuelRate (u : FleetUnit) : Q :=
  let fuelRate := or_num (fuel_consumption_rate u) 0 in
  let fuelUnit := or_str (fuel_consumption_unit u) "CFH" in
  if String.eqb fuelUnit "CFH" then fuelRate / 100 else fuelRate.

Definition totalFuelConsumptionPerHour : Q :=
  fold_left (fun acc u =>
               acc + qty u * normalizedFuelRate u
                     * or_num (duty_cycle u) 0.75)
            (fleet_units config) 0.

Definition avgAnnualHours : Q :=
  if ltb 0 totalUnits then weightedAnnualHours / totalUnits else 6500.
Definition totalAnnualOperatingHours : Q := weightedAnnualHours.

(** ** PM task cost breakdown *)

Definition taskStatus (task : PMTask) : TaskStatus :=
  if is_automated task then automated
  else match enabled task with
       | Some false => disabled
       | _ => active
       end.

Definition laborRate (task : PMTask) : Q :=
  match skill_level task with
  | Some s =>
      if String.eqb s "engineer" then labor_rate_engineer config
      else if String.eqb s "specialist" then labor_rate_specialist config
      else labor_rate config
  | None => labor_rate config
  end.

Definition partsPerService (task : PMTask) : Q :=
  fold_left (fun acc part =>
               acc + or_num (unit_price part) 0
                     * or_num (part_quantity part) 1
                     * (1 - partsDiscount))
            (parts task) 0.

Definition interval (task : PMTask) : Q :=
  or_num (interval_hours task) 500.

Definition servicesPerYear (task : PMTask) : Q :=
  match taskStatus task with
  | active =>
      if is_one_time task then totalUnits
      else inject_Z (Math_round (totalAnnualOperatingHours / interval task))
  | _ => 0
  end.

Definition laborHoursPerYear (task : PMTask) : Q :=
  match taskStatus task with
  | active =>
      if is_one_time task then (totalUnits * labor_hours task) / 3
      else servicesPerYear task * labor_hours task
  | _ => 0
  end.

Definition laborCostPerYear (task : PMTask) : Q :=
  laborHoursPerYear task * laborRate task.

Definition partsCostPerYear (task : PMTask) : Q :=
  match taskStatus task with
  | active =>
      if is_one_time task then (totalUnits * partsPerService task) / 3
      else servicesPerYear task * partsPerService task
  | _ => 0
  end.

Definition totalAnnualServices : Q :=
  fold_left (fun acc t => acc + servicesPerYear t) (pm_tasks config) 0.
Definition totalAnnualLaborHours : Q :=
  fold_left (fun acc t => acc + laborHoursPerYear t) (pm_tasks config) 0.
Definition totalAnnualLaborCost : Q :=
  fold_left (fun acc t => acc + laborCostPerYear t) (pm_tasks config) 0.
Definition totalAnnualPartsCost : Q :=
  fold_left (fun acc t => acc + partsCostPerYear t) (pm_tasks config) 0.

Definition round1 (x : Q) : Q := inject_Z (Math_round (x * 10)) / 10.
Definition roundQ (x : Q) : Q := inject_Z (Math_round x).

(** The row pushed for a task, with the workload share filled in by
    the second pass over the breakdown. *)
Definition taskRow (task : PMTask) : TaskRow :=
  let st := taskStatus task in
  let lh := match st with
            | active => round1 (laborHoursPerYear task)
            | _ => 0
            end in
  {| row_name := name task;
     status := st;
     type := match st with
             | active => Some (if is_one_time task then one_time
                               else recurring)
             | _ => None
             end;
     row_interval_hours :=
       match st with
       | active => if is_one_time task then interval_hours task
                   else Some (interval task)
       | _ => interval_hours task
       end;
     services_per_year := servicesPerYear task;
     labor_hours_per_year := lh;
     labor_cost_per_year :=
       match st with
       | active => roundQ (laborCostPerYear task) | _ => 0 end;
     parts_cost_per_year :=
       match st with
       | active => roundQ (partsCostPerYear task) | _ => 0 end;
     total_cost_per_year :=
       match st with
       | active => roundQ (laborCostPerYear task + partsCostPerYear task)
       | _ => 0
       end;
     pct_of_workload :=
       if ltb 0 totalAnnualLaborHours
       then inject_Z (Math_round (lh / totalAnnualLaborHours * 1000)) / 10
       else 0 |}.

Definition taskBreakdown : list TaskRow := map taskRow (pm_tasks config).

(** ** Overhead and staffing *)

Definition maintenanceCostBeforeOverhead : Q :=
  totalAnnualLaborCost + totalAnnualPartsCost.
Definition annualOverhead : Q :=
  maintenanceCostBeforeOverhead * overheadMarkup.
Definition totalAnnualMaintenanceCost : Q :=
  maintenanceCostBeforeOverhead + annualOverhead.

Definition techsRequired : Z :=
  if ltb 0 availableHoursPerTech
  then Math_ceil (totalAnnualLaborHours / availableHoursPerTech * 1.15)
  else 0%Z.

(** ** Staffing ramp timeline *)

Definition rampMonths : Z :=
  Z.min 36 (Z.max 12 (maxCommissioningMonths + 6)).

Definition rampRate (u : FleetUnit) : Q :=
  or_num (commissioning_rate_per_month u) (or_num (quantity u) 1).

Definition unitsActive (m : Z) : Q :=
  fold_left (fun acc u =>
               acc + Math_min (qty u) (rampRate u * inject_Z m))
            (fleet_units config) 0.

Definition proportionalTechs (m : Z) : Z :=
  if ltb 0 totalUnits
  then Math_ceil ((unitsActive m / totalUnits) * inject_Z techsRequired)
  else 0%Z.

Definition staffingRow (m : Z) : StaffingRow :=
  {| month := m;
     units_active := unitsActive m;
     technicians := proportionalTechs m |}.

Definition staffingTimeline : list StaffingRow :=
  map staffingRow (upto rampMonths).

(** ** Fuel, downtime and the enhanced cost categories *)

Definition annualFuelCost : Q :=
  if include_fuel_costs config
  then totalFuelConsumptionPerHour * avgAnnualHours
       * fuel_cost_per_unit config
  else 0.

Definition estimatedDowntimeHours : Q := totalAnnualOperatingHours * 0.02.
Definition annualDowntimeCost : Q :=
  if include_downtime_costs config
  then estimatedDowntimeHours * downtime_cost_per_hour config
  else 0.

Definition annualEnergyEfficiencyCost : Q :=
  totalPowerKw * energy_efficiency_cost_per_kw config.
Definition annualEnvironmentalComplianceCost : Q :=
  totalUnits * environmental_compliance_cost_per_unit config.
Definition annualTrainingCost : Q :=
  inject_Z techsRequired * training_cost_per_technician config.
Definition totalEquipmentValue : Q :=
  totalPowerKw * equipment_value_per_kw config.
Definition annualInsuranceCost : Q :=
  totalEquipmentValue * (insurance_cost_pct config / 100).
Definition annualWarrantyCost : Q :=
  totalEquipmentValue * (warranty_cost_pct config / 100).

(** ** Component replacement costs *)

Definition lifeHours (comp : ComponentLifecycle) : Q :=
  or_num (expected_life_hours comp) 50000.
Definition yearsToReplacement (comp : ComponentLifecycle) : Q :=
  lifeHours comp / avgAnnualHours.
Definition replacementsInPeriod (comp : ComponentLifecycle) : Z :=
  Math_floor (analysis_period_years config / yearsToReplacement comp).
Definition totalPerReplacement (comp : ComponentLifecycle) : Q :=
  or_num (replacement_cost comp) 0
  + or_num (replacement_labor_hours comp) 8 * labor_rate config.

(** The years [Math.ceil(yearsToReplacement * r)], [r = 1 ..
    replacementsInPeriod], that do not exceed the analysis period. *)
Definition scheduleYears (comp : ComponentLifecycle) : list Z :=
  filter (fun year => leb (inject_Z year) (analysis_period_years config))
         (map (fun r => Math_ceil (yearsToReplacement comp * inject_Z r))
              (upto (replacementsInPeriod comp))).

Definition componentSchedule (comp : ComponentLifecycle)
  : list ScheduleItem :=
  map (fun year => {| si_year := year;
                      si_cost := totalPerReplacement comp |})
      (scheduleYears comp).

Definition componentReplacement (comp : ComponentLifecycle)
  : ComponentReplacement :=
  {| cr_component_name := component_name comp;
     cr_category := category comp;
     cr_expected_life_hours := lifeHours comp;
     years_to_replacement := round1 (yearsToReplacement comp);
     replacements_in_period := replacementsInPeriod comp;
     cost_per_replacement := roundQ (totalPerReplacement comp);
     cr_total_cost :=
       roundQ (totalPerReplacement comp
               * inject_Z (replacementsInPeriod comp) * totalUnits);
     schedule := componentSchedule comp |}.

Definition componentReplacements : list ComponentReplacement :=
  map componentReplacement (component_lifecycles config).

Definition totalReplacementCostOverPeriod : Q :=
  fold_left
    (fun acc comp =>
       fold_left (fun acc' _ => acc' + totalPerReplacement comp * totalUnits)
                 (scheduleYears comp) acc)
    (component_lifecycles config) 0.

(** ** Year-by-year projection *)

Definition inflationFactor (year : Z) : Q :=
  Math_pow (1 + inflationRate) (year - 1).
Definition discountFactor (year : Z) : Q :=
  Math_pow (1 + discountRate) year.

Definition yearReplacements (year : Z) : Q :=
  fold_left
    (fun acc comp =>
       fold_left
         (fun acc' s =>
            if Z.eqb (si_year s) year
            then acc' + si_cost s * totalUnits * inflationFactor year
            else acc')
         (schedule comp) acc)
    componentReplacements 0.

Definition yearTotal (year : Z) : Q :=
  totalAnnualMaintenanceCost * inflationFactor year
  + annualFuelCost * inflationFactor year
  + annualDowntimeCost * inflationFactor year
  + yearReplacements year.

Record ProjectionState := {
  cumulativeCost : Q;
  npv : Q;
  yearlyProjection : list YearRow
}.

Definition projectionStep (st : ProjectionState) (year : Z)
  : ProjectionState :=
  let cumulative := cumulativeCost st + yearTotal year in
  let npv' := npv st + yearTotal year / discountFactor year in
  {| cumulativeCost := cumulative;
     npv := npv';
     yearlyProjection :=
       yearlyProjection st ++
       [ {| yr_year := year;
            maintenance :=
              roundQ (totalAnnualMaintenanceCost * inflationFactor year);
            fuel := roundQ (annualFuelCost * inflationFactor year);
            downtime := roundQ (annualDowntimeCost * inflationFactor year);
            replacements := roundQ (yearReplacements year);
            total := roundQ (yearTotal year);
            cumulative := roundQ cumulative;
            npv_cumulative := roundQ npv' |} ] |}.

Definition projection : ProjectionState :=
  fold_left projectionStep
            (upto (Math_floor (analysis_period_years config)))
            {| cumulativeCost := 0; npv := 0; yearlyProjection := [] |}.

(** ** Unit costs, the cost breakdown and the summary *)

Definition annualEnergyKwh : Q := totalPowerKw * avgAnnualHours * 0.75.
Definition costPerKwh : Q :=
  if ltb 0 annualEnergyKwh
  then totalAnnualMaintenanceCost / annualEnergyKwh else 0.
Definition costPerOperatingHour : Q :=
  if ltb 0 totalAnnualOperatingHours
  then totalAnnualMaintenanceCost / totalAnnualOperatingHours else 0.

Definition entryIf (b : bool) (label : string) (value : Q)
  : list (string * Q) :=
  if b then [(label, roundQ value)] else [].

Definition costBreakdown : list (string * Q) :=
  [ ("Labor", roundQ totalAnnualLaborCost);
    ("Parts", roundQ totalAnnualPartsCost);
    ("Overhead", roundQ annualOverhead) ]
  ++ entryIf (include_fuel_costs config && ltb 0 annualFuelCost)
             "Fuel" annualFuelCost
  ++ entryIf (include_downtime_costs config && ltb 0 annualDowntimeCost)
             "Est. Downtime" annualDowntimeCost
  ++ entryIf (ltb 0 annualEnergyEfficiencyCost)
             "Energy Efficiency" annualEnergyEfficiencyCost
  ++ entryIf (ltb 0 annualEnvironmentalComplianceCost)
             "Environmental Compliance" annualEnvironmentalComplianceCost
  ++ entryIf (ltb 0 annualTrainingCost)
             "Training & Certification" annualTrainingCost
  ++ entryIf (ltb 0 annualInsuranceCost) "Insurance" annualInsuranceCost
  ++ entryIf (ltb 0 annualWarrantyCost) "Warranty" annualWarrantyCost.

Record Summary := {
  total_units : Q;
  avg_annual_hours : Q;
  total_annual_operating_hours : Q;
  total_power_kw : Q;
  annual_maintenance_cost : Q;
  annual_labor_cost : Q;
  annual_parts_cost : Q;
  annual_overhead : Q;
  annual_fuel_cost : Q;
  annual_downtime_cost : Q;
  annual_energy_efficiency_cost : Q;
  annual_environmental_compliance_cost : Q;
  annual_training_cost : Q;
  annual_insurance_cost : Q;
  annual_warranty_cost : Q;
  annual_total_cost : Q;
  cost_per_kwh : Q;
  cost_per_operating_hour : Q;
  technicians_required : Z;
  annual_services : Q;
  total_labor_hours : Q;
  npv_total_cost : Q;
  sum_analysis_period_years : Q
}.

Definition summary : Summary :=
  {| total_units := totalUnits;
     avg_annual_hours := roundQ avgAnnualHours;
     total_annual_operating_hours := roundQ totalAnnualOperatingHours;
     total_power_kw := roundQ totalPowerKw;
     annual_maintenance_cost := roundQ totalAnnualMaintenanceCost;
     annual_labor_cost := roundQ totalAnnualLaborCost;
     annual_parts_cost := roundQ totalAnnualPartsCost;
     annual_overhead := roundQ annualOverhead;
     annual_fuel_cost := roundQ annualFuelCost;
     annual_downtime_cost := roundQ annualDowntimeCost;
     annual_energy_efficiency_cost := roundQ annualEnergyEfficiencyCost;
     annual_environmental_compliance_cost :=
       roundQ annualEnvironmentalComplianceCost;
     annual_training_cost := roundQ annualTrainingCost;
     annual_insurance_cost := roundQ annualInsuranceCost;
     annual_warranty_cost := roundQ annualWarrantyCost;
     annual_total_cost :=
       roundQ (totalAnnualMaintenanceCost + annualFuelCost
               + annualDowntimeCost + annualEnergyEfficiencyCost
               + annualEnvironmentalComplianceCost + annualTrainingCost
               + annualInsuranceCost + annualWarrantyCost);
     cost_per_kwh := inject_Z (Math_round (costPerKwh * 10000)) / 10000;
     cost_per_operating_hour :=
       inject_Z (Math_round (costPerOperatingHour * 100)) / 100;
     technicians_required := techsRequired;
     annual_services := totalAnnualServices;
     total_labor_hours := roundQ totalAnnualLaborHours;
     npv_total_cost := roundQ (npv projection);
     sum_analysis_period_years := analysis_period_years config |}.

Record Analysis := {
  res_summary : Summary;
  task_breakdown : list TaskRow;
  cost_breakdown : list (string * Q);
  yearly_projection : list YearRow;
  staffing_timeline : list StaffingRow;
  component_replacements : list ComponentReplacement
}.

Definition calculateFullAnalysis : Analysis :=
  {| res_summary := summary;
     task_breakdown := taskBreakdown;
     cost_breakdown := costBreakdown;
     yearly_projection := yearlyProjection projection;
     staffing_timeline := staffingTimeline;
     component_replacements := componentReplacements |}.
End CalculateFullAnalysis.

(** The invariants of the data model on which the staffing properties
    rest: quantities, annual hours, service intervals and labor hours
    are not negative. *)
Definition nonNegativeInputs (config : Config) : Prop :=
  (forall u, In u (fleet_units config) -> 0 <= qty u /\ 0 <= hours u)
  /\ (forall t, In t (pm_tasks config) ->
                0 <= labor_hours t /\ 0 <= interval t).
End Calculator.

(* ================================================================== *)
(** * The reliability service (Weibull analysis) *)
(* ================================================================== *)

Module Weibull.
Local Open Scope R_scope.

(** ** JavaScript numbers over the reals

    A number is a real, NaN or one of the two infinities.  The
    operations follow IEEE 754 as ECMAScript prescribes it, without
    rounding, overflow and underflow; a zero is the positive zero. *)

Inductive num := Fin (x : R) | PInf | NInf | NaN.

Definition Rltb (x y : R) : bool := if Rlt_dec x y then true else false.
Definition Rleb (x y : R) : bool := if Rle_dec x y then true else false.
Definition Reqb (x y : R) : bool := if Req_dec_T x y then true else false.

Definition neg (a : num) : num :=
  match a with
  | Fin x => Fin (- x)
  | PInf => NInf
  | NInf => PInf
  | NaN => NaN
  end.

Definition add (a b : num) : num :=
  match a, b with
  | NaN, _ | _, NaN => NaN
  | Fin x, Fin y => Fin (x + y)
  | PInf, NInf | NInf, PInf => NaN
  | PInf, _ | _, PInf => PInf
  | NInf, _ | _, NInf => NInf
  end.

Definition sub (a b : num) : num := add a (neg b).

(** An infinity of the given sign times a finite [x]. *)
Definition mul_inf (positive : bool) (x : R) : num :=
  if Rltb 0 x then (if positive then PInf else NInf)
  else if Rltb x 0 then (if positive then NInf else PInf)
  else NaN.

Definition mul (a b : num) : num :=
  match a, b with
  | NaN, _ | _, NaN => NaN
  | Fin x, Fin y => Fin (x * y)
  | PInf, Fin y | Fin y, PInf => mul_inf true y
  | NInf, Fin y | Fin y, NInf => mul_inf false y
  | PInf, PInf | NInf, NInf => PInf
  | PInf, NInf | NInf, PInf => NInf
  end.

Definition div (a b : num) : num :=
  match a, b with
  | NaN, _ | _, NaN => NaN
  | Fin x, Fin y =>
      if Reqb y 0
      then (if Rltb 0 x then PInf else if Rltb x 0 then NInf else NaN)
      else Fin (x / y)
  | Fin _, PInf | Fin _, NInf => Fin 0
  | PInf, Fin y => if Rltb y 0 then NInf else PInf
  | NInf, Fin y => if Rltb y 0 then PInf else NInf
  | PInf, PInf | PInf, NInf | NInf, PInf | NInf, NInf => NaN
  end.

(** [a < b] and [a <= b]: false as soon as an operand is NaN. *)
Definition lt (a b : num) : bool :=
  match a, b with
  | NaN, _ | _, NaN => false
  | Fin x, Fin y => Rltb x y
  | NInf, NInf | PInf, _ | _, NInf => false
  | NInf, _ | _, PInf => true
  end.

Definition le (a b : num) : bool :=
  match a, b with
  | NaN, _ | _, NaN => false
  | Fin x, Fin y => Rleb x y
  | NInf, _ | _, PInf => true
  | PInf, _ | _, NInf => false
  end.

Definition Math_exp (a : num) : num :=
  match a with
  | Fin x => Fin (exp x)
  | PInf => PInf
  | NInf => Fin 0
  | NaN => NaN
  end.

Definition Math_sqrt (a : num) : num :=
  match a with
  | Fin x => if Rltb x 0 then NaN else Fin (sqrt x)
  | PInf => PInf
  | NInf | NaN => NaN
  end.

Definition Math_sin (a : num) : num :=
  match a with
  | Fin x => Fin (sin x)
  | _ => NaN
  end.

Definition Math_round (a : num) : num :=
  match a with
  | Fin x => Fin (IZR (Zfloor (x + / 2)))
  | _ => a
  end.

Definition is_odd_integer (y : R) : bool :=
  Reqb (IZR (Zfloor y)) y && Z.odd (Zfloor y).
Definition is_integer (y : R) : bool := Reqb (IZR (Zfloor y)) y.

(** [Math.pow(b, e)]: the cases of Number::exponentiate. *)
Definition Math_pow (b e : num) : num :=
  match e with
  | NaN => NaN
  | Fin y =>
      if Reqb y 0 then Fin 1
      else
        match b with
        | NaN => NaN
        | Fin x =>
            if Rltb 0 x then Fin (Rpower x y)
            else if Reqb x 0 then (if Rltb 0 y then Fin 0 else PInf)
            else if is_integer y
                 then Fin (if Z.odd (Zfloor y) then - Rpower (- x) y
                           else Rpower (- x) y)
                 else NaN
        | PInf => if Rltb 0 y then PInf else Fin 0
        | NInf =>
            if Rltb 0 y then (if is_odd_integer y then NInf else PInf)
            else Fin 0
        end
  | PInf =>
      match b with
      | NaN => NaN
      | Fin x => if Rltb 1 (Rabs x) then PInf
                 else if Reqb (Rabs x) 1 then NaN else Fin 0
      | PInf | NInf => PInf
      end
  | NInf =>
      match b with
      | NaN => NaN
      | Fin x => if Rltb 1 (Rabs x) then Fin 0
                 else if Reqb (Rabs x) 1 then NaN else PInf
      | PInf | NInf => Fin 0
      end
  end.

(** ** The Weibull distribution *)

Definition weibullPDF (t beta eta : num) : num :=
  if le t (Fin 0) then Fin 0
  else mul (mul (div beta eta)
                (Math_pow (div t eta) (sub beta (Fin 1))))
           (Math_exp (neg (Math_pow (div t eta) beta))).

Definition weibullCDF (t beta eta : num) : num :=
  if le t (Fin 0) then Fin 0
  else sub (Fin 1) (Math_exp (neg (Math_pow (div t eta) beta))).

Definition weibullReliability (t beta eta : num) : num :=
  sub (Fin 1) (weibullCDF t beta eta).

(** ** The Lanczos approximation of the Gamma function *)

Definition g : R := 7.
Definition c0 : R := 0.99999999999980993.
(** [c[1] .. c[8]], each with its index. *)
Definition c : list (Z * R) :=
  [ (1%Z, 676.5203681218851); (2%Z, -1259.1392167224028);
    (3%Z, 771.32342877765313); (4%Z, -176.61502916214059);
    (5%Z, 12.507343278686905); (6%Z, -0.13857109526572012);
    (7%Z, 9.9843695780195716e-6); (8%Z, 1.5056327351493116e-7) ].

(** The statements after the reflection test: [z -= 1], the sum [x]
    and the closing product. *)
Definition lanczos (z0 : num) : num :=
  let z := sub z0 (Fin 1) in
  let x := fold_left
             (fun x ic => add x (div (Fin (snd ic)) (add z (Fin (IZR (fst ic))))))
             c (Fin c0) in
  let t := add (add z (Fin g)) (Fin 0.5) in
  mul (mul (mul (Math_sqrt (mul (Fin 2) (Fin PI)))
                (Math_pow t (add z (Fin 0.5))))
           (Math_exp (neg t)))
      x.

(** [gammaFunction] calls itself on [1 - z] when [z < 0.5]; [fuel]
    bounds the depth of the calls. *)
Fixpoint gammaFuel (fuel : nat) (z : num) : option num :=
  match fuel with
  | O => None
  | S fuel' =>
      if lt z (Fin 0.5)
      then match gammaFuel fuel' (sub (Fin 1) z) with
           | Some r =>
               Some (div (Fin PI) (mul (Math_sin (mul (Fin PI) z)) r))
           | None => None
           end
      else Some (lanczos z)
  end.

(** Two levels are enough for every argument ([gammaFuel_enough]). *)
Definition gammaFunction (z : num) : num :=
  match gammaFuel 2 z with
  | Some r => r
  | None => NaN
  end.

(** ** [generateFailureCurve] *)

Record CurvePoint := {
  hours : num;
  failure_probability : num;
  reliability : num;
  failure_rate : num
}.

Record CurveParameters := {
  beta : num;
  eta : num;
  mean_life : num;
  b10_life : num;
  b50_life : num
}.

Record FailureCurve := {
  curve : list CurvePoint;
  parameters : CurveParameters
}.

Definition round_to (scale : R) (a : num) : num :=
  div (Math_round (mul a (Fin scale))) (Fin scale).

(** The scale estimated from the expected life and the shape. *)
Definition etaOf (expectedLifeHours weibullShape : num) : num :=
  div expectedLifeHours
      (gammaFunction (add (Fin 1) (div (Fin 1) weibullShape))).

(** The two characteristic lives before [Math.round]. *)
Definition b10Of (expectedLifeHours weibullShape : num) : num :=
  mul (etaOf expectedLifeHours weibullShape)
      (Math_pow (Fin 0.1054) (div (Fin 1) weibullShape)).
Definition b50Of (expectedLifeHours weibullShape : num) : num :=
  mul (etaOf expectedLifeHours weibullShape)
      (Math_pow (Fin 0.6931) (div (Fin 1) weibullShape)).

Definition curvePoint (bet et step : num) (i : nat) : CurvePoint :=
  let t := mul (Fin (INR i)) step in
  {| hours := Math_round t;
     failure_probability := round_to 10000 (weibullCDF t bet et);
     reliability := round_to 10000 (weibullReliability t bet et);
     failure_rate := round_to 1000000 (weibullPDF t bet et) |}.

(** The source has no [throw] and calls only [Math] functions: it
    returns a record for every argument.  [points] is the number of
    intervals (50 when the argument is omitted, as [weibullShape] is
    2.5). *)
Definition generateFailureCurve (expectedLifeHours weibullShape : num)
    (points : nat) : FailureCurve :=
  let et := etaOf expectedLifeHours weibullShape in
  let maxTime := mul expectedLifeHours (Fin 2) in
  let step := div maxTime (Fin (INR points)) in
  {| curve := map (curvePoint weibullShape et step) (seq 0 (S points));
     parameters :=
       {| beta := weibullShape;
          eta := Math_round et;
          mean_life := expectedLifeHours;
          b10_life := Math_round (b10Of expectedLifeHours weibullShape);
          b50_life := Math_round (b50Of expectedLifeHours weibullShape) |} |}.

(** ** [optimalReplacementInterval] *)

Record OptimalInterval := {
  optimal_interval_hours : num;
  cost_per_hour : num;
  vs_oem_interval : num
}.

Section Search.
Variables expectedLifeHours weibullShape plannedCost
          unplannedCostMultiplier : num.

Definition unplannedCost : num := mul plannedCost unplannedCostMultiplier.
Definition searchStep : num := div expectedLifeHours (Fin 100).

Definition costRate (t : num) : num :=
  let pf := weibullCDF t weibullShape
                       (etaOf expectedLifeHours weibullShape) in
  let ps := sub (Fin 1) pf in
  let expectedCost := add (mul plannedCost ps) (mul unplannedCost pf) in
  let expectedLength := add (mul t ps) (mul (div t (Fin 2)) pf) in
  div expectedCost expectedLength.

(** [for (let t = step; t <= expectedLifeHours * 1.5; t += step)]:
    [None] when [fuel] iterations do not reach the exit. *)
Fixpoint searchLoop (fuel : nat) (t bestInterval bestCostRate : num)
  : option (num * num) :=
  match fuel with
  | O => None
  | S fuel' =>
      if le t (mul expectedLifeHours (Fin 1.5))
      then if lt (costRate t) bestCostRate
           then searchLoop fuel' (add t searchStep) t (costRate t)
           else searchLoop fuel' (add t searchStep)
                           bestInterval bestCostRate
      else Some (bestInterval, bestCostRate)
  end.

Definition optimalReplacementInterval (fuel : nat)
  : option OptimalInterval :=
  match searchLoop fuel searchStep expectedLifeHours PInf with
  | Some (bestInterval, bestCostRate) =>
      Some {| optimal_interval_hours := Math_round bestInterval;
              cost_per_hour := round_to 10000 bestCostRate;
              vs_oem_interval :=
                Math_round (mul (div bestInterval expectedLifeHours)
                                (Fin 100)) |}
  | None => None
  end.
End Search.
End Weibull.

(* ================================================================== *)
(** * The reliability service: the fleet-wide replacement schedule *)
(* ================================================================== *)

Module FleetSchedule.
Import Js.
Local Open Scope Q_scope.

(** [generateReplacementSchedule] only uses the field operations,
    [Math.floor] and [Math.round]: its numbers are exact rationals, as in
    the cost engines.  A component whose expected life is zero or absent
    (a quotient by zero) is outside the model. *)

Record Component := {
  component_name : string;
  category : option string;
  expected_life_hours : Q;
  replacement_cost : option Q;
  replacement_labor_hours : option Q
}.

Record Replacement := {
  component : string;
  r_category : option string;
  replacement_number : Z;
  units_affected : Q;
  cost_per_unit : Q;
  total_cost : Q
}.

Record YearEntry := {
  year : Z;
  hours : Z;
  replacements : list Replacement;
  year_total_cost : Q
}.

(** A whole number of hours up to 2^52.  On such hours the products,
    differences and quotients of the schedule are the ones a double
    computes: the floor of a quotient of two of them is never reached by
    the rounding of the division. *)
Definition wholeHours (h : Q) : Prop :=
  exists n : Z, h == inject_Z n /\ (0 <= n <= 2 ^ 52)%Z.

Section GenerateReplacementSchedule.
Variable components : list Component.
Variables totalUnits avgAnnualHours periodYears : Q.

Definition hoursAtYear (y : Z) : Q := inject_Z y * avgAnnualHours.

Definition replacementNumber (comp : Component) (y : Z) : Z :=
  Math_floor (hoursAtYear y / expected_life_hours comp).

Definition previousReplacements (comp : Component) (y : Z) : Z :=
  Math_floor ((hoursAtYear y - avgAnnualHours) / expected_life_hours comp).

(** The labor of a replacement is priced at the fixed rate of 120. *)
Definition costPerUnit (comp : Component) : Q :=
  or_num (replacement_cost comp) 0
  + or_num (replacement_labor_hours comp) 8 * 120.

Definition replacement (comp : Component) (y : Z) : Replacement :=
  {| component := component_name comp;
     r_category := category comp;
     replacement_number := replacementNumber comp y;
     units_affected := totalUnits;
     cost_per_unit := costPerUnit comp;
     total_cost := costPerUnit comp * totalUnits |}.

(** A component is replaced in the years in which the count of elapsed
    lives grows. *)
Definition replacedIn (y : Z) (comp : Component) : bool :=
  (previousReplacements comp y <? replacementNumber comp y)%Z.

Definition yearReplacements (y : Z) : list Replacement :=
  map (fun comp => replacement comp y) (filter (replacedIn y) components).

Definition yearEntry (y : Z) : YearEntry :=
  {| year := y;
     hours := Math_round (hoursAtYear y);
     replacements := yearReplacements y;
     year_total_cost :=
       fold_left (fun sum r => sum + total_cost r) (yearReplacements y) 0 |}.

(** [for (let year = 1; year <= periodYears; year++)] *)
Definition generateReplacementSchedule : list YearEntry :=
  map yearEntry (upto (Math_floor periodYears)).
End GenerateReplacementSchedule.
End FleetSchedule.

(* ================================================================== *)
(** * The price-list route: recognising the columns of an upload *)
(* ================================================================== *)

Module PriceLists.
Local Open Scope string_scope.

(** Headers are modelled as ASCII strings.  The white space of [trim]
    and of the class [\s] is then the tab, the line feed, the vertical
    tab, the form feed, the carriage return and the space. *)

Definition is_space (ch : ascii) : bool :=
  let n := nat_of_ascii ch in
  (Nat.leb 9 n && Nat.leb n 13) || Nat.eqb n 32.

Fixpoint trimStart (s : string) : string :=
  match s with
  | EmptyString => EmptyString
  | String ch s' => if is_space ch then trimStart s' else s
  end.

(** The string without its trailing white space. *)
Fixpoint trimEnd (s : string) : string :=
  match s with
  | EmptyString => EmptyString
  | String ch s' =>
      match trimEnd s' with
      | EmptyString => if is_space ch then EmptyString
                       else String ch EmptyString
      | rest => String ch rest
      end
  end.

Definition trim (s : string) : string := trimEnd (trimStart s).

(** The characters kept by [replace(/[^a-z0-9\s#]/g, '')]. *)
Definition kept (ch : ascii) : bool :=
  let n := nat_of_ascii ch in
  (Nat.leb 97 n && Nat.leb n 122) || (Nat.leb 48 n && Nat.leb n 57)
  || is_space ch || Nat.eqb n 35.

Fixpoint strip (s : string) : string :=
  match s with
  | EmptyString => EmptyString
  | String ch s' => if kept ch then String ch (strip s') else strip s'
  end.

Inductive Column :=
| part_number | description | category | unit_price | unit
| applicable_models.

(** [COLUMN_ALIASES], in the order of its keys. *)
Definition COLUMN_ALIASES : list (Column * list string) :=
  [ (part_number,
     [ "part_number"; "part number"; "part#"; "part #"; "partnumber"; "pn";
       "part no"; "part_no"; "partno"; "item number"; "item_number";
       "item#"; "item #"; "sku" ]);
    (description,
     [ "description"; "desc"; "name"; "part description";
       "part_description"; "item description"; "item_description";
       "part name"; "part_name" ]);
    (category,
     [ "category"; "cat"; "type"; "part type"; "part_type"; "group";
       "part_category" ]);
    (unit_price,
     [ "unit_price"; "unit price"; "price"; "cost"; "unit cost";
       "unit_cost"; "list price"; "list_price"; "amount"; "rate" ]);
    (unit,
     [ "unit"; "uom"; "unit of measure"; "unit_of_measure"; "measure" ]);
    (applicable_models,
     [ "applicable_models"; "applicable models"; "models"; "model";
       "applies to"; "applies_to"; "applicable"; "for models";
       "for_models" ]) ].

Definition includes (aliases : list string) (s : string) : bool :=
  existsb (String.eqb s) aliases.

(** The normal form compared with the aliases. *)
Definition normalForm (header : string) : string :=
  trim (strip (Js.toLowerCase (trim header))).

Fixpoint firstMatch (table : list (Column * list string)) (lower : string)
  : option Column :=
  match table with
  | [] => None
  | (canonical, aliases) :: rest =>
      if includes aliases lower then Some canonical
      else firstMatch rest lower
  end.

Definition normalizeColumnName (header : string) : option Column :=
  firstMatch COLUMN_ALIASES (normalForm header).

(** The column check of [POST /upload]: the mapping built from the
    headers of the first row must contain both required columns. *)
Definition columnMap (headers : list string) : list (string * Column) :=
  flat_map (fun header =>
              match normalizeColumnName header with
              | Some canonical => [(header, canonical)]
              | None => []
              end) headers.

Definition Column_eqb (a b : Column) : bool :=
  match a, b with
  | part_number, part_number | description, description
  | category, category | unit_price, unit_price | unit, unit
  | applicable_models, applicable_models => true
  | _, _ => false
  end.

Definition mapped (headers : list string) (col : Column) : bool :=
  existsb (fun hc => Column_eqb (snd hc) col) (columnMap headers).

Inductive ColumnCheck :=
| columns_ok
| no_part_number_column
| no_unit_price_column.

Definition checkColumns (headers : list string) : ColumnCheck :=
  if negb (mapped headers part_number) then no_part_number_column
  else if negb (mapped headers unit_price) then no_unit_price_column
  else columns_ok.
End PriceLists.

(* ================================================================== *)
(** * Closed forms over the reals *)
(* ================================================================== *)

Module LanczosReal.
Import Weibull.
Local Open Scope R_scope.

(** The sum [x] of the Lanczos routine at a finite [z] (after [z -= 1]). *)
Definition xsum (z : R) : R :=
fold_left (fun x ic => x + snd ic / (z + IZR (fst ic))) c c0.

(** The value of the routine at a finite argument [z0 >= 1]. *)
Definition lanczosReal (z0 : R) : R :=
sqrt (2 * PI) * Rpower (z0 + - (1) + g + 0.5) (z0 + - (1) + 0.5)
* exp (- (z0 + - (1) + g + 0.5)) * xsum (z0 + - (1)).

(** [xsum z] brought to the common denominator
    [(z + 1) ... (z + 8)]: every coefficient of the numerator is
    positive. *)
Definition lanczosNumerator (z : R) : R :=
10619610.0990759932709991854624
+ 11246929.48465992679043124637008 * z ^ 1
+ 5210869.01776083147010659452272 * z ^ 2
+ 1379496.26587867073569247430844 * z ^ 3
+ 228235.2154997145190938204396 * z ^ 4
+ 24165.51066502953365608089232 * z ^ 5
+ 1599.04253472204580416564888 * z ^ 6
+ 60.45833333334203389450276 * z ^ 7
+ 0.99999999999980993 * z ^ 8.

Definition lanczosDenominator (z : R) : R :=
(z + 1) * (z + 2) * (z + 3) * (z + 4) * (z + 5) * (z + 6) * (z + 7) * (z + 8).

(** Squaring [k] times a number given in units of [1 / scale], each time
    rounded down to that unit. *)
Fixpoint squareDown (scale : Z) (k : nat) (x : Z) : Z :=
match k with
| O => x
| S k' => squareDown scale k' ((x * x) / scale)
end.
End LanczosReal.

(* ================================================================== *)
(** * Example inputs *)
(* ================================================================== *)

Module Examples.
Import Js.
Local Open Scope Q_scope.
Local Open Scope string_scope.

(** A scenario with the default financial assumptions of the schema,
    a technician rate of 100 and the given overhead markup. *)
Definition scenarioWith (period overhead : Q) : Maintenance.Scenario :=
  {| Maintenance.sc_id := Some 1%Z;
     Maintenance.sc_name := "Baseline";
     Maintenance.sc_fleet_name := Some "Site A";
     Maintenance.fleet_id := Some 1%Z;
     Maintenance.pm_schedule_id := Some 1%Z;
     Maintenance.price_list_id := None;
     Maintenance.analysis_period_years := period;
     Maintenance.labor_rate := 100;
     Maintenance.labor_rate_specialist := 180;
     Maintenance.labor_rate_engineer := 250;
     Maintenance.parts_discount_pct := 20;
     Maintenance.overhead_markup_pct := overhead;
     Maintenance.working_days_per_year := 250;
     Maintenance.hours_per_day := 8;
     Maintenance.target_utilization_pct := 75;
     Maintenance.discount_rate_pct := 5;
     Maintenance.inflation_rate_pct := 3;
     Maintenance.fuel_cost_per_unit := 1;
     Maintenance.downtime_cost_per_hour := 500;
     Maintenance.include_fuel_costs := true;
     Maintenance.include_downtime_costs := true |}.

(** A fleet row of [qty] PSI-11.1L-NG-300 units (the seeded catalogue
    entry: 2940 / 2205 / 1470 CFH). *)
Definition unitWith (qty hrs duty : Q) : Maintenance.FleetUnit :=
  {| Maintenance.equipment_model_id := 5;
     Maintenance.unit_name := Some "Primary 300kW Units";
     Maintenance.model_number := "PSI-11.1L-NG-300";
     Maintenance.quantity := qty;
     Maintenance.application_type := Some "prime";
     Maintenance.annual_hours := Some hrs;
     Maintenance.duty_cycle := Some duty;
     Maintenance.commissioning_rate_per_month := Some 2;
     Maintenance.power_rating_kw := 300;
     Maintenance.fuel_consumption_rate_full := Some 2940;
     Maintenance.fuel_consumption_rate_75 := Some 2205;
     Maintenance.fuel_consumption_rate_50 := Some 1470;
     Maintenance.fuel_consumption_unit := Some "CFH";
     Maintenance.default_annual_hours_standby := Some 200;
     Maintenance.default_annual_hours_prime := Some 6500;
     Maintenance.default_annual_hours_ltp := Some 4000;
     Maintenance.default_annual_hours_continuous := Some 8760 |}.

Definition oneTimeTask (skill : option string) : Maintenance.PMTask :=
  {| Maintenance.task_id := Some 1%Z;
     Maintenance.task_name := "Initial 50-Hour Service";
     Maintenance.skill_level := skill;
     Maintenance.is_one_time := true;
     Maintenance.interval_hours := None;
     Maintenance.interval_months := None;
     Maintenance.labor_hours := 2;
     Maintenance.parts := [] |}.

Definition hoursTask (h : Q) : Maintenance.PMTask :=
  {| Maintenance.task_id := Some 2%Z;
     Maintenance.task_name := "500-Hour Service";
     Maintenance.skill_level := Some "technician";
     Maintenance.is_one_time := false;
     Maintenance.interval_hours := Some h;
     Maintenance.interval_months := None;
     Maintenance.labor_hours := 8.5;
     Maintenance.parts := [] |}.

Definition turbocharger : Maintenance.ComponentLifecycle :=
  {| Maintenance.lc_equipment_model_id := 5;
     Maintenance.component_name := "Turbocharger";
     Maintenance.category := Some "engine";
     Maintenance.expected_life_hours := 8760;
     Maintenance.replacement_labor_hours := 8;
     Maintenance.criticality := Some "high" |}.

(** One unit running 8760 hours a year, a component of 8760 life
    hours, 20 years. *)
Definition continuousData : Maintenance.ScenarioData :=
  {| Maintenance.scenario := scenarioWith 20 15;
     Maintenance.fleetUnits := [unitWith 1 8760 0.75];
     Maintenance.pmTasks := [hoursTask 500];
     Maintenance.priceMap := [];
     Maintenance.componentLifecycles := [turbocharger] |}.

(** Ten units at 6500 hours, one one-time task of 2 labor hours at the
    technician rate of 100. *)
Definition oneTimeData (overhead : Q) : Maintenance.ScenarioData :=
  {| Maintenance.scenario := scenarioWith 20 overhead;
     Maintenance.fleetUnits := [unitWith 10 6500 0.75];
     Maintenance.pmTasks := [oneTimeTask (Some "technician")];
     Maintenance.priceMap := [];
     Maintenance.componentLifecycles := [] |}.

Definition airFilter : Maintenance.TaskPart :=
  {| Maintenance.part_number := Some "AF-1100";
     Maintenance.part_description := Some "Air filter element";
     Maintenance.part_quantity := 1;
     Maintenance.is_optional := false |}.

(** The one-time task of 2 labor hours, with an air filter to fit. *)
Definition oneTimeTaskWithFilter : Maintenance.PMTask :=
  {| Maintenance.task_id := Some 1%Z;
     Maintenance.task_name := "Initial 50-Hour Service";
     Maintenance.skill_level := Some "technician";
     Maintenance.is_one_time := true;
     Maintenance.interval_hours := None;
     Maintenance.interval_months := None;
     Maintenance.labor_hours := 2;
     Maintenance.parts := [airFilter] |}.

(** Ten units at 6500 hours with the given schedule; the air filter is
    listed at 45.50. *)
Definition tenUnitData (overhead : Q) (tasks : list Maintenance.PMTask)
  : Maintenance.ScenarioData :=
  {| Maintenance.scenario := scenarioWith 20 overhead;
     Maintenance.fleetUnits := [unitWith 10 6500 0.75];
     Maintenance.pmTasks := tasks;
     Maintenance.priceMap :=
       [ {| Maintenance.item_part_number := "AF-1100";
            Maintenance.unit_price := 45.5 |} ];
     Maintenance.componentLifecycles := [] |}.

(** The same fleet and tasks as a configuration of
    [calculateFullAnalysis]. *)
Definition calcUnit (qty hrs : Q) (rate : option Q) : Calculator.FleetUnit :=
  {| Calculator.quantity := Some qty;
     Calculator.annual_hours := Some hrs;
     Calculator.duty_cycle := Some 0.75;
     Calculator.commissioning_rate_per_month := rate;
     Calculator.fuel_consumption_rate := Some 2205;
     Calculator.fuel_consumption_unit := Some "CFH";
     Calculator.power_rating_kw := Some 300 |}.

Definition calcOneTimeTask : Calculator.PMTask :=
  {| Calculator.name := "Initial 50-Hour Service";
     Calculator.interval_hours := None;
     Calculator.labor_hours := 2;
     Calculator.skill_level := Some "technician";
     Calculator.is_one_time := true;
     Calculator.is_automated := false;
     Calculator.enabled := Some true;
     Calculator.parts := [] |}.

Definition calcHoursTask (h : Q) : Calculator.PMTask :=
  {| Calculator.name := "500-Hour Service";
     Calculator.interval_hours := Some h;
     Calculator.labor_hours := 8.5;
     Calculator.skill_level := Some "technician";
     Calculator.is_one_time := false;
     Calculator.is_automated := false;
     Calculator.enabled := Some true;
     Calculator.parts := [] |}.

Definition calcTurbocharger : Calculator.ComponentLifecycle :=
  {| Calculator.component_name := "Turbocharger";
     Calculator.category := Some "engine";
     Calculator.expected_life_hours := Some 8760;
     Calculator.replacement_labor_hours := Some 8;
     Calculator.replacement_cost := Some 4500 |}.

Definition calcConfig (units : list Calculator.FleetUnit)
    (tasks : list Calculator.PMTask) : Calculator.Config :=
  {| Calculator.fleet_units := units;
     Calculator.pm_tasks := tasks;
     Calculator.labor_rate := 100;
     Calculator.labor_rate_specialist := 180;
     Calculator.labor_rate_engineer := 250;
     Calculator.parts_discount_pct := 20;
     Calculator.overhead_markup_pct := 15;
     Calculator.working_days_per_year := 250;
     Calculator.hours_per_day := 8;
     Calculator.target_utilization_pct := 75;
     Calculator.analysis_period_years := 20;
     Calculator.discount_rate_pct := 5;
     Calculator.inflation_rate_pct := 3;
     Calculator.fuel_cost_per_unit := 1;
     Calculator.downtime_cost_per_hour := 500;
     Calculator.include_fuel_costs := true;
     Calculator.include_downtime_costs := true;
     Calculator.component_lifecycles := [calcTurbocharger];
     Calculator.energy_efficiency_cost_per_kw := 0.02;
     Calculator.environmental_compliance_cost_per_unit := 50;
     Calculator.training_cost_per_technician := 2000;
     Calculator.insurance_cost_pct := 1.5;
     Calculator.warranty_cost_pct := 0.5;
     Calculator.equipment_value_per_kw := 1000 |}.

Definition continuousConfig : Calculator.Config :=
  calcConfig [calcUnit 1 8760 (Some 1)] [calcHoursTask 500].

Definition oneTimeConfig : Calculator.Config :=
  calcConfig [calcUnit 10 6500 (Some 2)] [calcOneTimeTask].

(** Ten units at 6500 hours with one recurring task every [h] hours. *)
Definition recurringData (h : Q) : Maintenance.ScenarioData :=
  {| Maintenance.scenario := scenarioWith 20 15;
     Maintenance.fleetUnits := [unitWith 6 6500 0.75; unitWith 4 6500 0.65];
     Maintenance.pmTasks := [hoursTask h];
     Maintenance.priceMap := [];
     Maintenance.componentLifecycles := [] |}.

Definition recurringConfig (h : Q) : Calculator.Config :=
  calcConfig [calcUnit 6 6500 (Some 2); calcUnit 4 6500 (Some 2)]
             [calcHoursTask h].

(** 31 units brought online one a month; 40 units one a month. *)
Definition rampConfig (n : Q) : Calculator.Config :=
  calcConfig [calcUnit n 6500 (Some 1)] [calcHoursTask 500].

Definition clockA : string := "2026-03-01T09:00:00.000Z".
Definition clockB : string := "2026-03-01T09:00:00.250Z".

(** A computed result whose total NPV is [npv]: the analysis of a
    two-year scenario, relabelled. *)
Definition twoYearData : Maintenance.ScenarioData :=
  {| Maintenance.scenario := scenarioWith 2 15;
     Maintenance.fleetUnits := [unitWith 10 6500 0.75];
     Maintenance.pmTasks := [hoursTask 500];
     Maintenance.priceMap := [];
     Maintenance.componentLifecycles := [] |}.

Definition resultWithNpv (id : Z) (nm : string) (npv : Q)
  : Maintenance.AnalysisResult :=
  let base := Maintenance.runAnalysis twoYearData clockA in
  {| Maintenance.scenario_id := Some id;
     Maintenance.scenario_name := nm;
     Maintenance.calculated_at := Maintenance.calculated_at base;
     Maintenance.fleet_summary := Maintenance.fleet_summary base;
     Maintenance.maintenance_cost_summary :=
       Maintenance.maintenance_cost_summary base;
     Maintenance.pm_task_breakdown := Maintenance.pm_task_breakdown base;
     Maintenance.res_staffing := Maintenance.res_staffing base;
     Maintenance.fuel_summary := Maintenance.fuel_summary base;
     Maintenance.downtime_summary := Maintenance.downtime_summary base;
     Maintenance.component_replacements :=
       Maintenance.component_replacements base;
     Maintenance.cost_per_kwh := Maintenance.cost_per_kwh base;
     Maintenance.res_tco :=
       {| Maintenance.total_npv := npv;
          Maintenance.total_nominal := npv;
          Maintenance.tco_analysis_period_years := 2;
          Maintenance.average_annual_cost := npv / 2;
          Maintenance.average_annual_cost_npv := npv / 2 |};
     Maintenance.annual_projections := Maintenance.annual_projections base;
     Maintenance.parameters := Maintenance.parameters base |}.

(** A price list in which the oil filter is listed twice. *)
Definition oilFilter (price : Q) : Maintenance.PriceListItem :=
  {| Maintenance.item_part_number := "OIL-FILTER";
     Maintenance.unit_price := price |}.

Definition sparkPlug : Maintenance.PriceListItem :=
  {| Maintenance.item_part_number := "SPARK-PLUG";
     Maintenance.unit_price := 12 |}.

Definition priceRows : Maintenance.PriceMap :=
  [oilFilter 40; sparkPlug; oilFilter 45].

(** A fleet row without annual hours, of a model without defaults. *)
Definition bareUnit : Maintenance.FleetUnit :=
  {| Maintenance.equipment_model_id := 9;
     Maintenance.unit_name := None;
     Maintenance.model_number := "GEN-X";
     Maintenance.quantity := 2;
     Maintenance.application_type := Some "peaking";
     Maintenance.annual_hours := None;
     Maintenance.duty_cycle := None;
     Maintenance.commissioning_rate_per_month := None;
     Maintenance.power_rating_kw := 100;
     Maintenance.fuel_consumption_rate_full := None;
     Maintenance.fuel_consumption_rate_75 := None;
     Maintenance.fuel_consumption_rate_50 := None;
     Maintenance.fuel_consumption_unit := None;
     Maintenance.default_annual_hours_standby := None;
     Maintenance.default_annual_hours_prime := Some 0;
     Maintenance.default_annual_hours_ltp := None;
     Maintenance.default_annual_hours_continuous := None |}.

(** A scenario whose fleet has no units. *)
Definition emptyFleetData : Maintenance.ScenarioData :=
  {| Maintenance.scenario := scenarioWith 2 15;
     Maintenance.fleetUnits := [];
     Maintenance.pmTasks := [hoursTask 500];
     Maintenance.priceMap := [];
     Maintenance.componentLifecycles := [] |}.

(** A database with three scenarios: 1 and 2 are complete, 3 has an
    empty fleet. *)
Definition scenarioTable (id : Z) : option Maintenance.ScenarioData :=
  if (id =? 1)%Z then Some twoYearData
  else if (id =? 2)%Z then Some continuousData
  else if (id =? 3)%Z then Some emptyFleetData
  else None.

Definition requestClock (k : nat) : string :=
  match k with
  | O => clockA
  | S _ => clockB
  end.

(** The world of a first run on [continuousData]. *)
Definition firstRun : Stateful.World :=
  {| Stateful.input := continuousData;
     Stateful.wallClock := requestClock;
     Stateful.readings := 0 |}.

(** Two components for the fleet-wide replacement schedule. *)
Definition fleetComponents : list FleetSchedule.Component :=
  [ {| FleetSchedule.component_name := "Turbocharger";
       FleetSchedule.category := Some "engine";
       FleetSchedule.expected_life_hours := 20000;
       FleetSchedule.replacement_cost := Some 4500;
       FleetSchedule.replacement_labor_hours := None |};
    {| FleetSchedule.component_name := "Spark plugs";
       FleetSchedule.category := Some "ignition";
       FleetSchedule.expected_life_hours := 8000;
       FleetSchedule.replacement_cost := Some 600;
       FleetSchedule.replacement_labor_hours := Some 4 |} ].
End Examples.

(* ================================================================== *)
(** * Properties of the JavaScript primitives *)
(* ================================================================== *)

Section JsFacts.
Import Js.
Local Open Scope Q_scope.

Lemma ltb_false_iff x y : ltb x y = false <-> y <= x.
Proof.
  unfold ltb. rewrite negb_false_iff. apply Qle_bool_iff.
Qed.

Lemma ltb_true_iff x y : ltb x y = true <-> x < y.
Proof.
  unfold ltb. rewrite negb_true_iff. split; intro H.
  - apply Qnot_le_lt. intro Hle. apply Qle_bool_iff in Hle. congruence.
  - destruct (Qle_bool y x) eqn:E; [|reflexivity].
    apply Qle_bool_iff in E. exfalso. apply (Qlt_not_le _ _ H E).
Qed.

Lemma leb_true_iff x y : leb x y = true <-> x <= y.
Proof. apply Qle_bool_iff. Qed.

Lemma leb_false_iff x y : leb x y = false <-> y < x.
Proof.
  unfold leb. split; intro H.
  - apply Qnot_le_lt. intro Hle. apply Qle_bool_iff in Hle. congruence.
  - destruct (Qle_bool x y) eqn:E; [|reflexivity].
    apply Qle_bool_iff in E. exfalso. apply (Qlt_not_le _ _ H E).
Qed.

Lemma In_upto n r : In r (upto n) -> (1 <= r <= n)%Z.
Proof.
  unfold upto. rewrite in_map_iff. intros [k [<- Hk]].
  apply in_seq in Hk. lia.
Qed.

Lemma length_upto n : List.length (upto n) = Z.to_nat n.
Proof. unfold upto. now rewrite length_map, length_seq. Qed.
End JsFacts.

(* ================================================================== *)
(** * The component-replacement scheduler *)
(* ================================================================== *)

Section ReplacementSchedule.
Import Js.
Local Open Scope Q_scope.

(** When a replacement is due every year, the loop of [runAnalysis]
    visits each [r] up to the horizon and schedules it in year [r]. *)
Lemma scheduleLoop_years (data : Maintenance.ScenarioData) ypr cost rs :
  ypr == 1 ->
  (forall r, In r rs -> inject_Z r <= Maintenance.analysisPeriod data) ->
  map (fun e => snd (fst e)) (Maintenance.scheduleLoop data ypr cost rs)
  = rs.
Proof.
  intros Hy. induction rs as [|r rs IH]; intros Hin; simpl; [reflexivity|].
  assert (Hyear : Math_ceil (ypr * inject_Z r) = r).
  { unfold Math_ceil. rewrite (Qceiling_comp _ (inject_Z r)).
    - apply Qceiling_Z.
    - rewrite Hy. ring. }
  rewrite Hyear.
  assert (Hlt : ltb (Maintenance.analysisPeriod data) (inject_Z r) = false).
  { apply ltb_false_iff. apply Hin. now left. }
  rewrite Hlt. simpl. f_equal. apply IH. intros r' Hr'. apply Hin. now right.
Qed.

Lemma maintenance_yearly_schedule (data : Maintenance.ScenarioData) lc u :
  Maintenance.analysisPeriod data == 20 ->
  Maintenance.unitHours u == 8760 ->
  Maintenance.expected_life_hours lc == 8760 ->
  map Maintenance.si_year
      (Maintenance.schedule (Maintenance.componentReplacement data lc u))
  = upto 20.
Proof.
  intros Hp Hh Hl.
  assert (Hy : Maintenance.yearsPerReplacement lc u == 1).
  { unfold Maintenance.yearsPerReplacement. rewrite Hh, Hl. reflexivity. }
  assert (Hn : Maintenance.replacementsOverPeriod data lc u = 20%Z).
  { unfold Maintenance.replacementsOverPeriod, Math_floor.
    rewrite (Qfloor_comp _ 20); [reflexivity|].
    rewrite Hy, Hp. reflexivity. }
  simpl. rewrite map_map.
  rewrite <- (scheduleLoop_years data (Maintenance.yearsPerReplacement lc u)
                (Maintenance.costPerReplacement data lc) (upto 20) Hy).
  - unfold Maintenance.scheduleEvents. rewrite Hn.
    apply map_ext. intros [[r y] k]. reflexivity.
  - intros r Hr. apply In_upto in Hr. rewrite Hp.
    change (inject_Z r <= inject_Z 20). rewrite <- Zle_Qle. lia.
Qed.

(** The same schedule in [calculateFullAnalysis], which keeps the years
    that do not exceed the period. *)
Lemma calculator_yearly_schedule (config : Calculator.Config) comp :
  Calculator.analysis_period_years config == 20 ->
  Calculator.avgAnnualHours config == 8760 ->
  Calculator.lifeHours comp == 8760 ->
  Calculator.scheduleYears config comp = upto 20.
Proof.
  intros Hp Hh Hl.
  assert (Hy : Calculator.yearsToReplacement config comp == 1).
  { unfold Calculator.yearsToReplacement. rewrite Hh, Hl. reflexivity. }
  assert (Hn : Calculator.replacementsInPeriod config comp = 20%Z).
  { unfold Calculator.replacementsInPeriod, Math_floor.
    rewrite (Qfloor_comp _ 20); [reflexivity|].
    rewrite Hy, Hp. reflexivity. }
  unfold Calculator.scheduleYears. rewrite Hn.
  assert (Hmap : forall rs,
             map (fun r => Math_ceil (Calculator.yearsToReplacement config comp
                                      * inject_Z r)) rs = rs).
  { induction rs as [|r rs IH]; simpl; [reflexivity|]. rewrite IH. f_equal.
    unfold Math_ceil. rewrite (Qceiling_comp _ (inject_Z r)).
    - apply Qceiling_Z.
    - rewrite Hy. ring. }
  rewrite Hmap.
  apply forallb_filter_id. apply forallb_forall. intros r Hr.
  apply In_upto in Hr. apply leb_true_iff. rewrite Hp.
  change (inject_Z r <= inject_Z 20). rewrite <- Zle_Qle. lia.
Qed.

(** C1, on the example: a component of 8760 life hours on a unit that
    runs 8760 hours a year is replaced 20 times in 20 years, the last
    time in year 20, not 19 times. *)
Lemma replacement_at_horizon_is_scheduled :
  exists comp,
    Maintenance.componentReplacements Examples.continuousData = [comp]
    /\ Maintenance.replacements_over_period comp = 20%Z
    /\ map Maintenance.si_year (Maintenance.schedule comp)
       = [1; 2; 3; 4; 5; 6; 7; 8; 9; 10;
          11; 12; 13; 14; 15; 16; 17; 18; 19; 20]%Z.
Proof.
  eexists. split; [vm_compute; reflexivity|].
  split; vm_compute; reflexivity.
Qed.

(** C1 (amended): with 8760 life hours, 8760 annual hours and a period
    of 20 years both engines schedule exactly 20 replacements, in the
    years 1 to 20; the replacement that falls on the horizon is kept,
    only a year beyond the period is dropped. *)
Theorem replacement_schedule_includes_horizon
    (data : Maintenance.ScenarioData) lc u
    (config : Calculator.Config) comp :
  Maintenance.analysisPeriod data == 20 ->
  Maintenance.unitHours u == 8760 ->
  Maintenance.expected_life_hours lc == 8760 ->
  Calculator.analysis_period_years config == 20 ->
  Calculator.avgAnnualHours config == 8760 ->
  Calculator.lifeHours comp == 8760 ->
  let entry := Maintenance.componentReplacement data lc u in
  map Maintenance.si_year (Maintenance.schedule entry)
  = [1; 2; 3; 4; 5; 6; 7; 8; 9; 10;
     11; 12; 13; 14; 15; 16; 17; 18; 19; 20]%Z
  /\ Maintenance.replacements_over_period entry = 20%Z
  /\ map Calculator.si_year (Calculator.componentSchedule config comp)
     = [1; 2; 3; 4; 5; 6; 7; 8; 9; 10;
        11; 12; 13; 14; 15; 16; 17; 18; 19; 20]%Z.
Proof.
  intros Hp Hh Hl Hp' Hh' Hl' entry.
  pose proof (maintenance_yearly_schedule data lc u Hp Hh Hl) as Hs.
  fold entry in Hs. change (upto 20) with
    [1; 2; 3; 4; 5; 6; 7; 8; 9; 10;
     11; 12; 13; 14; 15; 16; 17; 18; 19; 20]%Z in Hs.
  split; [exact Hs|]. split.
  - unfold entry in *. simpl in *.
    rewrite <- (length_map Maintenance.si_year), Hs. reflexivity.
  - unfold Calculator.componentSchedule. rewrite map_map. simpl.
    rewrite map_id.
    apply (calculator_yearly_schedule config comp Hp' Hh' Hl').
Qed.

(** C1 at the example inputs. *)
Lemma replacement_schedule_includes_horizon_witness :
  let entry := Maintenance.componentReplacement
                 Examples.continuousData Examples.turbocharger
                 (Examples.unitWith 1 8760 0.75) in
  map Maintenance.si_year (Maintenance.schedule entry)
  = [1; 2; 3; 4; 5; 6; 7; 8; 9; 10;
     11; 12; 13; 14; 15; 16; 17; 18; 19; 20]%Z
  /\ Maintenance.replacements_over_period entry = 20%Z
  /\ map Calculator.si_year
         (Calculator.componentSchedule Examples.continuousConfig
                                       Examples.calcTurbocharger)
     = [1; 2; 3; 4; 5; 6; 7; 8; 9; 10;
        11; 12; 13; 14; 15; 16; 17; 18; 19; 20]%Z.
Proof.
  apply (replacement_schedule_includes_horizon
           Examples.continuousData Examples.turbocharger
           (Examples.unitWith 1 8760 0.75)
           Examples.continuousConfig Examples.calcTurbocharger);
    vm_compute; reflexivity.
Defined.
End ReplacementSchedule.

(* ================================================================== *)
(** * Sums accumulated by the loops *)
(* ================================================================== *)

Section Sums.
Import Js.
Local Open Scope Q_scope.

Lemma round2_comp x y :
  x == y -> Maintenance.round2 x == Maintenance.round2 y.
Proof.
  intro H. unfold Maintenance.round2, Math_round.
  rewrite (Qfloor_comp (x * 100 + (1 # 2)) (y * 100 + (1 # 2))).
  - reflexivity.
  - rewrite H. reflexivity.
Qed.

Lemma fold_left_add_shift {A} (f : A -> Q) l a :
  fold_left (fun acc x => acc + f x) l a
  == a + fold_left (fun acc x => acc + f x) l 0.
Proof.
  revert a. induction l as [|x l IH]; intro a; simpl.
  - ring.
  - rewrite (IH (a + f x)), (IH (0 + f x)). ring.
Qed.

Lemma fold_left_add_scaled {A} (f g : A -> Q) (h : Q) l :
  (forall x, In x l -> f x == h * g x) ->
  fold_left (fun acc x => acc + f x) l 0
  == h * fold_left (fun acc x => acc + g x) l 0.
Proof.
  induction l as [|x l IH]; intro H; simpl.
  - ring.
  - rewrite (fold_left_add_shift f l), (fold_left_add_shift g l).
    rewrite IH by (intros y Hy; apply H; now right).
    rewrite (H x) by now left. ring.
Qed.

Lemma fold_left_add_le {A} (f g : A -> Q) l :
  (forall x, In x l -> f x <= g x) ->
  fold_left (fun acc x => acc + f x) l 0
  <= fold_left (fun acc x => acc + g x) l 0.
Proof.
  induction l as [|x l IH]; intro H; simpl.
  - apply Qle_refl.
  - rewrite (fold_left_add_shift f l), (fold_left_add_shift g l).
    assert (H1 := H x (or_introl eq_refl)).
    assert (H2 := IH (fun y Hy => H y (or_intror Hy))).
    lra.
Qed.

Lemma fold_left_add_lt {A} (f g : A -> Q) l :
  (forall x, In x l -> f x <= g x) ->
  (exists x, In x l /\ f x < g x) ->
  fold_left (fun acc x => acc + f x) l 0
  < fold_left (fun acc x => acc + g x) l 0.
Proof.
  induction l as [|x l IH]; intros H [y [Hy Hlt]]; simpl.
  - destruct Hy.
  - rewrite (fold_left_add_shift f l), (fold_left_add_shift g l).
    assert (H1 := H x (or_introl eq_refl)).
    assert (H2 := fold_left_add_le f g l (fun z Hz => H z (or_intror Hz))).
    destruct Hy as [<- | Hy].
    + lra.
    + assert (H3 := IH (fun z Hz => H z (or_intror Hz))
                       (ex_intro _ y (conj Hy Hlt))).
      lra.
Qed.

Lemma fold_left_add_nonneg {A} (f : A -> Q) l :
  (forall x, In x l -> 0 <= f x) ->
  0 <= fold_left (fun acc x => acc + f x) l 0.
Proof.
  induction l as [|x l IH]; intro H; simpl.
  - apply Qle_refl.
  - rewrite (fold_left_add_shift f l).
    assert (H1 := H x (or_introl eq_refl)).
    assert (H2 := IH (fun y Hy => H y (or_intror Hy))).
    lra.
Qed.

Lemma Math_min_le_l x y : Math_min x y <= x.
Proof.
  unfold Math_min. destruct (Qle_bool x y) eqn:E.
  - apply Qle_refl.
  - apply leb_false_iff in E. apply Qlt_le_weak. exact E.
Qed.

Lemma Math_min_le_r x y : Math_min x y <= y.
Proof.
  unfold Math_min. destruct (Qle_bool x y) eqn:E.
  - apply Qle_bool_iff. exact E.
  - apply Qle_refl.
Qed.

Lemma Math_round_nonneg x : 0 <= x -> (0 <= Math_round x)%Z.
Proof.
  intro H. unfold Math_round.
  change 0%Z with (Qfloor 0). apply Qfloor_resp_le. lra.
Qed.

Lemma Math_ceil_nonneg x : 0 <= x -> (0 <= Math_ceil x)%Z.
Proof.
  intro H. unfold Math_ceil.
  change 0%Z with (Qceiling 0). apply Qceiling_resp_le. exact H.
Qed.

Lemma Qdiv_nonneg x y : 0 <= x -> 0 <= y -> 0 <= x / y.
Proof.
  intros Hx Hy. unfold Qdiv. apply Qmult_le_0_compat; [exact Hx|].
  apply Qinv_le_0_compat. exact Hy.
Qed.
End Sums.

(* ================================================================== *)
(** * One-time tasks: annual cost and recognition in the projection *)
(* ================================================================== *)

Section OneTimeTasks.
Import Js.
Local Open Scope Q_scope.
Local Open Scope string_scope.

Lemma one_time_labor_cost (data : Maintenance.ScenarioData) task :
  Maintenance.is_one_time task = true ->
  Maintenance.labor_hours task == 2 ->
  Maintenance.getLaborRate (Maintenance.scenario data)
                           (Maintenance.skill_level task) == 100 ->
  Maintenance.totalUnits data == 10 ->
  Maintenance.laborCostPerYear data task == 2000.
Proof.
  intros Ho Hl Hr Hu.
  unfold Maintenance.laborCostPerYear, Maintenance.laborHoursPerYear,
    Maintenance.servicesPerYear.
  rewrite Ho, Hu, Hl, Hr. reflexivity.
Qed.

Lemma calculator_one_time_labor_cost (config : Calculator.Config) task :
  Calculator.taskStatus task = Calculator.active ->
  Calculator.is_one_time task = true ->
  Calculator.labor_hours task == 2 ->
  Calculator.laborRate config task == 100 ->
  Calculator.totalUnits config == 10 ->
  Calculator.laborCostPerYear config task == 2000 / 3.
Proof.
  intros Hs Ho Hl Hr Hu.
  unfold Calculator.laborCostPerYear, Calculator.laborHoursPerYear.
  rewrite Hs, Ho, Hu, Hl, Hr. reflexivity.
Qed.

(** C2, on the example: [calculateFullAnalysis] spreads the one-time
    labor over three, so the task of 2 hours at a rate of 100 on 10
    units costs 2000/3 a year (reported as 667), not 2000. *)
Lemma calculator_spreads_one_time_labor :
  Calculator.laborCostPerYear Examples.oneTimeConfig
                              Examples.calcOneTimeTask == 2000 / 3
  /\ Calculator.labor_cost_per_year
       (Calculator.taskRow Examples.oneTimeConfig Examples.calcOneTimeTask)
     == 667.
Proof. split; vm_compute; reflexivity. Qed.

(** In [runAnalysis] the amount taken out of the later years is the
    recorded cost of the one-time tasks, before the overhead markup:
    with a markup of 15% the example task still leaves 300, inflated,
    in year 2. *)
Lemma one_time_overhead_stays_in_later_years :
  Maintenance.laborCostPerYear (Examples.oneTimeData 15)
                               (Examples.oneTimeTask (Some "technician"))
  == 2000
  /\ Maintenance.yearMaintenanceCost (Examples.oneTimeData 15) 1 == 2300
  /\ Maintenance.yearMaintenanceCost (Examples.oneTimeData 15) 2 == 309.
Proof. repeat split; vm_compute; reflexivity. Qed.

(** The quantities computed for one task read the scenario, the fleet
    and the price list, not the other tasks of the schedule. *)
Lemma task_costs_ignore_the_schedule
    (data rest : Maintenance.ScenarioData) t :
  Maintenance.scenario rest = Maintenance.scenario data ->
  Maintenance.fleetUnits rest = Maintenance.fleetUnits data ->
  Maintenance.priceMap rest = Maintenance.priceMap data ->
  Maintenance.laborCostPerYear rest t = Maintenance.laborCostPerYear data t
  /\ Maintenance.partsCostPerYear rest t
     = Maintenance.partsCostPerYear data t.
Proof.
  intros Hs Hf Hp.
  unfold Maintenance.laborCostPerYear, Maintenance.laborHoursPerYear,
    Maintenance.partsCostPerYear, Maintenance.partsPerService,
    Maintenance.partCost, Maintenance.partsDiscount,
    Maintenance.servicesPerYear, Maintenance.avgAnnualHours,
    Maintenance.totalWeightedHours, Maintenance.totalUnits.
  rewrite Hs, Hf, Hp. split; reflexivity.
Qed.

Lemma fold_left_add_app {A} (f : A -> Q) (l1 l2 : list A) x :
  fold_left (fun acc t => acc + f t) (l1 ++ x :: l2)%list 0
  == fold_left (fun acc t => acc + f t) (l1 ++ l2)%list 0 + f x.
Proof.
  rewrite !fold_left_app. cbn [fold_left].
  rewrite (fold_left_add_shift f l2 (_ + f x)).
  rewrite (fold_left_add_shift f l2 (fold_left _ l1 0)).
  ring.
Qed.

Lemma fold_left_add_same {A} (f g : A -> Q) (l : list A) :
  (forall t, f t = g t) ->
  fold_left (fun acc t => acc + f t) l 0
  = fold_left (fun acc t => acc + g t) l 0.
Proof.
  intro H. generalize 0. induction l as [|t l IH]; intro a; simpl.
  - reflexivity.
  - rewrite H. apply IH.
Qed.

(** What one task adds to the annual maintenance cost: its labor and
    parts, marked up by the overhead. *)
Lemma annual_cost_of_one_more_task
    (data rest : Maintenance.ScenarioData) task before after :
  Maintenance.pmTasks data = (before ++ task :: after)%list ->
  Maintenance.pmTasks rest = (before ++ after)%list ->
  Maintenance.scenario rest = Maintenance.scenario data ->
  Maintenance.fleetUnits rest = Maintenance.fleetUnits data ->
  Maintenance.priceMap rest = Maintenance.priceMap data ->
  Maintenance.totalAnnualMaintenanceCost data
  == Maintenance.totalAnnualMaintenanceCost rest
     + (Maintenance.laborCostPerYear data task
        + Maintenance.partsCostPerYear data task)
       * (1 + Maintenance.overheadMarkup data).
Proof.
  intros Ht Hr Hs Hf Hp.
  unfold Maintenance.totalAnnualMaintenanceCost, Maintenance.annualOverhead,
    Maintenance.annualMaintenanceCostBase,
    Maintenance.totalAnnualLaborCost, Maintenance.totalAnnualPartsCost.
  assert (Hm : Maintenance.overheadMarkup rest
               = Maintenance.overheadMarkup data)
    by (unfold Maintenance.overheadMarkup; now rewrite Hs).
  rewrite Hm, Ht, Hr.
  rewrite (fold_left_add_same (Maintenance.laborCostPerYear rest)
             (Maintenance.laborCostPerYear data))
    by (intro t; apply (task_costs_ignore_the_schedule data rest t Hs Hf Hp)).
  rewrite (fold_left_add_same (Maintenance.partsCostPerYear rest)
             (Maintenance.partsCostPerYear data))
    by (intro t; apply (task_costs_ignore_the_schedule data rest t Hs Hf Hp)).
  rewrite (fold_left_add_app (Maintenance.laborCostPerYear data)).
  rewrite (fold_left_add_app (Maintenance.partsCostPerYear data)).
  ring.
Qed.

Lemma taskRow_ignores_the_schedule
    (data rest : Maintenance.ScenarioData) t :
  Maintenance.scenario rest = Maintenance.scenario data ->
  Maintenance.fleetUnits rest = Maintenance.fleetUnits data ->
  Maintenance.priceMap rest = Maintenance.priceMap data ->
  Maintenance.taskRow rest t = Maintenance.taskRow data t.
Proof.
  intros Hs Hf Hp.
  unfold Maintenance.taskRow, Maintenance.partDetails,
    Maintenance.partDetail, Maintenance.unit_cost_of,
    Maintenance.laborCostPerYear, Maintenance.laborHoursPerYear,
    Maintenance.partsCostPerYear, Maintenance.partsPerService,
    Maintenance.partCost, Maintenance.partsDiscount,
    Maintenance.servicesPerYear, Maintenance.avgAnnualHours,
    Maintenance.totalWeightedHours, Maintenance.totalUnits.
  rewrite Hs, Hf, Hp. reflexivity.
Qed.

(** What a one-time task adds to the amount taken out of the later
    years: its recorded cost, rounded to the cent and without overhead. *)
Lemma one_time_costs_of_one_more_task
    (data rest : Maintenance.ScenarioData) task before after :
  Maintenance.pmTasks data = (before ++ task :: after)%list ->
  Maintenance.pmTasks rest = (before ++ after)%list ->
  Maintenance.scenario rest = Maintenance.scenario data ->
  Maintenance.fleetUnits rest = Maintenance.fleetUnits data ->
  Maintenance.priceMap rest = Maintenance.priceMap data ->
  Maintenance.is_one_time task = true ->
  Maintenance.oneTimeCosts data
  == Maintenance.oneTimeCosts rest
     + Maintenance.round2 (Maintenance.laborCostPerYear data task
                           + Maintenance.partsCostPerYear data task).
Proof.
  intros Ht Hr Hs Hf Hp Ho.
  unfold Maintenance.oneTimeCosts, Maintenance.taskBreakdown.
  rewrite Ht, Hr.
  rewrite (map_ext (Maintenance.taskRow rest) (Maintenance.taskRow data))
    by (intro t; now apply taskRow_ignores_the_schedule).
  rewrite !map_app, !filter_app. cbn [map filter].
  replace (Maintenance.row_is_one_time (Maintenance.taskRow data task))
    with true by (symmetry; exact Ho).
  rewrite (fold_left_add_app Maintenance.total_cost_per_year).
  reflexivity.
Qed.

(** The maintenance cost of a year with and without a one-time task. *)
Lemma year_cost_of_one_more_one_time_task
    (data rest : Maintenance.ScenarioData) task before after year :
  Maintenance.pmTasks data = (before ++ task :: after)%list ->
  Maintenance.pmTasks rest = (before ++ after)%list ->
  Maintenance.scenario rest = Maintenance.scenario data ->
  Maintenance.fleetUnits rest = Maintenance.fleetUnits data ->
  Maintenance.priceMap rest = Maintenance.priceMap data ->
  Maintenance.is_one_time task = true ->
  let cost := Maintenance.laborCostPerYear data task
              + Maintenance.partsCostPerYear data task in
  Maintenance.yearMaintenanceCost data year
  == Maintenance.yearMaintenanceCost rest year
     + (if (1 <? year)%Z
        then cost * (1 + Maintenance.overheadMarkup data)
             - Maintenance.round2 cost
        else cost * (1 + Maintenance.overheadMarkup data))
       * Maintenance.inflationMultiplier data year.
Proof.
  intros Ht Hr Hs Hf Hp Ho cost.
  pose proof (annual_cost_of_one_more_task data rest task before after
                Ht Hr Hs Hf Hp) as Ha.
  pose proof (one_time_costs_of_one_more_task data rest task before after
                Ht Hr Hs Hf Hp Ho) as Hb.
  assert (Hi : Maintenance.inflationMultiplier rest year
               = Maintenance.inflationMultiplier data year).
  { unfold Maintenance.inflationMultiplier, Maintenance.inflationRate.
    now rewrite Hs. }
  unfold Maintenance.yearMaintenanceCost. rewrite Hi. subst cost.
  set (T := Maintenance.totalAnnualMaintenanceCost data) in *.
  set (O := Maintenance.oneTimeCosts data) in *.
  destruct (1 <? year)%Z; cbv zeta; rewrite Ha; [rewrite Hb|]; ring.
Qed.

(** C2 (amended): in [runAnalysis] a one-time task of 2 labor hours at a
    rate of 100 on 10 units costs exactly 2000 a year in labor, whatever
    its parts, the overhead markup and the other tasks of the schedule.
    With no overhead markup, [cost] the labor and parts cost of the task
    and [rest] the same input without the task, the task adds [cost] to
    the maintenance cost of year 1 and only the rounding of [cost] to the
    cent to a later year: nothing when [cost] is a whole number of cents,
    as it is for a task without parts.  In [calculateFullAnalysis] the
    same task costs 2000/3 a year. *)
Theorem one_time_task_cost_and_recognition
    (data : Maintenance.ScenarioData) task before after
    (config : Calculator.Config) ctask :
  Maintenance.pmTasks data = (before ++ task :: after)%list ->
  Maintenance.is_one_time task = true ->
  Maintenance.labor_hours task == 2 ->
  Maintenance.getLaborRate (Maintenance.scenario data)
                           (Maintenance.skill_level task) == 100 ->
  Maintenance.totalUnits data == 10 ->
  let cost := 2000 + Maintenance.partsCostPerYear data task in
  Maintenance.laborCostPerYear data task == 2000
  /\ Maintenance.labor_cost_per_year (Maintenance.taskRow data task) == 2000
  /\ (forall rest,
        Maintenance.pmTasks rest = (before ++ after)%list ->
        Maintenance.scenario rest = Maintenance.scenario data ->
        Maintenance.fleetUnits rest = Maintenance.fleetUnits data ->
        Maintenance.priceMap rest = Maintenance.priceMap data ->
        Maintenance.overhead_markup_pct (Maintenance.scenario data) == 0 ->
        Maintenance.yearMaintenanceCost data 1
        == Maintenance.yearMaintenanceCost rest 1 + cost
        /\ (forall year, (1 < year)%Z ->
              Maintenance.yearMaintenanceCost data year
              == Maintenance.yearMaintenanceCost rest year
                 + (cost - Maintenance.round2 cost)
                   * Maintenance.inflationMultiplier data year)
        /\ (Maintenance.round2 cost == cost ->
            forall year, (1 < year)%Z ->
              Maintenance.yearMaintenanceCost data year
              == Maintenance.yearMaintenanceCost rest year))
  /\ (Maintenance.parts task = [] ->
      cost == 2000 /\ Maintenance.round2 cost == cost)
  /\ (Calculator.taskStatus ctask = Calculator.active ->
      Calculator.is_one_time ctask = true ->
      Calculator.labor_hours ctask == 2 ->
      Calculator.laborRate config ctask == 100 ->
      Calculator.totalUnits config == 10 ->
      Calculator.laborCostPerYear config ctask == 2000 / 3).
Proof.
  intros Ht Ho Hl Hr Hu cost.
  pose proof (one_time_labor_cost data task Ho Hl Hr Hu) as Hc.
  assert (Hcost : Maintenance.laborCostPerYear data task
                  + Maintenance.partsCostPerYear data task == cost)
    by (unfold cost; rewrite Hc; reflexivity).
  split; [exact Hc|]. split.
  { simpl. rewrite (round2_comp _ 2000 Hc). reflexivity. }
  split.
  { intros rest Hrest Hs Hf Hp H0.
    assert (Hm : Maintenance.overheadMarkup data == 0)
      by (unfold Maintenance.overheadMarkup; rewrite H0; reflexivity).
    assert (Hyear : forall year,
              Maintenance.yearMaintenanceCost data year
              == Maintenance.yearMaintenanceCost rest year
                 + (if (1 <? year)%Z
                    then cost - Maintenance.round2 cost else cost)
                   * Maintenance.inflationMultiplier data year).
    { intro year.
      pose proof (year_cost_of_one_more_one_time_task data rest task before
                    after year Ht Hrest Hs Hf Hp Ho) as H.
      cbv zeta in H. rewrite H.
      pose proof (round2_comp _ cost Hcost) as Hround.
      destruct (1 <? year)%Z; [rewrite Hround|]; rewrite Hcost, Hm; ring. }
    split.
    { rewrite (Hyear 1%Z). change (1 <? 1)%Z with false.
      change (Maintenance.inflationMultiplier data 1) with 1.
      cbv iota. ring. }
    split.
    { intros year Hy. rewrite (Hyear year).
      apply Z.ltb_lt in Hy. rewrite Hy. reflexivity. }
    intros Hw year Hy. rewrite (Hyear year).
    apply Z.ltb_lt in Hy. rewrite Hy, Hw. ring. }
  split.
  { intro Hnil.
    assert (E : cost == 2000).
    { unfold cost, Maintenance.partsCostPerYear,
        Maintenance.partsPerService. rewrite Hnil. cbn [fold_left]. ring. }
    split; [exact E|].
    rewrite (round2_comp _ 2000 E), E. reflexivity. }
  intros Hs' Ho' Hl' Hr' Hu'. now apply calculator_one_time_labor_cost.
Qed.

(** Ten units, a recurring 500-hour service and the one-time task with
    an air filter (364 a year in parts): the one-time task adds 2364 to
    year 1 and nothing to the later years. *)
Lemma one_time_task_cost_and_recognition_witness :
  let data := Examples.tenUnitData 0 [Examples.hoursTask 500;
                                      Examples.oneTimeTaskWithFilter] in
  let rest := Examples.tenUnitData 0 [Examples.hoursTask 500] in
  let task := Examples.oneTimeTaskWithFilter in
  Maintenance.laborCostPerYear data task == 2000
  /\ Maintenance.yearMaintenanceCost data 1
     == Maintenance.yearMaintenanceCost rest 1 + 2364
  /\ (forall year, (1 < year)%Z ->
        Maintenance.yearMaintenanceCost data year
        == Maintenance.yearMaintenanceCost rest year)
  /\ Calculator.laborCostPerYear Examples.oneTimeConfig
                                 Examples.calcOneTimeTask == 2000 / 3.
Proof.
  cbv zeta.
  set (data := Examples.tenUnitData 0 [Examples.hoursTask 500;
                                       Examples.oneTimeTaskWithFilter]).
  set (rest := Examples.tenUnitData 0 [Examples.hoursTask 500]).
  set (task := Examples.oneTimeTaskWithFilter).
  assert (Hl : Maintenance.labor_hours task == 2) by reflexivity.
  assert (Hr : Maintenance.getLaborRate (Maintenance.scenario data)
                 (Maintenance.skill_level task) == 100) by reflexivity.
  assert (Hu : Maintenance.totalUnits data == 10) by reflexivity.
  destruct (one_time_task_cost_and_recognition
              data task [Examples.hoursTask 500] []
              Examples.oneTimeConfig Examples.calcOneTimeTask
              eq_refl eq_refl Hl Hr Hu)
    as (H1 & _ & H3 & _ & H5).
  assert (H0 : Maintenance.overhead_markup_pct (Maintenance.scenario data)
               == 0) by reflexivity.
  destruct (H3 rest eq_refl eq_refl eq_refl eq_refl H0) as (Y1 & _ & Y3).
  split; [exact H1|]. split.
  { rewrite Y1. reflexivity. }
  split.
  { apply Y3. reflexivity. }
  apply H5; reflexivity.
Defined.
End OneTimeTasks.

(* ================================================================== *)
(** * [runAnalysis] statement by statement and as a function *)
(* ================================================================== *)

Section StatefulRun.
Import Js.
Local Open Scope Q_scope.
Local Open Scope string_scope.

Lemma parts_loop (partsDiscount : Q) parts st w :
  let d := Stateful.input w in
  partsDiscount = Maintenance.partsDiscount d ->
  Stateful.forEach parts (Stateful.partStep partsDiscount) st w
  = ({| Stateful.partsPerService :=
          fold_left (fun acc part =>
                       if Maintenance.is_optional part then acc
                       else acc + Maintenance.partCost d part)
                    parts (Stateful.partsPerService st);
        Stateful.partDetails :=
          (Stateful.partDetails st
           ++ map (Maintenance.partDetail d)
                  (filter (fun part => negb (Maintenance.is_optional part))
                          parts))%list |}, w).
Proof.
  intros d ->. revert st.
  induction parts as [|part parts IH]; intro st.
  - destruct st. cbn. now rewrite app_nil_r.
  - cbn [Stateful.forEach]. unfold Stateful.bind at 1.
    unfold Stateful.partStep at 1.
    destruct (Maintenance.is_optional part) eqn:E.
    + unfold Stateful.ret at 1. rewrite IH. cbn [fold_left filter].
      rewrite E. reflexivity.
    + unfold Stateful.bind, Stateful.read, Stateful.ret.
      rewrite IH. cbn [fold_left filter map Stateful.partsPerService
                       Stateful.partDetails].
      rewrite E. cbn [negb map]. rewrite <- app_assoc. reflexivity.
Qed.

Lemma task_loop (totalUnits avgAnnualHours partsDiscount : Q) tasks st w :
  let d := Stateful.input w in
  totalUnits = Maintenance.totalUnits d ->
  avgAnnualHours = Maintenance.avgAnnualHours d ->
  partsDiscount = Maintenance.partsDiscount d ->
  Stateful.forEach tasks
    (Stateful.taskStep totalUnits avgAnnualHours partsDiscount) st w
  = ({| Stateful.taskBreakdown :=
          (Stateful.taskBreakdown st
           ++ map (Maintenance.taskRow d) tasks)%list;
        Stateful.totalAnnualLaborHours :=
          fold_left (fun acc t => acc + Maintenance.laborHoursPerYear d t)
                    tasks (Stateful.totalAnnualLaborHours st);
        Stateful.totalAnnualLaborCost :=
          fold_left (fun acc t => acc + Maintenance.laborCostPerYear d t)
                    tasks (Stateful.totalAnnualLaborCost st);
        Stateful.totalAnnualPartsCost :=
          fold_left (fun acc t => acc + Maintenance.partsCostPerYear d t)
                    tasks (Stateful.totalAnnualPartsCost st) |}, w).
Proof.
  intros d -> -> ->. revert st.
  induction tasks as [|task tasks IH]; intro st.
  - destruct st. cbn. now rewrite app_nil_r.
  - cbn [Stateful.forEach]. unfold Stateful.bind at 1.
    unfold Stateful.taskStep at 1.
    unfold Stateful.bind at 1, Stateful.read at 1.
    unfold Stateful.bind at 1.
    rewrite (parts_loop _ _ _ w eq_refl).
    unfold Stateful.ret at 1.
    rewrite IH.
    cbn [fold_left map Stateful.taskBreakdown
         Stateful.totalAnnualLaborHours Stateful.totalAnnualLaborCost
         Stateful.totalAnnualPartsCost Stateful.partsPerService
         Stateful.partDetails].
    rewrite <- app_assoc. reflexivity.
Qed.

Lemma fuel_loop units st w :
  let d := Stateful.input w in
  Stateful.forEach units Stateful.fuelStep st w
  = ({| Stateful.annualFuelCost :=
          fold_left (fun acc u => acc + Maintenance.unitFuelCost d u)
                    units (Stateful.annualFuelCost st);
        Stateful.fuelDetails :=
          (Stateful.fuelDetails st
           ++ map (Maintenance.fuelDetail d) units)%list |}, w).
Proof.
  intro d. revert st.
  induction units as [|unit units IH]; intro st.
  - destruct st. cbn. now rewrite app_nil_r.
  - cbn [Stateful.forEach]. unfold Stateful.bind at 1.
    unfold Stateful.fuelStep at 1.
    unfold Stateful.bind, Stateful.read, Stateful.ret.
    rewrite IH.
    cbn [fold_left map Stateful.annualFuelCost Stateful.fuelDetails].
    rewrite <- app_assoc. reflexivity.
Qed.

Lemma replacement_loop d (ypr cost : Q) rs schedule total :
  Stateful.replacementLoop (Maintenance.analysisPeriod d)
    (Maintenance.inflationRate d) ypr cost rs schedule total
  = ((schedule
      ++ map Maintenance.scheduleItem
             (Maintenance.scheduleLoop d ypr cost rs))%list,
     fold_left (fun a e => a + snd e)
               (Maintenance.scheduleLoop d ypr cost rs) total).
Proof.
  revert schedule total.
  induction rs as [|r rs IH]; intros schedule total.
  - cbn. now rewrite app_nil_r.
  - cbn [Stateful.replacementLoop Maintenance.scheduleLoop].
    destruct (ltb (Maintenance.analysisPeriod d)
                  (inject_Z (Math_ceil (ypr * inject_Z r)))).
    + cbn. now rewrite app_nil_r.
    + rewrite IH. cbn [map fold_left snd Maintenance.scheduleItem].
      rewrite <- app_assoc. reflexivity.
Qed.

Lemma unit_loop (analysisPeriod inflationRate partsDiscount : Q)
    lc units st w :
  let d := Stateful.input w in
  analysisPeriod = Maintenance.analysisPeriod d ->
  inflationRate = Maintenance.inflationRate d ->
  partsDiscount = Maintenance.partsDiscount d ->
  Stateful.forEach units
    (Stateful.unitStep analysisPeriod inflationRate partsDiscount lc) st w
  = ({| Stateful.componentReplacements :=
          (Stateful.componentReplacements st
           ++ map (Maintenance.componentReplacement d lc)
                  (filter (Stateful.replacing d lc) units))%list;
        Stateful.totalComponentCostOverPeriod :=
          fold_left
            (fun acc u =>
               fold_left (fun a e => a + snd e)
                         (Maintenance.scheduleEvents d lc u) acc)
            (filter (Stateful.replacing d lc) units)
            (Stateful.totalComponentCostOverPeriod st) |}, w).
Proof.
  intros d -> -> ->. revert st.
  induction units as [|unit units IH]; intro st.
  - destruct st. cbn. now rewrite app_nil_r.
  - cbn [Stateful.forEach]. unfold Stateful.bind at 1.
    unfold Stateful.unitStep at 1. cbn [filter].
    change (or_num (Maintenance.annual_hours unit)
                   (Maintenance.getDefaultHours unit))
      with (Maintenance.unitHours unit).
    change (Math_floor
              (Maintenance.analysisPeriod d
               / (Maintenance.expected_life_hours lc
                  / Maintenance.unitHours unit)))
      with (Maintenance.replacementsOverPeriod d lc unit).
    destruct (leb (Maintenance.unitHours unit) 0
              || leb (Maintenance.expected_life_hours lc) 0)%bool eqn:C1.
    { assert (R : Stateful.replacing d lc unit = false)
        by (unfold Stateful.replacing; now rewrite C1).
      rewrite R. unfold Stateful.ret at 1. apply IH. }
    destruct (Maintenance.replacementsOverPeriod d lc unit <=? 0)%Z eqn:C2.
    { assert (R : Stateful.replacing d lc unit = false)
        by (unfold Stateful.replacing; now rewrite C1, C2).
      rewrite R. unfold Stateful.ret at 1. apply IH. }
    assert (R : Stateful.replacing d lc unit = true)
      by (unfold Stateful.replacing; now rewrite C1, C2).
    rewrite R.
    unfold Stateful.bind, Stateful.read, Stateful.ret.
    rewrite replacement_loop.
    rewrite IH.
    cbn [fold_left map Stateful.componentReplacements
         Stateful.totalComponentCostOverPeriod app].
    rewrite <- app_assoc. reflexivity.
Qed.

Lemma filter_filter {A} (f g : A -> bool) l :
  filter g (filter f l) = filter (fun x => (f x && g x)%bool) l.
Proof.
  induction l as [|x l IH]; [reflexivity|].
  cbn [filter]. destruct (f x); cbn [filter andb].
  - destruct (g x); now rewrite IH.
  - exact IH.
Qed.

Lemma replacing_units d lc :
  filter (Stateful.replacing d lc)
         (filter (fun u => Z.eqb (Maintenance.equipment_model_id u)
                                 (Maintenance.lc_equipment_model_id lc))
                 (Maintenance.fleetUnits d))
  = Maintenance.replacingUnits d lc.
Proof.
  rewrite filter_filter. unfold Maintenance.replacingUnits, Stateful.replacing.
  apply filter_ext. intro u. now rewrite andb_assoc.
Qed.

Lemma lifecycle_loop (analysisPeriod inflationRate partsDiscount : Q)
    lcs st w :
  let d := Stateful.input w in
  analysisPeriod = Maintenance.analysisPeriod d ->
  inflationRate = Maintenance.inflationRate d ->
  partsDiscount = Maintenance.partsDiscount d ->
  Stateful.forEach lcs
    (Stateful.lifecycleStep analysisPeriod inflationRate partsDiscount) st w
  = ({| Stateful.componentReplacements :=
          (Stateful.componentReplacements st
           ++ flat_map
                (fun lc => map (Maintenance.componentReplacement d lc)
                               (Maintenance.replacingUnits d lc))
                lcs)%list;
        Stateful.totalComponentCostOverPeriod :=
          fold_left
            (fun acc lc =>
               fold_left
                 (fun acc' u =>
                    fold_left (fun a e => a + snd e)
                              (Maintenance.scheduleEvents d lc u) acc')
                 (Maintenance.replacingUnits d lc) acc)
            lcs (Stateful.totalComponentCostOverPeriod st) |}, w).
Proof.
  intros d Ha Hi Hp. revert st.
  induction lcs as [|lc lcs IH]; intro st.
  - destruct st. cbn. now rewrite app_nil_r.
  - cbn [Stateful.forEach]. unfold Stateful.bind at 1.
    unfold Stateful.lifecycleStep at 1.
    unfold Stateful.bind at 1, Stateful.read at 1.
    assert (E : (if (List.length
                       (filter
                          (fun u =>
                             Z.eqb (Maintenance.equipment_model_id u)
                                   (Maintenance.lc_equipment_model_id lc))
                          (Maintenance.fleetUnits (Stateful.input w)))
                     =? 0)%nat
                 then Stateful.ret st
                 else Stateful.forEach
                        (filter
                           (fun u =>
                              Z.eqb (Maintenance.equipment_model_id u)
                                    (Maintenance.lc_equipment_model_id lc))
                           (Maintenance.fleetUnits (Stateful.input w)))
                        (Stateful.unitStep analysisPeriod inflationRate
                                           partsDiscount lc) st) w
                = Stateful.forEach
                    (filter
                       (fun u =>
                          Z.eqb (Maintenance.equipment_model_id u)
                                (Maintenance.lc_equipment_model_id lc))
                       (Maintenance.fleetUnits (Stateful.input w)))
                    (Stateful.unitStep analysisPeriod inflationRate
                                       partsDiscount lc) st w).
    { destruct (filter _ (Maintenance.fleetUnits (Stateful.input w)));
        reflexivity. }
    rewrite E. rewrite (unit_loop _ _ _ lc _ st w Ha Hi Hp).
    rewrite replacing_units. rewrite IH.
    cbn [fold_left flat_map Stateful.componentReplacements
         Stateful.totalComponentCostOverPeriod].
    rewrite app_assoc. reflexivity.
Qed.

Lemma units_commissioned_loop year units acc :
  fold_left
    (fun acc unit =>
       let rate :=
         or_num (Maintenance.commissioning_rate_per_month unit) 1 in
       let monthsToFullDeploy :=
         Math_ceil (Maintenance.quantity unit / rate) in
       let yearsToFullDeploy := inject_Z monthsToFullDeploy / 12 in
       if (Math_ceil yearsToFullDeploy <=? year)%Z
       then acc + Maintenance.quantity unit
       else
         let monthsElapsed := inject_Z (year * 12) in
         acc + Math_min (Maintenance.quantity unit)
                        (inject_Z (Math_floor (monthsElapsed * rate))))
    units acc
  = fold_left (fun acc u => acc + Maintenance.unitCommissioned year u)
              units acc.
Proof.
  revert acc. induction units as [|u units IH]; intro acc.
  - reflexivity.
  - cbn [fold_left]. rewrite <- IH. f_equal.
    unfold Maintenance.unitCommissioned. cbv zeta.
    destruct (Math_ceil _ <=? year)%Z; reflexivity.
Qed.

Lemma year_step
    (discountRate inflationRate availableHoursPerTech totalUnits : Q)
    taskBreakdown
    (totalAnnualLaborHours totalAnnualMaintenanceCost : Q)
    (annualFuelCost annualDowntimeCost : Q) componentReplacements
    st year w :
  let d := Stateful.input w in
  discountRate = Maintenance.discountRate d ->
  inflationRate = Maintenance.inflationRate d ->
  availableHoursPerTech = Maintenance.availableHoursPerTech d ->
  totalUnits = Maintenance.totalUnits d ->
  taskBreakdown = Maintenance.taskBreakdown d ->
  totalAnnualLaborHours = Maintenance.totalAnnualLaborHours d ->
  totalAnnualMaintenanceCost = Maintenance.totalAnnualMaintenanceCost d ->
  annualFuelCost = Maintenance.annualFuelCost d ->
  annualDowntimeCost = Maintenance.annualDowntimeCost d ->
  componentReplacements = Maintenance.componentReplacements d ->
  Stateful.yearStep discountRate inflationRate availableHoursPerTech
    totalUnits taskBreakdown totalAnnualLaborHours
    totalAnnualMaintenanceCost annualFuelCost annualDowntimeCost
    componentReplacements st year w
  = (Maintenance.projectionStep d st year, w).
Proof.
  intros d -> -> -> -> -> -> -> -> -> ->. unfold Stateful.yearStep.
  unfold Stateful.bind, Stateful.read, Stateful.ret. cbv zeta.
  rewrite units_commissioned_loop. reflexivity.
Qed.

Lemma year_loop
    (discountRate inflationRate availableHoursPerTech totalUnits : Q)
    taskBreakdown
    (totalAnnualLaborHours totalAnnualMaintenanceCost : Q)
    (annualFuelCost annualDowntimeCost : Q) componentReplacements
    years st w :
  let d := Stateful.input w in
  discountRate = Maintenance.discountRate d ->
  inflationRate = Maintenance.inflationRate d ->
  availableHoursPerTech = Maintenance.availableHoursPerTech d ->
  totalUnits = Maintenance.totalUnits d ->
  taskBreakdown = Maintenance.taskBreakdown d ->
  totalAnnualLaborHours = Maintenance.totalAnnualLaborHours d ->
  totalAnnualMaintenanceCost = Maintenance.totalAnnualMaintenanceCost d ->
  annualFuelCost = Maintenance.annualFuelCost d ->
  annualDowntimeCost = Maintenance.annualDowntimeCost d ->
  componentReplacements = Maintenance.componentReplacements d ->
  Stateful.forEach years
    (Stateful.yearStep discountRate inflationRate availableHoursPerTech
       totalUnits taskBreakdown totalAnnualLaborHours
       totalAnnualMaintenanceCost annualFuelCost annualDowntimeCost
       componentReplacements) st w
  = (fold_left (Maintenance.projectionStep d) years st, w).
Proof.
  intros d H1 H2 H3 H4 H5 H6 H7 H8 H9 H10. subst d. revert st.
  induction years as [|year years IH]; intro st.
  - reflexivity.
  - cbn [Stateful.forEach fold_left]. unfold Stateful.bind at 1.
    rewrite (year_step _ _ _ _ _ _ _ _ _ _ st year w
               H1 H2 H3 H4 H5 H6 H7 H8 H9 H10).
    apply IH.
Qed.

(** The block under [if (scenario.include_fuel_costs)]. *)
Lemma fuel_block w :
  let d := Stateful.input w in
  (if Maintenance.include_fuel_costs (Maintenance.scenario d)
   then Stateful.bind (Stateful.read Maintenance.fleetUnits)
          (fun fleetUnits =>
             Stateful.forEach fleetUnits Stateful.fuelStep
               {| Stateful.annualFuelCost := 0;
                  Stateful.fuelDetails := [] |})
   else Stateful.ret {| Stateful.annualFuelCost := 0;
                        Stateful.fuelDetails := [] |}) w
  = ({| Stateful.annualFuelCost := Maintenance.annualFuelCost d;
        Stateful.fuelDetails := Maintenance.fuelDetails d |}, w).
Proof.
  intro d. unfold Maintenance.annualFuelCost, Maintenance.fuelDetails.
  destruct (Maintenance.include_fuel_costs (Maintenance.scenario d)).
  - unfold Stateful.bind, Stateful.read. rewrite fuel_loop. reflexivity.
  - reflexivity.
Qed.

(** The block under [if (scenario.include_downtime_costs)]. *)
Lemma downtime_block (taskBreakdown : list Maintenance.TaskRow)
    (totalAnnualLaborHours : Q) w :
  let d := Stateful.input w in
  taskBreakdown = Maintenance.taskBreakdown d ->
  totalAnnualLaborHours = Maintenance.totalAnnualLaborHours d ->
  (if Maintenance.include_downtime_costs (Maintenance.scenario d)
   then
     Stateful.bind
       (Stateful.read
          (fun d => Maintenance.downtime_cost_per_hour
                      (Maintenance.scenario d)))
       (fun downtimeCostPerHour =>
          Stateful.ret
            (fold_left (fun sum t => sum + Maintenance.services_per_year t)
                       taskBreakdown 0
             * (if (0 <? List.length (Maintenance.pmTasks d))%nat
                then totalAnnualLaborHours
                     / fold_left
                         (fun sum t => sum + Maintenance.services_per_year t)
                         taskBreakdown 0
                     * 1.5
                else 0)
             * downtimeCostPerHour))
   else Stateful.ret 0) w
  = (Maintenance.annualDowntimeCost d, w).
Proof.
  intros d -> ->. unfold Maintenance.annualDowntimeCost.
  destruct (Maintenance.include_downtime_costs (Maintenance.scenario d));
    [|reflexivity].
  unfold Stateful.bind, Stateful.read, Stateful.ret.
  unfold Maintenance.avgDowntimePerService,
    Maintenance.totalServicesPerYear.
  destruct (Maintenance.pmTasks d); reflexivity.
Qed.

Ltac read_step :=
  unfold Stateful.bind at 1; unfold Stateful.read at 1; cbv beta iota.

(** The statements of [runAnalysis], run in any world, compute the
    result that [Maintenance.runAnalysis] describes for the input of that
    world and the reading of the clock; they leave the input as it was
    and take exactly one reading. *)
Lemma runAnalysis_refines w :
  Stateful.runAnalysis w
  = (Maintenance.runAnalysis (Stateful.input w)
       (Stateful.wallClock w (Stateful.readings w)),
     Stateful.tick w).
Proof.
  unfold Stateful.runAnalysis.
  do 9 read_step. cbv zeta. read_step.
  unfold Stateful.bind at 1.
  erewrite (task_loop _ _ _ _ _ w) by reflexivity.
  cbv beta iota.
  cbn [Stateful.taskBreakdown Stateful.totalAnnualLaborHours
       Stateful.totalAnnualLaborCost Stateful.totalAnnualPartsCost app].
  read_step.
  unfold Stateful.bind at 1. rewrite (fuel_block w). cbv beta iota.
  cbn [Stateful.annualFuelCost Stateful.fuelDetails].
  read_step.
  unfold Stateful.bind at 1.
  erewrite (lifecycle_loop _ _ _ _ _ w) by reflexivity.
  cbv beta iota.
  cbn [Stateful.componentReplacements
       Stateful.totalComponentCostOverPeriod app].
  read_step.
  unfold Stateful.bind at 1.
  erewrite (downtime_block _ _ w) by reflexivity.
  cbv beta iota.
  unfold Stateful.bind at 1.
  erewrite (year_loop _ _ _ _ _ _ _ _ _ _ _ _ w) by reflexivity.
  cbv beta iota.
  do 2 read_step.
  unfold Stateful.bind at 1, Stateful.newDate at 1. cbv beta iota.
  read_step.
  unfold Stateful.ret. reflexivity.
Qed.
End StatefulRun.

(* ================================================================== *)
(** * The result of [runAnalysis] and the wall clock *)
(* ================================================================== *)

Section Clock.
Import Js.
Local Open Scope Q_scope.
Local Open Scope string_scope.



End Clock.

(* ================================================================== *)
(** * Annual service count of an hours-based task *)
(* ================================================================== *)

Section ServiceCount.
Import Js.
Local Open Scope Q_scope.

Lemma maintenance_avg_hours (data : Maintenance.ScenarioData) h :
  (forall u, In u (Maintenance.fleetUnits data) ->
             Maintenance.unitHours u == h) ->
  0 < Maintenance.totalUnits data ->
  Maintenance.avgAnnualHours data == h.
Proof.
  intros Hu Hpos. unfold Maintenance.avgAnnualHours.
  pose proof Hpos as Hb. apply ltb_true_iff in Hb. rewrite Hb.
  unfold Maintenance.totalWeightedHours.
  rewrite (fold_left_add_scaled _ Maintenance.quantity h).
  - fold (Maintenance.totalUnits data).
    field. intro E. rewrite E in Hpos. apply (Qlt_irrefl _ Hpos).
  - intros u Hin. rewrite (Hu u Hin). reflexivity.
Qed.

Lemma hours_based_services (data : Maintenance.ScenarioData) task h :
  Maintenance.is_one_time task = false ->
  Maintenance.interval_hours task = Some h ->
  ~ h == 0 ->
  Maintenance.servicesPerYear data task
  == (Maintenance.totalUnits data * Maintenance.avgAnnualHours data) / h.
Proof.
  intros Ho Hi Hh. unfold Maintenance.servicesPerYear.
  rewrite Ho, Hi. simpl.
  destruct (Qeq_bool h 0) eqn:E.
  - apply Qeq_bool_iff in E. contradiction.
  - simpl. reflexivity.
Qed.

Lemma calculator_operating_hours (config : Calculator.Config) :
  0 < Calculator.totalUnits config ->
  Calculator.totalUnits config * Calculator.avgAnnualHours config
  == Calculator.totalAnnualOperatingHours config.
Proof.
  intro Hpos. unfold Calculator.avgAnnualHours.
  pose proof Hpos as Hb. apply ltb_true_iff in Hb. rewrite Hb.
  unfold Calculator.totalAnnualOperatingHours. field.
  intro E. rewrite E in Hpos. apply (Qlt_irrefl _ Hpos).
Qed.

Lemma calculator_hours_based_services (config : Calculator.Config) task :
  Calculator.taskStatus task = Calculator.active ->
  Calculator.is_one_time task = false ->
  0 < Calculator.totalUnits config ->
  Calculator.servicesPerYear config task
  = inject_Z (Math_round ((Calculator.totalUnits config
                           * Calculator.avgAnnualHours config)
                          / Calculator.interval task)).
Proof.
  intros Hs Ho Hpos. unfold Calculator.servicesPerYear.
  rewrite Hs, Ho. f_equal. unfold Math_round. apply Qfloor_comp.
  rewrite (calculator_operating_hours config Hpos). reflexivity.
Qed.

(** C4, on the example: for ten units at 6500 hours and an interval of
    600 hours the quotient is 325/3, and [calculateFullAnalysis] counts
    108 services. *)
Lemma calculator_rounds_the_service_count :
  (Calculator.totalUnits (Examples.recurringConfig 600)
   * Calculator.avgAnnualHours (Examples.recurringConfig 600)) / 600
  == 325 # 3
  /\ Calculator.servicesPerYear (Examples.recurringConfig 600)
                                (Examples.calcHoursTask 600) == 108.
Proof. split; vm_compute; reflexivity. Qed.

(** C4 (amended): for a task that is not one-time and has a non-zero
    hours interval, [runAnalysis] counts (totalUnits x avgAnnualHours) /
    intervalHours services a year; [calculateFullAnalysis] counts, for
    an enabled, non-automated task that is not one-time, that quotient
    rounded to the nearest integer.  For an interval of 500 hours and 10
    units at 6500 hours each, both count 130. *)
Theorem hours_based_service_count
    (data : Maintenance.ScenarioData) task h
    (config : Calculator.Config) ctask :
  Maintenance.is_one_time task = false ->
  Maintenance.interval_hours task = Some h ->
  ~ h == 0 ->
  Calculator.taskStatus ctask = Calculator.active ->
  Calculator.is_one_time ctask = false ->
  0 < Calculator.totalUnits config ->
  Maintenance.servicesPerYear data task
  == (Maintenance.totalUnits data * Maintenance.avgAnnualHours data) / h
  /\ Calculator.servicesPerYear config ctask
     = inject_Z (Math_round ((Calculator.totalUnits config
                              * Calculator.avgAnnualHours config)
                             / Calculator.interval ctask))
  /\ (h == 500 ->
      Maintenance.totalUnits data == 10 ->
      (forall u, In u (Maintenance.fleetUnits data) ->
                 Maintenance.unitHours u == 6500) ->
      Maintenance.servicesPerYear data task == 130)
  /\ (Calculator.interval ctask == 500 ->
      Calculator.totalUnits config == 10 ->
      (forall u, In u (Calculator.fleet_units config) ->
                 Calculator.hours u == 6500) ->
      Calculator.servicesPerYear config ctask == 130).
Proof.
  intros Ho Hi Hh Hs Ho' Hpos.
  pose proof (hours_based_services data task h Ho Hi Hh) as Hm.
  pose proof (calculator_hours_based_services config ctask Hs Ho' Hpos) as Hc.
  split; [exact Hm|]. split; [exact Hc|]. split.
  - intros H500 H10 H6500. rewrite Hm.
    rewrite (maintenance_avg_hours data 6500 H6500).
    + rewrite H10, H500. reflexivity.
    + rewrite H10. reflexivity.
  - intros H500 H10 H6500. unfold Calculator.servicesPerYear.
    rewrite Hs, Ho'.
    assert (Hw : Calculator.totalAnnualOperatingHours config == 65000).
    { unfold Calculator.totalAnnualOperatingHours,
        Calculator.weightedAnnualHours.
      rewrite (fold_left_add_scaled _ Calculator.qty 6500).
      - fold (Calculator.totalUnits config). rewrite H10. reflexivity.
      - intros u Hin. rewrite (H6500 u Hin). ring. }
    unfold Math_round.
    rewrite (Qfloor_comp _ (130 + (1 # 2))); [reflexivity|].
    rewrite Hw, H500. reflexivity.
Qed.

Lemma hours_based_service_count_witness :
  Maintenance.servicesPerYear (Examples.recurringData 500)
                              (Examples.hoursTask 500) == 130
  /\ Calculator.servicesPerYear (Examples.recurringConfig 500)
                                (Examples.calcHoursTask 500) == 130.
Proof.
  destruct (hours_based_service_count
              (Examples.recurringData 500) (Examples.hoursTask 500) 500
              (Examples.recurringConfig 500) (Examples.calcHoursTask 500))
    as [_ [_ [Hm Hc]]];
    try (vm_compute; reflexivity); try (vm_compute; discriminate).
  split.
  - apply Hm; try (vm_compute; reflexivity).
    intros u [<- | [<- | []]]; vm_compute; reflexivity.
  - apply Hc; try (vm_compute; reflexivity).
    intros u [<- | [<- | []]]; vm_compute; reflexivity.
Defined.
End ServiceCount.

(* ================================================================== *)
(** * Fuel cost *)
(* ================================================================== *)

Section FuelCost.
Import Js.
Local Open Scope Q_scope.
Local Open Scope string_scope.

(** The tier chosen by [runAnalysis], by duty cycle. *)
Lemma fuelRate_tiers (u : Maintenance.FleetUnit) :
  (0.85 <= Maintenance.dutyCycle u ->
   Maintenance.fuelRate u
   = or_num (Maintenance.fuel_consumption_rate_full u) 0)
  /\ (0.6 <= Maintenance.dutyCycle u -> Maintenance.dutyCycle u < 0.85 ->
      Maintenance.fuelRate u
      = or_num (Maintenance.fuel_consumption_rate_75 u)
               (or_num (Maintenance.fuel_consumption_rate_full u) 0))
  /\ (Maintenance.dutyCycle u < 0.6 ->
      Maintenance.fuelRate u
      = or_num (Maintenance.fuel_consumption_rate_50 u)
               (or_num (Maintenance.fuel_consumption_rate_75 u)
                       (or_num (Maintenance.fuel_consumption_rate_full u) 0))).
Proof.
  unfold Maintenance.fuelRate. repeat split.
  - intro H. apply leb_true_iff in H. now rewrite H.
  - intros H1 H2. apply leb_true_iff in H1. apply leb_false_iff in H2.
    now rewrite H2, H1.
  - intro H.
    assert (H' : Maintenance.dutyCycle u < 0.85) by lra.
    apply leb_false_iff in H. apply leb_false_iff in H'.
    now rewrite H', H.
Qed.

(** The unit in which the model's consumption rates are given plays no
    part in the cost of [runAnalysis]. *)
Lemma unitFuelCost_ignores_fuel_unit
    (data : Maintenance.ScenarioData) id nm model q app hrs duty rate kw
    full r75 r50 (unit1 unit2 : option string) d1 d2 d3 d4 :
  Maintenance.unitFuelCost data
    (Maintenance.Build_FleetUnit id nm model q app hrs duty rate kw
                                 full r75 r50 unit1 d1 d2 d3 d4)
  = Maintenance.unitFuelCost data
      (Maintenance.Build_FleetUnit id nm model q app hrs duty rate kw
                                   full r75 r50 unit2 d1 d2 d3 d4).
Proof. reflexivity. Qed.

(** C5, at the failing input: six seeded PSI-11.1L-NG-300 units (2205
    CFH at 75% load), 6500 hours a year, fuel at 1.0 per therm.
    [runAnalysis] picks the 75% tier and multiplies the rate in CFH by
    hours, price and quantity as it stands: 85,995,000 a year.  The rate
    that [calculateFullAnalysis] derives for the same unit is divided by
    100 first (22.05 therms an hour), which gives 859,950. *)
Theorem runAnalysis_fuel_rate_in_cfh_is_not_normalized :
  let u := Examples.unitWith 6 6500 0.75 in
  let data := Examples.recurringData 500 in
  Maintenance.fuel_unit (Maintenance.fuelDetail data u) = "CFH"
  /\ Maintenance.fuelRate u == 2205
  /\ Maintenance.unitFuelCost data u == 85995000
  /\ Maintenance.annual_fuel_cost (Maintenance.fuelDetail data u)
     == 85995000
  /\ Calculator.normalizedFuelRate (Examples.calcUnit 6 6500 (Some 2))
     == 22.05
  /\ 22.05 * 6500 * 1 * 6 == 859950.
Proof. cbv zeta. repeat split; vm_compute; reflexivity. Qed.
End FuelCost.

(* ================================================================== *)
(** * Scenario comparison *)
(* ================================================================== *)

Section Comparison.
Import Js.
Local Open Scope Q_scope.

Lemma sortByNpv_two (a b : Maintenance.ComparisonRow) :
  Maintenance.tco_npv a == 100 -> Maintenance.tco_npv b == 80 ->
  Maintenance.sortByNpv [a; b] = [b; a]
  /\ Maintenance.sortByNpv [b; a] = [b; a].
Proof.
  intros Ha Hb. unfold Maintenance.sortByNpv. simpl.
  assert (H1 : ltb 0 (Maintenance.tco_npv a - Maintenance.tco_npv b) = true).
  { apply ltb_true_iff. rewrite Ha, Hb. reflexivity. }
  assert (H2 : ltb 0 (Maintenance.tco_npv b - Maintenance.tco_npv a) = false).
  { apply ltb_false_iff. rewrite Ha, Hb. discriminate. }
  rewrite H1, H2. split; reflexivity.
Qed.

(** C8: when exactly two scenarios were computed, with total NPVs 100
    and 80 (in either order), [lowest_tco] names the scenario with NPV
    80 and reports savings_vs_highest = 20. *)
Theorem lowest_tco_of_two
    (r1 r2 : Maintenance.AnalysisResult) errs results :
  Maintenance.total_npv (Maintenance.res_tco r1) == 100 ->
  Maintenance.total_npv (Maintenance.res_tco r2) == 80 ->
  results = [r1; r2] \/ results = [r2; r1] ->
  exists best,
    Maintenance.lowest_tco (Maintenance.buildComparison results errs)
    = Some best
    /\ Maintenance.lt_scenario_id best = Maintenance.scenario_id r2
    /\ Maintenance.lt_scenario_name best = Maintenance.scenario_name r2
    /\ Maintenance.lt_tco_npv best == 80
    /\ Maintenance.savings_vs_highest best == 20.
Proof.
  intros H1 H2 Hres.
  destruct (sortByNpv_two (Maintenance.comparisonRow r1)
              (Maintenance.comparisonRow r2) H1 H2) as [Ha Hb].
  assert (Hs : Maintenance.round2
                 (Maintenance.tco_npv (Maintenance.comparisonRow r1)
                  - Maintenance.tco_npv (Maintenance.comparisonRow r2))
               == 20).
  { rewrite (round2_comp _ 20); [reflexivity|].
    simpl. rewrite H1, H2. reflexivity. }
  destruct Hres as [-> | ->];
    unfold Maintenance.buildComparison, Maintenance.lowestTco;
    cbn [map Maintenance.lowest_tco List.length Nat.leb];
    [rewrite Ha | rewrite Hb]; cbn [Maintenance.lastRow];
    eexists; (split; [reflexivity|]); cbn; repeat split;
    try reflexivity; try exact H2; exact Hs.
Qed.

Lemma lowest_tco_of_two_witness :
  exists best,
    Maintenance.lowest_tco
      (Maintenance.buildComparison
         [Examples.resultWithNpv 1 "OEM baseline" 100;
          Examples.resultWithNpv 2 "Extended intervals" 80] [])
    = Some best
    /\ Maintenance.lt_scenario_id best = Some 2%Z
    /\ Maintenance.lt_scenario_name best = "Extended intervals"%string
    /\ Maintenance.lt_tco_npv best == 80
    /\ Maintenance.savings_vs_highest best == 20.
Proof.
  apply (lowest_tco_of_two
           (Examples.resultWithNpv 1 "OEM baseline" 100)
           (Examples.resultWithNpv 2 "Extended intervals" 80) []).
  - reflexivity.
  - reflexivity.
  - left. reflexivity.
Defined.
End Comparison.

(* ================================================================== *)
(** * The staffing ramp of [calculateFullAnalysis] *)
(* ================================================================== *)

Section StaffingRamp.
Import Js.
Local Open Scope Q_scope.

Lemma rampMonths_bounds (config : Calculator.Config) :
  (12 <= Calculator.rampMonths config <= 36)%Z.
Proof. unfold Calculator.rampMonths. lia. Qed.

Lemma In_staffingTimeline (config : Calculator.Config) row :
  In row (Calculator.staffingTimeline config) ->
  exists m, (1 <= m <= Calculator.rampMonths config)%Z
            /\ row = Calculator.staffingRow config m.
Proof.
  unfold Calculator.staffingTimeline. rewrite in_map_iff.
  intros [m [<- Hm]]. exists m. split; [now apply In_upto | reflexivity].
Qed.

Lemma unitsActive_le_totalUnits (config : Calculator.Config) m :
  Calculator.unitsActive config m <= Calculator.totalUnits config.
Proof.
  unfold Calculator.unitsActive, Calculator.totalUnits.
  apply fold_left_add_le. intros u _. apply Math_min_le_l.
Qed.

(** A maximum above [k] is reached by a unit with a positive rate. *)
Lemma maxCommissioning_reached (l : list Calculator.FleetUnit) (a k : Z) :
  (k < fold_left
         (fun acc u =>
            if ltb 0 (Calculator.rate u)
            then Z.max acc (Math_ceil (Calculator.qty u / Calculator.rate u))
            else acc) l a)%Z ->
  (k < a)%Z
  \/ exists u, In u l /\ 0 < Calculator.rate u
               /\ (k < Math_ceil (Calculator.qty u / Calculator.rate u))%Z.
Proof.
  revert a. induction l as [|u l IH]; intros a H; simpl in H.
  - now left.
  - destruct (IH _ H) as [Ha | [v [Hv Hr]]].
    + destruct (ltb 0 (Calculator.rate u)) eqn:E.
      * destruct (Z.max_spec a
                    (Math_ceil (Calculator.qty u / Calculator.rate u)))
          as [[_ Hm] | [_ Hm]]; rewrite Hm in Ha.
        -- right. exists u. split; [now left|]. split; [|exact Ha].
           now apply ltb_true_iff.
        -- now left.
      * now left.
    + right. exists v. split; [now right | exact Hr].
Qed.

(** A unit that needs more than 36 months is not fully deployed in any
    of the first 36. *)
Lemma slow_unit_not_deployed (u : Calculator.FleetUnit) (m : Z) :
  0 < Calculator.rate u ->
  (36 < Math_ceil (Calculator.qty u / Calculator.rate u))%Z ->
  (1 <= m <= 36)%Z ->
  Math_min (Calculator.qty u) (Calculator.rampRate u * inject_Z m)
  < Calculator.qty u.
Proof.
  intros Hr Hc Hm.
  assert (Hx : 36 < Calculator.qty u / Calculator.rate u).
  { apply Qnot_le_lt. intro Hle. apply Qceiling_resp_le in Hle.
    change (Qceiling 36) with 36%Z in Hle. unfold Math_ceil in Hc. lia. }
  assert (Hq : Calculator.qty u
               == (Calculator.qty u / Calculator.rate u) * Calculator.rate u).
  { field. intro E. rewrite E in Hr. apply (Qlt_irrefl _ Hr). }
  assert (Hm' : inject_Z m <= 36).
  { change 36 with (inject_Z 36). rewrite <- Zle_Qle. lia. }
  apply Qle_lt_trans with (Calculator.rampRate u * inject_Z m);
    [apply Math_min_le_r|].
  change (Calculator.rampRate u) with (Calculator.rate u).
  set (x := Calculator.qty u / Calculator.rate u) in *.
  set (r := Calculator.rate u) in *.
  set (q := Calculator.qty u) in *.
  nra.
Qed.

Lemma ramp_stops_short (config : Calculator.Config) m :
  (36 < Calculator.maxCommissioningMonths config)%Z ->
  (1 <= m <= 36)%Z ->
  Calculator.unitsActive config m < Calculator.totalUnits config.
Proof.
  intros Hmax Hm.
  destruct (maxCommissioning_reached _ _ _ Hmax) as [H0 | [u [Hu [Hr Hc]]]];
    [lia|].
  unfold Calculator.unitsActive, Calculator.totalUnits.
  apply fold_left_add_lt.
  - intros v _. apply Math_min_le_l.
  - exists u. split; [exact Hu|]. now apply slow_unit_not_deployed.
Qed.

Section NonNegative.
Variable config : Calculator.Config.
Hypothesis Hwf : Calculator.nonNegativeInputs config.

Lemma totalUnits_nonneg : 0 <= Calculator.totalUnits config.
Proof.
  unfold Calculator.totalUnits. apply fold_left_add_nonneg.
  intros u Hu. apply (proj1 Hwf u Hu).
Qed.

Lemma operatingHours_nonneg :
  0 <= Calculator.totalAnnualOperatingHours config.
Proof.
  unfold Calculator.totalAnnualOperatingHours,
    Calculator.weightedAnnualHours.
  apply fold_left_add_nonneg. intros u Hu.
  destruct (proj1 Hwf u Hu). now apply Qmult_le_0_compat.
Qed.

Lemma laborHoursPerYear_nonneg t :
  In t (Calculator.pm_tasks config) ->
  0 <= Calculator.laborHoursPerYear config t.
Proof.
  intro Ht. destruct (proj2 Hwf t Ht) as [Hl Hi].
  unfold Calculator.laborHoursPerYear, Calculator.servicesPerYear.
  destruct (Calculator.taskStatus t); try apply Qle_refl.
  destruct (Calculator.is_one_time t).
  - apply Qdiv_nonneg; [|discriminate].
    apply Qmult_le_0_compat; [apply totalUnits_nonneg | exact Hl].
  - apply Qmult_le_0_compat; [|exact Hl].
    change 0 with (inject_Z 0). rewrite <- Zle_Qle.
    apply Math_round_nonneg.
    apply Qdiv_nonneg; [apply operatingHours_nonneg | exact Hi].
Qed.

Lemma techsRequired_nonneg : (0 <= Calculator.techsRequired config)%Z.
Proof.
  unfold Calculator.techsRequired.
  destruct (ltb 0 (Calculator.availableHoursPerTech config)) eqn:E; [|lia].
  apply ltb_true_iff in E. apply Math_ceil_nonneg.
  apply Qmult_le_0_compat; [|discriminate].
  apply Qdiv_nonneg; [|apply Qlt_le_weak; exact E].
  unfold Calculator.totalAnnualLaborHours. apply fold_left_add_nonneg.
  apply laborHoursPerYear_nonneg.
Qed.

Lemma proportionalTechs_le m :
  (Calculator.proportionalTechs config m
   <= Calculator.techsRequired config)%Z.
Proof.
  pose proof techsRequired_nonneg as HT.
  unfold Calculator.proportionalTechs.
  destruct (ltb 0 (Calculator.totalUnits config)) eqn:E; [|exact HT].
  apply ltb_true_iff in E.
  rewrite <- (Qceiling_Z (Calculator.techsRequired config)) at 2.
  apply Qceiling_resp_le.
  assert (Hr : Calculator.unitsActive config m
               / Calculator.totalUnits config <= 1).
  { apply Qle_shift_div_r; [exact E|]. rewrite Qmult_1_l.
    apply unitsActive_le_totalUnits. }
  assert (HT' : 0 <= inject_Z (Calculator.techsRequired config)).
  { change 0 with (inject_Z 0). now rewrite <- Zle_Qle. }
  nra.
Qed.
End NonNegative.

(** C9, on the example: 31 units brought online one a month have a
    commissioning horizon of 31 months, longer than 30; the ramp has 36
    rows and is at the full 31 units from month 31 to its last row. *)
Lemma ramp_reaches_full_deployment_after_30_months :
  Calculator.maxCommissioningMonths (Examples.rampConfig 31) = 31%Z
  /\ List.length (Calculator.staffingTimeline (Examples.rampConfig 31))
     = 36%nat
  /\ Calculator.totalUnits (Examples.rampConfig 31) == 31
  /\ Calculator.units_active
       (Calculator.staffingRow (Examples.rampConfig 31) 31) == 31
  /\ option_map (fun row => Qred (Calculator.units_active row))
                (nth_error
                   (Calculator.staffingTimeline (Examples.rampConfig 31)) 35)
     = Some 31.
Proof. repeat split; vm_compute; reflexivity. Qed.

(** C9 (amended): when quantities, hours, intervals and labor hours are
    not negative, every row of the staffing ramp has units_active <=
    the total unit count and technicians <= the required technician
    count; the ramp has min(36, max(12, maxCommissioningMonths + 6))
    rows, between 12 and 36; and when the commissioning horizon is
    longer than 36 months no row of the ramp reaches full deployment. *)
Theorem staffing_ramp_bounds (config : Calculator.Config) :
  Calculator.nonNegativeInputs config ->
  (forall row, In row (Calculator.staffingTimeline config) ->
     Calculator.units_active row <= Calculator.totalUnits config
     /\ (Calculator.technicians row <= Calculator.techsRequired config)%Z)
  /\ List.length (Calculator.staffingTimeline config)
     = Z.to_nat (Z.min 36
                   (Z.max 12 (Calculator.maxCommissioningMonths config + 6)))
  /\ (12 <= List.length (Calculator.staffingTimeline config) <= 36)%nat
  /\ ((36 < Calculator.maxCommissioningMonths config)%Z ->
      forall row, In row (Calculator.staffingTimeline config) ->
        Calculator.units_active row < Calculator.totalUnits config).
Proof.
  intro Hwf.
  assert (Hlen : List.length (Calculator.staffingTimeline config)
                 = Z.to_nat (Calculator.rampMonths config)).
  { unfold Calculator.staffingTimeline. rewrite length_map.
    apply length_upto. }
  pose proof (rampMonths_bounds config) as Hb.
  split; [|split; [exact Hlen | split]].
  - intros row Hrow.
    destruct (In_staffingTimeline config row Hrow) as [m [_ ->]]. simpl.
    split; [apply unitsActive_le_totalUnits|].
    now apply proportionalTechs_le.
  - rewrite Hlen. lia.
  - intros Hmax row Hrow.
    destruct (In_staffingTimeline config row Hrow) as [m [Hm ->]]. simpl.
    apply ramp_stops_short; [exact Hmax | lia].
Qed.

Lemma staffing_ramp_bounds_witness :
  (forall row,
     In row (Calculator.staffingTimeline (Examples.rampConfig 40)) ->
     Calculator.units_active row
     <= Calculator.totalUnits (Examples.rampConfig 40)
     /\ (Calculator.technicians row
         <= Calculator.techsRequired (Examples.rampConfig 40))%Z)
  /\ List.length (Calculator.staffingTimeline (Examples.rampConfig 40))
     = Z.to_nat
         (Z.min 36
            (Z.max 12
               (Calculator.maxCommissioningMonths (Examples.rampConfig 40)
                + 6)))
  /\ (12 <= List.length
              (Calculator.staffingTimeline (Examples.rampConfig 40))
      <= 36)%nat
  /\ ((36 < Calculator.maxCommissioningMonths (Examples.rampConfig 40))%Z ->
      forall row,
        In row (Calculator.staffingTimeline (Examples.rampConfig 40)) ->
        Calculator.units_active row
        < Calculator.totalUnits (Examples.rampConfig 40)).
Proof.
  apply (staffing_ramp_bounds (Examples.rampConfig 40)).
  split; intros x [<- | []]; split; vm_compute; discriminate.
Defined.
End StaffingRamp.

(* ================================================================== *)
(** * The labor-rate lookup *)
(* ================================================================== *)

Section LaborRate.
Import Js.
Local Open Scope Q_scope.
Local Open Scope string_scope.

(** C10, on the example: ["Specialist"] is not the string
    ["specialist"], yet [getLaborRate] lower-cases it and answers the
    specialist rate (180), not the base rate (100). *)
Lemma getLaborRate_ignores_case :
  String.eqb "Specialist" "specialist" = false
  /\ Maintenance.getLaborRate (Examples.scenarioWith 20 15)
                              (Some "Specialist") = 180
  /\ Maintenance.labor_rate (Examples.scenarioWith 20 15) = 100.
Proof. repeat split. Qed.

(** C10 (amended): [getLaborRate] answers the base technician rate for
    every skill level whose lower-cased form is neither ["specialist"]
    nor ["engineer"] -- a misspelling, the empty string, an absent
    value -- and [calculateFullAnalysis], which compares the string as
    it is, for every skill level other than these two strings.  Neither
    lookup has an error path. *)
Theorem labor_rate_falls_back_to_base
    (sc : Maintenance.Scenario) (s : option string)
    (config : Calculator.Config) (task : Calculator.PMTask) :
  toLowerCase (or_str s "technician") <> "specialist" ->
  toLowerCase (or_str s "technician") <> "engineer" ->
  Calculator.skill_level task <> Some "specialist" ->
  Calculator.skill_level task <> Some "engineer" ->
  Maintenance.getLaborRate sc s = Maintenance.labor_rate sc
  /\ Calculator.laborRate config task = Calculator.labor_rate config.
Proof.
  intros H1 H2 H3 H4. split.
  - unfold Maintenance.getLaborRate. cbv zeta.
    destruct (String.eqb_spec (toLowerCase (or_str s "technician"))
                              "specialist"); [contradiction|].
    destruct (String.eqb_spec (toLowerCase (or_str s "technician"))
                              "engineer"); [contradiction|].
    reflexivity.
  - unfold Calculator.laborRate.
    destruct (Calculator.skill_level task) as [k|]; [|reflexivity].
    destruct (String.eqb_spec k "engineer"); [subst; contradiction|].
    destruct (String.eqb_spec k "specialist"); [subst; contradiction|].
    reflexivity.
Qed.

Lemma labor_rate_falls_back_to_base_witness :
  Maintenance.getLaborRate (Examples.scenarioWith 20 15)
                           (Some "specialst")
  = Maintenance.labor_rate (Examples.scenarioWith 20 15)
  /\ Calculator.laborRate Examples.oneTimeConfig Examples.calcOneTimeTask
     = Calculator.labor_rate Examples.oneTimeConfig.
Proof.
  apply (labor_rate_falls_back_to_base
           (Examples.scenarioWith 20 15) (Some "specialst")
           Examples.oneTimeConfig Examples.calcOneTimeTask);
    discriminate.
Defined.

(** The empty string and an absent value are read as ["technician"]. *)
Lemma getLaborRate_absent (sc : Maintenance.Scenario) :
  Maintenance.getLaborRate sc None = Maintenance.labor_rate sc
  /\ Maintenance.getLaborRate sc (Some "") = Maintenance.labor_rate sc.
Proof. split; reflexivity. Qed.
End LaborRate.

(* ================================================================== *)
(** * The reliability service: evaluation on finite arguments *)
(* ================================================================== *)

Section ReliabilityEvaluation.
Import Weibull LanczosReal.
Local Open Scope R_scope.

Lemma Rltb_true x y : x < y -> Rltb x y = true.
Proof.
intro H. unfold Rltb. destruct (Rlt_dec x y); [reflexivity | contradiction].
Qed.

Lemma Rltb_false x y : y <= x -> Rltb x y = false.
Proof. intro H. unfold Rltb. destruct (Rlt_dec x y); [lra | reflexivity]. Qed.

Lemma Rleb_true x y : x <= y -> Rleb x y = true.
Proof.
intro H. unfold Rleb. destruct (Rle_dec x y); [reflexivity | contradiction].
Qed.

Lemma Rleb_false x y : y < x -> Rleb x y = false.
Proof. intro H. unfold Rleb. destruct (Rle_dec x y); [lra | reflexivity]. Qed.

Lemma Reqb_true x y : x = y -> Reqb x y = true.
Proof.
intro H. unfold Reqb. destruct (Req_dec_T x y); [reflexivity | contradiction].
Qed.

Lemma Reqb_false x y : x <> y -> Reqb x y = false.
Proof.
intro H. unfold Reqb. destruct (Req_dec_T x y); [contradiction | reflexivity].
Qed.

(** The decimal constants as quotients of integers, for [field]. *)
Ltac decimals :=
  unfold Q2R; cbn [Qnum Qden];
  repeat match goal with
         | |- context [Z.pow_pos ?a ?b] =>
             let v := eval vm_compute in (Z.pow_pos a b) in
             change (Z.pow_pos a b) with v
         end.

Lemma lanczos_sum_fin z x0 (l : list (Z * R)) :
  (forall ic, In ic l -> z + IZR (fst ic) <> 0) ->
  fold_left (fun x ic => add x (div (Fin (snd ic)) (Fin (z + IZR (fst ic)))))
            l (Fin x0)
  = Fin (fold_left (fun x ic => x + snd ic / (z + IZR (fst ic))) l x0).
Proof.
revert x0. induction l as [|ic l IH]; intros x0 H; simpl; [reflexivity|].
rewrite (Reqb_false _ _ (H ic (or_introl eq_refl))). simpl.
apply IH. intros ic' Hic. apply H. now right.
Qed.

Lemma c_indices_positive ic : In ic c -> 1 <= IZR (fst ic).
Proof.
unfold c. simpl. intros H.
repeat (destruct H as [<- | H]; [simpl; lra|]). destruct H.
Qed.

Lemma lanczos_fin z0 : 1 <= z0 -> lanczos (Fin z0) = Fin (lanczosReal z0).
Proof.
intro Hz. unfold lanczos, lanczosReal, xsum. cbv zeta. cbn [sub neg add].
rewrite lanczos_sum_fin.
2:{ intros ic Hic. apply c_indices_positive in Hic. lra. }
cbn [mul Math_sqrt Math_pow Math_exp neg].
assert (Hpi := PI_RGT_0).
rewrite (Rltb_false (2 * PI) 0) by lra.
rewrite (Reqb_false (z0 + - (1) + 0.5) 0) by lra.
unfold g. rewrite (Rltb_true 0 (z0 + - (1) + 7 + 0.5)) by lra.
reflexivity.
Qed.

Lemma gammaFunction_lanczos z0 :
  / 2 <= z0 -> gammaFunction (Fin z0) = lanczos (Fin z0).
Proof.
intro H. unfold gammaFunction. simpl.
rewrite (Rltb_false z0 0.5) by lra. reflexivity.
Qed.

Lemma lt_half_reflects z :
  lt z (Fin 0.5) = true -> lt (sub (Fin 1) z) (Fin 0.5) = false.
Proof.
destruct z as [x| | |]; simpl; try discriminate; try reflexivity.
unfold Rltb. destruct (Rlt_dec x 0.5); [|discriminate]. intros _.
destruct (Rlt_dec (1 + - x) 0.5); [lra | reflexivity].
Qed.

(** [gammaFunction] returns: the reflection calls itself once, on an
    argument that is not below 0.5. *)
Lemma gammaFuel_enough n z :
  gammaFuel (S (S n)) z = Some (gammaFunction z).
Proof.
unfold gammaFunction. cbn [gammaFuel].
destruct (lt z (Fin 0.5)) eqn:E; [|reflexivity].
rewrite (lt_half_reflects z E). reflexivity.
Qed.

Lemma xsum_quotient z :
  0 <= z -> xsum z = lanczosNumerator z / lanczosDenominator z.
Proof.
intro Hz. unfold xsum, c, c0, lanczosNumerator, lanczosDenominator.
cbn [fold_left fst snd]. decimals. field. repeat split; lra.
Qed.

Lemma lanczosNumerator_pos z : 0 <= z -> 0 < lanczosNumerator z.
Proof.
intro Hz. unfold lanczosNumerator.
assert (H1 := pow_le z 1 Hz). assert (H2 := pow_le z 2 Hz).
assert (H3 := pow_le z 3 Hz). assert (H4 := pow_le z 4 Hz).
assert (H5 := pow_le z 5 Hz). assert (H6 := pow_le z 6 Hz).
assert (H7 := pow_le z 7 Hz). assert (H8 := pow_le z 8 Hz).
lra.
Qed.

Lemma xsum_pos z : 0 <= z -> 0 < xsum z.
Proof.
intro Hz. rewrite (xsum_quotient z Hz).
apply Rdiv_lt_0_compat; [now apply lanczosNumerator_pos|].
unfold lanczosDenominator.
repeat apply Rmult_lt_0_compat; lra.
Qed.

(** The approximation is positive from 1 on. *)
Lemma lanczosReal_pos z0 : 1 <= z0 -> 0 < lanczosReal z0.
Proof.
intro H. unfold lanczosReal.
assert (Hpi := PI_RGT_0).
repeat apply Rmult_lt_0_compat.
- apply sqrt_lt_R0. lra.
- unfold Rpower. apply exp_pos.
- apply exp_pos.
- apply xsum_pos. lra.
Qed.

Lemma gammaFunction_fin z0 :
  1 <= z0 -> gammaFunction (Fin z0) = Fin (lanczosReal z0).
Proof.
intro H. rewrite gammaFunction_lanczos by lra. now apply lanczos_fin.
Qed.

Lemma inverse_shape shape :
  0 < shape -> div (Fin 1) (Fin shape) = Fin (1 / shape) /\ 0 < 1 / shape.
Proof.
intro H. split.
- simpl. now rewrite (Reqb_false shape 0) by lra.
- apply Rdiv_lt_0_compat; lra.
Qed.

Lemma etaOf_fin life shape :
  0 < shape ->
  etaOf (Fin life) (Fin shape) = Fin (life / lanczosReal (1 + 1 / shape)).
Proof.
intro H. destruct (inverse_shape shape H) as [Hd Hpos].
unfold etaOf. rewrite Hd. cbn [add].
rewrite gammaFunction_fin by lra.
assert (HG := lanczosReal_pos (1 + 1 / shape)).
cbn [div]. rewrite Reqb_false; [reflexivity|]. lra.
Qed.

(** The characteristic life for the quantile constant [p]. *)
Lemma quantile_fin p life shape :
  0 < p -> 0 < shape ->
  mul (etaOf (Fin life) (Fin shape))
      (Math_pow (Fin p) (div (Fin 1) (Fin shape)))
  = Fin (life / lanczosReal (1 + 1 / shape) * Rpower p (1 / shape)).
Proof.
intros Hp H. destruct (inverse_shape shape H) as [Hd Hpos].
rewrite etaOf_fin, Hd by exact H. cbn [Math_pow].
rewrite (Reqb_false (1 / shape) 0) by lra.
rewrite (Rltb_true 0 p) by exact Hp. reflexivity.
Qed.

Lemma Rpower_base_lt a b e :
  0 < a -> a < b -> 0 < e -> Rpower a e < Rpower b e.
Proof.
intros Ha Hab He. unfold Rpower. apply exp_increasing.
apply Rmult_lt_compat_l; [exact He|]. now apply ln_increasing.
Qed.
End ReliabilityEvaluation.

(* ================================================================== *)
(** * Numeric bounds at shape 5 *)
(* ================================================================== *)

Section NumericBounds.
Import Weibull LanczosReal.
Local Open Scope R_scope.

Lemma PI_upper : PI <= 3.15.
Proof.
destruct (PI_2_3_7_ineq 1) as [_ H].
unfold PI_2_3_7_tg, tg_alt, Ratan_seq in H. simpl in H. lra.
Qed.

Lemma sqrt_2PI_upper : sqrt (2 * PI) <= 2.51.
Proof.
assert (H := PI_upper). assert (Hp := PI_RGT_0).
replace 2.51 with (sqrt (2.51 * 2.51)) by (apply sqrt_square; lra).
apply sqrt_le_1_alt. lra.
Qed.

Lemma exp_nat_mult (n : nat) x : exp (INR n * x) = exp x ^ n.
Proof.
induction n as [|n IH].
- simpl. rewrite Rmult_0_l. apply exp_0.
- rewrite S_INR, Rmult_plus_distr_r, Rmult_1_l, exp_plus, IH. simpl. ring.
Qed.

Lemma squareDown_lower (scale : Z) (k : nat) (x : Z) :
  (0 < scale)%Z -> (0 <= x)%Z ->
  IZR (squareDown scale k x) / IZR scale <= (IZR x / IZR scale) ^ (2 ^ k).
Proof.
intros Hs. revert x. induction k as [|k IH]; intros x Hx.
- simpl. lra.
- cbn [squareDown].
  assert (HS : 0 < IZR scale) by now apply IZR_lt.
  assert (Hq : (0 <= x * x / scale)%Z) by (apply Z.div_pos; nia).
  apply Rle_trans with ((IZR (x * x / scale) / IZR scale) ^ (2 ^ k));
    [now apply IH|].
  replace (2 ^ S k)%nat with (2 * 2 ^ k)%nat by (simpl; lia).
  rewrite pow_mult. apply pow_incr. split.
  + apply Rmult_le_pos; [now apply IZR_le | left; now apply Rinv_0_lt_compat].
  + assert (Hd : (scale * (x * x / scale) <= x * x)%Z)
      by (apply Z.mul_div_le; exact Hs).
    apply IZR_le in Hd. rewrite !mult_IZR in Hd.
    set (q := IZR (x * x / scale)) in *. set (X := IZR x) in *.
    set (T := IZR scale) in *.
    replace ((X / T) ^ 2) with (X * X / (T * T)) by (field; lra).
    apply Rmult_le_reg_r with (T * T); [nra|].
    replace (q / T * (T * T)) with (T * q) by (field; lra).
    replace (X * X / (T * T) * (T * T)) with (X * X) by (field; lra).
    exact Hd.
Qed.

(** [exp 7.7 = exp (7.7 / 2^14) ^ 2^14 >= (1 + 7.7 / 2^14) ^ 2^14]. *)
Lemma exp_7_7_lower : 2200 <= exp 7.7.
Proof.
replace 7.7 with (INR (2 ^ 14) * (77 / 163840)).
2:{ rewrite INR_IZR_INZ.
    replace (Z.of_nat (2 ^ 14)) with 16384%Z by (vm_compute; reflexivity).
    lra. }
rewrite exp_nat_mult.
apply Rle_trans
  with ((IZR 1000469970703 / IZR 1000000000000) ^ (2 ^ 14)).
2:{ apply pow_incr. split; [lra|].
    apply Rle_trans with (1 + 77 / 163840); [lra | apply exp_ineq1_le]. }
apply Rle_trans
  with (IZR (squareDown 1000000000000 14 1000469970703)
        / IZR 1000000000000).
2:{ apply squareDown_lower; lia. }
replace (squareDown 1000000000000 14 1000469970703)
  with 2204357080165549%Z by (vm_compute; reflexivity).
lra.
Qed.

Lemma Rpower_root_upper (x a : R) (p q : nat) :
  0 < x -> 0 < a -> (0 < q)%nat -> x ^ p <= a ^ q ->
  Rpower x (INR p / INR q) <= a.
Proof.
intros Hx Ha Hq H.
assert (HQ : 0 < INR q) by (apply lt_0_INR; exact Hq).
replace (INR p / INR q) with (INR p * / INR q) by reflexivity.
rewrite <- Rpower_mult, Rpower_pow by exact Hx.
apply Rle_trans with (Rpower (a ^ q) (/ INR q)).
- apply Rle_Rpower_l.
  + left. now apply Rinv_0_lt_compat.
  + split; [now apply pow_lt | exact H].
- rewrite <- (Rpower_pow q a Ha), Rpower_mult, Rinv_r by lra.
  rewrite Rpower_1 by exact Ha. lra.
Qed.

Lemma Rpower_root_lower (x a : R) (p q : nat) :
  0 < x -> 0 < a -> (0 < q)%nat -> a ^ q <= x ^ p ->
  a <= Rpower x (INR p / INR q).
Proof.
intros Hx Ha Hq H.
assert (HQ : 0 < INR q) by (apply lt_0_INR; exact Hq).
replace (INR p / INR q) with (INR p * / INR q) by reflexivity.
rewrite <- Rpower_mult, Rpower_pow by exact Hx.
apply Rle_trans with (Rpower (a ^ q) (/ INR q)).
- rewrite <- (Rpower_pow q a Ha), Rpower_mult, Rinv_r by lra.
  rewrite Rpower_1 by exact Ha. lra.
- apply Rle_Rpower_l.
  + left. now apply Rinv_0_lt_compat.
  + split; [now apply pow_lt | exact H].
Qed.

Lemma pow_7_7_upper : Rpower 7.7 0.7 <= 4.18.
Proof.
replace 0.7 with (INR 7 / INR 10) by (simpl; lra).
apply Rpower_root_upper; [lra | lra | lia |].
simpl. lra.
Qed.

(** [0.6931 ^ (1/5) >= 0.9293], the median as a fraction of [eta]. *)
Lemma median_factor_lower : 0.9293 <= Rpower 0.6931 (1 / 5).
Proof.
replace (1 / 5) with (INR 1 / INR 5) by (simpl; lra).
apply Rpower_root_lower; [lra | lra | lia |].
simpl. lra.
Qed.

(** The Lanczos value of Gamma(1.2) (0.91817) is below 0.9243. *)
Lemma lanczosReal_1_2_upper : lanczosReal (1 + 1 / 5) <= 0.9243.
Proof.
unfold lanczosReal, g.
replace (1 + 1 / 5 + - (1) + 7 + 0.5) with 7.7 by lra.
replace (1 + 1 / 5 + - (1) + 0.5) with 0.7 by lra.
replace (1 + 1 / 5 + - (1)) with 0.2 by lra.
assert (H1 := sqrt_2PI_upper). assert (H2 := pow_7_7_upper).
assert (H3 := exp_7_7_lower).
assert (H4 : xsum 0.2 <= 193.81).
{ unfold xsum, c, c0. cbn [fold_left fst snd]. lra. }
assert (H4' : 0 < xsum 0.2) by (apply xsum_pos; lra).
assert (H1' : 0 <= sqrt (2 * PI)) by apply sqrt_pos.
assert (H2' : 0 < Rpower 7.7 0.7) by (unfold Rpower; apply exp_pos).
assert (H3' : exp (- (7.7)) <= / 2200).
{ rewrite exp_Ropp. apply Rinv_le_contravar; lra. }
assert (H3'' : 0 < exp (- (7.7))) by apply exp_pos.
set (s := sqrt (2 * PI)) in *. set (p := Rpower 7.7 0.7) in *.
set (e := exp (- (7.7))) in *. set (x := xsum 0.2) in *.
assert (Ha : s * p <= 2.51 * 4.18)
  by (apply Rmult_le_compat; lra).
assert (Hb : s * p * e <= 2.51 * 4.18 * / 2200).
{ apply Rmult_le_compat;
    [apply Rmult_le_pos; lra | lra | exact Ha | exact H3']. }
assert (Hd : s * p * e * x <= 2.51 * 4.18 * / 2200 * 193.81).
{ apply Rmult_le_compat; [|lra | exact Hb | exact H4].
  repeat apply Rmult_le_pos; lra. }
lra.
Qed.
End NumericBounds.

(* ================================================================== *)
(** * Numeric bounds at the shapes 2, 2.5 and 3 *)
(* ================================================================== *)

Section NumericBoundsBelow.
Import Weibull LanczosReal.
Local Open Scope R_scope.

Lemma PI_lower : 3.14155 <= PI.
Proof.
destruct (PI_2_3_7_ineq 1) as [H _].
unfold PI_2_3_7_tg, tg_alt, Ratan_seq in H. simpl in H. lra.
Qed.

Lemma sqrt_2PI_lower : 2.5066 <= sqrt (2 * PI).
Proof.
assert (H := PI_lower).
replace 2.5066 with (sqrt (2.5066 * 2.5066)) by (apply sqrt_square; lra).
apply sqrt_le_1_alt. lra.
Qed.

(** [exp (- t) = exp (- t / 2^k) ^ 2^k >= (1 - t / 2^k) ^ 2^k]. *)
Lemma exp_neg_lower (scale : Z) (k : nat) (x : Z) (t : R) :
  (0 < scale)%Z -> (0 <= x)%Z ->
  IZR x / IZR scale <= 1 - t / INR (2 ^ k) ->
  IZR (squareDown scale k x) / IZR scale <= exp (- t).
Proof.
intros Hs Hx Hh.
assert (HS : 0 < IZR scale) by now apply IZR_lt.
assert (HN : 0 < INR (2 ^ k)).
{ apply lt_0_INR. apply Nat.neq_0_lt_0. apply Nat.pow_nonzero. lia. }
replace (- t) with (INR (2 ^ k) * (- (t / INR (2 ^ k)))) by (field; lra).
rewrite exp_nat_mult.
apply Rle_trans with ((IZR x / IZR scale) ^ (2 ^ k));
  [now apply squareDown_lower|].
apply pow_incr. split.
- apply Rmult_le_pos; [now apply IZR_le | left; now apply Rinv_0_lt_compat].
- apply Rle_trans with (1 + - (t / INR (2 ^ k))); [lra | apply exp_ineq1_le].
Qed.

Lemma exp_7_9_lower : 3.706 / 10000 <= exp (- (7.9)).
Proof.
apply Rle_trans
  with (IZR (squareDown 1000000000000000 18 999969863891601)
        / IZR 1000000000000000).
- replace (squareDown 1000000000000000 18 999969863891601)
    with 370699409677%Z by (vm_compute; reflexivity).
  lra.
- apply exp_neg_lower; [lia | lia |].
  rewrite INR_IZR_INZ.
  replace (Z.of_nat (2 ^ 18)) with 262144%Z by (vm_compute; reflexivity).
  lra.
Qed.

Lemma pow_7_9_lower : 6.42 <= Rpower 7.9 0.9.
Proof.
replace 0.9 with (INR 9 / INR 10) by (simpl; lra).
apply Rpower_root_lower; [lra | lra | lia |].
simpl. lra.
Qed.

(** Shape 2.5: Gamma(1.4) (0.88726) against 0.6931 ^ (2/5) (0.86361). *)
Lemma median_factor_upper : Rpower 0.6931 (1 / 2.5) <= 0.8637.
Proof.
replace (1 / 2.5) with (INR 2 / INR 5) by (simpl; lra).
apply Rpower_root_upper; [lra | lra | lia |].
simpl. lra.
Qed.

Lemma lanczosReal_1_4_lower : 0.88 <= lanczosReal (1 + 1 / 2.5).
Proof.
unfold lanczosReal, g.
replace (1 + 1 / 2.5 + - (1) + 7 + 0.5) with 7.9 by lra.
replace (1 + 1 / 2.5 + - (1) + 0.5) with 0.9 by lra.
replace (1 + 1 / 2.5 + - (1)) with 0.4 by lra.
assert (H1 := sqrt_2PI_lower). assert (H2 := pow_7_9_lower).
assert (H3 := exp_7_9_lower).
assert (H4 : 148.6 <= xsum 0.4).
{ unfold xsum, c, c0. cbn [fold_left fst snd]. lra. }
set (s := sqrt (2 * PI)) in *. set (p := Rpower 7.9 0.9) in *.
set (e := exp (- (7.9))) in *. set (x := xsum 0.4) in *.
assert (Ha : 2.5066 * 6.42 <= s * p)
  by (apply Rmult_le_compat; lra).
assert (Hb : 2.5066 * 6.42 * (3.706 / 10000) <= s * p * e)
  by (apply Rmult_le_compat; lra).
assert (Hd : 2.5066 * 6.42 * (3.706 / 10000) * 148.6 <= s * p * e * x)
  by (apply Rmult_le_compat; lra).
lra.
Qed.

(** Shape 2: Gamma(1.5) (0.88623) against 0.6931 ^ (1/2) (0.83253). *)
Lemma exp_8_lower : 3.354 / 10000 <= exp (- (8)).
Proof.
apply Rle_trans
  with (IZR (squareDown 1000000000000000 18 999969482421875)
        / IZR 1000000000000000).
- replace (squareDown 1000000000000000 18 999969482421875)
    with 335421679497%Z by (vm_compute; reflexivity).
  lra.
- apply exp_neg_lower; [lia | lia |].
  rewrite INR_IZR_INZ.
  replace (Z.of_nat (2 ^ 18)) with 262144%Z by (vm_compute; reflexivity).
  lra.
Qed.

Lemma median_factor_upper_2 : Rpower 0.6931 (1 / 2) <= 0.8326.
Proof.
replace (1 / 2) with (INR 1 / INR 2) by (simpl; lra).
apply Rpower_root_upper; [lra | lra | lia |].
simpl. lra.
Qed.

Lemma lanczosReal_1_5_lower : 0.886 <= lanczosReal (1 + 1 / 2).
Proof.
unfold lanczosReal, g.
replace (1 + 1 / 2 + - (1) + 7 + 0.5) with 8 by lra.
replace (1 + 1 / 2 + - (1) + 0.5) with 1 by lra.
replace (1 + 1 / 2 + - (1)) with 0.5 by lra.
rewrite Rpower_1 by lra.
assert (H1 := sqrt_2PI_lower). assert (H3 := exp_8_lower).
assert (H4 : 131.74 <= xsum 0.5).
{ unfold xsum, c, c0. cbn [fold_left fst snd]. lra. }
set (s := sqrt (2 * PI)) in *.
set (e := exp (- (8))) in *. set (x := xsum 0.5) in *.
assert (Ha : 2.5066 * 8 <= s * 8) by lra.
assert (Hb : 2.5066 * 8 * (3.354 / 10000) <= s * 8 * e)
  by (apply Rmult_le_compat; lra).
assert (Hd : 2.5066 * 8 * (3.354 / 10000) * 131.74 <= s * 8 * e * x)
  by (apply Rmult_le_compat; lra).
lra.
Qed.

(** Shape 3: Gamma(4/3) (0.89298) against 0.6931 ^ (1/3) (0.88498). *)
Lemma exp_47_6_lower : 3.9625 / 10000 <= exp (- (47 / 6)).
Proof.
apply Rle_trans
  with (IZR (squareDown 1000000000000000 18 999970118204752)
        / IZR 1000000000000000).
- replace (squareDown 1000000000000000 18 999970118204752)
    with 396255888238%Z by (vm_compute; reflexivity).
  lra.
- apply exp_neg_lower; [lia | lia |].
  rewrite INR_IZR_INZ.
  replace (Z.of_nat (2 ^ 18)) with 262144%Z by (vm_compute; reflexivity).
  lra.
Qed.

Lemma pow_47_6_lower : 5.5584 <= Rpower (47 / 6) (5 / 6).
Proof.
replace (5 / 6) with (INR 5 / INR 6) by (simpl; lra).
apply Rpower_root_lower; [lra | lra | lia |].
simpl. lra.
Qed.

Lemma median_factor_upper_3 : Rpower 0.6931 (1 / 3) <= 0.885.
Proof.
replace (1 / 3) with (INR 1 / INR 3) by (simpl; lra).
apply Rpower_root_upper; [lra | lra | lia |].
simpl. lra.
Qed.

Lemma lanczosReal_4_3_lower : 0.892 <= lanczosReal (1 + 1 / 3).
Proof.
unfold lanczosReal, g.
replace (1 + 1 / 3 + - (1) + 7 + 0.5) with (47 / 6) by lra.
replace (1 + 1 / 3 + - (1) + 0.5) with (5 / 6) by lra.
replace (1 + 1 / 3 + - (1)) with (1 / 3) by lra.
assert (H1 := sqrt_2PI_lower). assert (H2 := pow_47_6_lower).
assert (H3 := exp_47_6_lower).
assert (H4 : 161.72 <= xsum (1 / 3)).
{ unfold xsum, c, c0. cbn [fold_left fst snd]. lra. }
set (s := sqrt (2 * PI)) in *. set (p := Rpower (47 / 6) (5 / 6)) in *.
set (e := exp (- (47 / 6))) in *. set (x := xsum (1 / 3)) in *.
assert (Ha : 2.5066 * 5.5584 <= s * p)
  by (apply Rmult_le_compat; lra).
assert (Hb : 2.5066 * 5.5584 * (3.9625 / 10000) <= s * p * e)
  by (apply Rmult_le_compat; lra).
assert (Hd : 2.5066 * 5.5584 * (3.9625 / 10000) * 161.72 <= s * p * e * x)
  by (apply Rmult_le_compat; lra).
lra.
Qed.
End NumericBoundsBelow.

(* ================================================================== *)
(** * The characteristic lives B10 and B50 *)
(* ================================================================== *)

Section CharacteristicLives.
Import Weibull LanczosReal.
Local Open Scope R_scope.



End CharacteristicLives.

(* ================================================================== *)
(** * Degenerate arguments of the reliability service *)
(* ================================================================== *)

Section DegenerateArguments.
Import Weibull LanczosReal.
Local Open Scope R_scope.

Lemma lanczos_sum_at_infinity x0 (l : list (Z * R)) :
  exists x,
    fold_left (fun x ic => add x (div (Fin (snd ic)) PInf)) l (Fin x0)
    = Fin x.
Proof.
revert x0. induction l as [|ic l IH]; intro x0; simpl.
- now exists x0.
- apply IH.
Qed.

(** [Math.pow(Infinity, Infinity) * Math.exp(-Infinity)] is
    [Infinity * 0]. *)
Lemma gammaFunction_at_infinity : gammaFunction PInf = NaN.
Proof.
unfold gammaFunction. cbn [gammaFuel lt]. unfold lanczos. cbv zeta.
cbn [sub neg add].
destruct (lanczos_sum_at_infinity c0 c) as [x ->].
cbn [mul Math_sqrt Math_pow Math_exp neg].
assert (Hpi := PI_RGT_0).
rewrite (Rltb_false (2 * PI) 0) by lra.
assert (Hs : 0 < sqrt (2 * PI)) by (apply sqrt_lt_R0; lra).
cbn [mul]. unfold mul_inf. rewrite (Rltb_true 0 (sqrt (2 * PI)) Hs).
cbn [mul]. unfold mul_inf. rewrite (Rltb_false 0 0) by lra. reflexivity.
Qed.

Lemma etaOf_shape_zero life : etaOf life (Fin 0) = NaN.
Proof.
unfold etaOf. cbn [div]. rewrite (Reqb_true 0 0 eq_refl).
rewrite (Rltb_true 0 1) by lra. cbn [add].
rewrite gammaFunction_at_infinity. destruct life; reflexivity.
Qed.

Lemma failure_curve_shape_zero life (points : nat) :
  let p := parameters (generateFailureCurve life (Fin 0) points) in
  eta p = NaN /\ b10_life p = NaN /\ b50_life p = NaN.
Proof.
cbv zeta. unfold generateFailureCurve. cbn [parameters eta b10_life b50_life].
unfold b10Of, b50Of. rewrite etaOf_shape_zero. repeat split.
Qed.

Lemma failure_curve_life_zero shape (points : nat) :
  0 < shape ->
  let p := parameters (generateFailureCurve (Fin 0) (Fin shape) points) in
  eta p = Fin 0 /\ b10_life p = Fin 0 /\ b50_life p = Fin 0.
Proof.
intro Hs. cbv zeta. unfold generateFailureCurve.
cbn [parameters eta b10_life b50_life].
unfold b10Of, b50Of. rewrite !quantile_fin, etaOf_fin by lra.
cbn [Math_round].
assert (Hz : forall x,
           IZR (Zfloor (0 / lanczosReal (1 + 1 / shape) * x + / 2)) = 0).
{ intro x. replace (0 / lanczosReal (1 + 1 / shape) * x + / 2) with (/ 2)
    by (unfold Rdiv; ring).
  rewrite (Zfloor_eq 0 (/ 2)); [reflexivity | simpl; lra]. }
repeat split.
- replace (0 / lanczosReal (1 + 1 / shape) + / 2) with (/ 2)
    by (unfold Rdiv; ring).
  rewrite (Zfloor_eq 0 (/ 2)); [reflexivity | simpl; lra].
- now rewrite Hz.
- now rewrite Hz.
Qed.

(** With a negative mean life the first candidate already lies beyond
    the bound: the loop body never runs. *)
Lemma search_negative_life life shape cost mult (fuel : nat) :
  life < 0 ->
  optimalReplacementInterval (Fin life) shape cost mult (S fuel)
  = Some {| optimal_interval_hours := Math_round (Fin life);
            cost_per_hour := PInf;
            vs_oem_interval := Fin 100 |}.
Proof.
intro H. unfold optimalReplacementInterval. cbn [searchLoop].
unfold searchStep. cbn [div].
rewrite (Reqb_false 100 0) by lra. cbn [mul le].
rewrite (Rleb_false (life / 100) (life * 1.5)) by lra.
unfold round_to. cbn [mul Math_round div]. unfold mul_inf.
rewrite (Rltb_true 0 10000) by lra. cbn [Math_round div].
rewrite (Rltb_false 10000 0) by lra.
rewrite (Reqb_false life 0) by lra.
cbn [mul Math_round].
replace (life / life * 100 + / 2) with (IZR 100 + / 2) by (field; lra).
rewrite (Zfloor_eq 100 (IZR 100 + / 2)); [reflexivity | lra].
Qed.

(** With a mean life of 0 the step is 0 and the candidate stays at 0,
    which never exceeds the bound 0: no amount of fuel reaches the
    exit. *)
Lemma searchLoop_zero_life shape cost mult (fuel : nat) :
  forall t bestInterval bestCostRate,
    t = 0 ->
    searchLoop (Fin 0) shape cost mult fuel (Fin t) bestInterval bestCostRate
    = None.
Proof.
induction fuel as [|fuel IH]; intros t bi bc Ht; [reflexivity|].
cbn [searchLoop]. cbn [mul le].
rewrite (Rleb_true t (0 * 1.5)) by lra.
unfold searchStep. cbn [div]. rewrite (Reqb_false 100 0) by lra.
cbn [add].
destruct (lt (costRate (Fin 0) shape cost mult (Fin t)) bc);
  apply IH; lra.
Qed.

Lemma search_zero_life shape cost mult (fuel : nat) :
  optimalReplacementInterval (Fin 0) shape cost mult fuel = None.
Proof.
unfold optimalReplacementInterval, searchStep. cbn [div].
rewrite (Reqb_false 100 0) by lra.
rewrite searchLoop_zero_life; [reflexivity | lra].
Qed.

(** For a positive mean life the search returns: the candidates are the
    multiples of a hundredth of the mean life, and 152 iterations pass
    the bound of one and a half mean lives. *)
Lemma searchLoop_terminates life shape cost mult (fuel : nat) :
  0 < life ->
  forall t bestInterval bestCostRate,
    life * 1.5 - t < INR fuel * (life / 100) ->
    exists r,
      searchLoop (Fin life) shape cost mult (S fuel) (Fin t)
                 bestInterval bestCostRate = Some r.
Proof.
intro Hl. induction fuel as [|fuel IH]; intros t bi bc Ht.
- simpl in Ht. cbn [searchLoop mul le].
  rewrite (Rleb_false t (life * 1.5)) by lra. eexists. reflexivity.
- rewrite S_INR in Ht.
  remember (S fuel) as n eqn:En. cbn [searchLoop]. cbn [mul le].
  destruct (Rleb t (life * 1.5)); [|eexists; reflexivity].
  unfold searchStep. cbn [div]. rewrite (Reqb_false 100 0) by lra.
  cbn [add]. subst n.
  destruct (lt (costRate (Fin life) shape cost mult (Fin t)) bc);
    apply IH; lra.
Qed.

Lemma search_returns_for_positive_life life shape cost mult :
  0 < life ->
  exists r,
    optimalReplacementInterval (Fin life) shape cost mult 152 = Some r.
Proof.
intro Hl. unfold optimalReplacementInterval, searchStep. cbn [div].
rewrite (Reqb_false 100 0) by lra.
destruct (searchLoop_terminates life shape cost mult 151 Hl
            (life / 100) (Fin life) PInf) as [[bi bc] Hr].
- rewrite INR_IZR_INZ. change (Z.of_nat 151) with 151%Z. lra.
- rewrite Hr. eexists. reflexivity.
Qed.

(** C7, on the example: with shape 0 the failure-curve generator returns
    a record whose scale, B10 and B50 are NaN. *)
Lemma failure_curve_with_zero_shape_reports_nan :
  eta (parameters (generateFailureCurve (Fin 10000) (Fin 0) 50)) = NaN
  /\ b10_life (parameters (generateFailureCurve (Fin 10000) (Fin 0) 50))
     = NaN
  /\ b50_life (parameters (generateFailureCurve (Fin 10000) (Fin 0) 50))
     = NaN.
Proof. exact (failure_curve_shape_zero (Fin 10000) 50). Qed.

(** C7 (amended): the reliability operations check no argument and have
    no error result.  [generateFailureCurve] returns a record for every
    argument: with shape 0 its scale, B10 and B50 are NaN, and with a
    mean life of 0 and a positive shape they are 0.
    [optimalReplacementInterval] with a negative mean life returns at
    once, with cost_per_hour = Infinity, and with a mean life of 0 its
    search loop never reaches its exit. *)
Theorem reliability_operations_do_not_validate
    (life shape cost mult : num) (points fuel : nat)
    (negativeLife positiveShape : R) :
  negativeLife < 0 -> 0 < positiveShape ->
  (let p := parameters (generateFailureCurve life (Fin 0) points) in
   eta p = NaN /\ b10_life p = NaN /\ b50_life p = NaN)
  /\ (let p := parameters
                 (generateFailureCurve (Fin 0) (Fin positiveShape) points) in
      eta p = Fin 0 /\ b10_life p = Fin 0 /\ b50_life p = Fin 0)
  /\ optimalReplacementInterval (Fin negativeLife) shape cost mult (S fuel)
     = Some {| optimal_interval_hours := Math_round (Fin negativeLife);
               cost_per_hour := PInf;
               vs_oem_interval := Fin 100 |}
  /\ optimalReplacementInterval (Fin 0) shape cost mult fuel = None.
Proof.
intros Hl Hs. split; [apply failure_curve_shape_zero|].
split; [now apply failure_curve_life_zero|].
split; [now apply search_negative_life | apply search_zero_life].
Qed.

Lemma reliability_operations_do_not_validate_witness :
  (let p := parameters (generateFailureCurve (Fin 10000) (Fin 0) 50) in
   eta p = NaN /\ b10_life p = NaN /\ b50_life p = NaN)
  /\ (let p := parameters (generateFailureCurve (Fin 0) (Fin 2.5) 50) in
      eta p = Fin 0 /\ b10_life p = Fin 0 /\ b50_life p = Fin 0)
  /\ optimalReplacementInterval (Fin (-100)) (Fin 2.5) (Fin 5000) (Fin 3)
                                (S 200)
     = Some {| optimal_interval_hours := Math_round (Fin (-100));
               cost_per_hour := PInf;
               vs_oem_interval := Fin 100 |}
  /\ optimalReplacementInterval (Fin 0) (Fin 2.5) (Fin 5000) (Fin 3) 200
     = None.
Proof.
apply (reliability_operations_do_not_validate
         (Fin 10000) (Fin 2.5) (Fin 5000) (Fin 3) 50 200 (-100) 2.5); lra.
Defined.
End DegenerateArguments.

(* ================================================================== *)
(** * The price list behind [getPartCost] *)
(* ================================================================== *)

Section PriceLookup.
Import Js.
Local Open Scope Q_scope.
Local Open Scope string_scope.

Lemma price_lookup_absent (pm : Maintenance.PriceMap) pn :
  (forall item, In item pm -> Maintenance.item_part_number item <> pn) ->
  Maintenance.price_lookup pm pn = None.
Proof.
  induction pm as [|item rest IH]; intros Hno; [reflexivity|].
  simpl. rewrite IH by (intros i Hi; apply Hno; now right).
  destruct (String.eqb_spec (Maintenance.item_part_number item) pn) as [E|E];
    [|reflexivity].
  exfalso. apply (Hno item); [now left | exact E].
Qed.

Lemma price_lookup_last (before after : Maintenance.PriceMap) item :
  (forall i, In i after ->
             Maintenance.item_part_number i
             <> Maintenance.item_part_number item) ->
  Maintenance.price_lookup (before ++ item :: after)%list
                           (Maintenance.item_part_number item)
  = Some item.
Proof.
  intros Hafter. induction before as [|b before IH]; simpl.
  - rewrite (price_lookup_absent after) by exact Hafter.
    now rewrite String.eqb_refl.
  - now rewrite IH.
Qed.

(** X1: for a part number that is not an inherited property name, the
    price charged by [getPartCost] is the price of the last row of the
    price list that carries the number, less the discount, times the
    quantity; a part without a number, or with a number that no row
    carries, costs 0. *)
Theorem getPartCost_reads_the_last_row
    (pm before after : Maintenance.PriceMap) item (qty discountPct : Q) :
  Maintenance.ownNames pm (Maintenance.item_part_number item) ->
  Maintenance.item_part_number item <> "" ->
  pm = (before ++ item :: after)%list ->
  (forall i, In i after ->
             Maintenance.item_part_number i
             <> Maintenance.item_part_number item) ->
  Maintenance.getPartCost pm (Some (Maintenance.item_part_number item))
                          qty discountPct
  = Maintenance.unit_price item * (1 - discountPct / 100) * qty
  /\ Maintenance.getPartCost pm None qty discountPct = 0
  /\ Maintenance.getPartCost pm (Some "") qty discountPct = 0
  /\ forall pn, Maintenance.ownNames pm pn ->
       (forall i, In i pm -> Maintenance.item_part_number i <> pn) ->
       Maintenance.getPartCost pm (Some pn) qty discountPct = 0.
Proof.
  intros _ Hne -> Hafter. repeat split.
  - unfold Maintenance.getPartCost.
    destruct (String.eqb_spec (Maintenance.item_part_number item) "")
      as [E|_]; [contradiction|].
    now rewrite price_lookup_last.
  - intros pn _ Hno. unfold Maintenance.getPartCost.
    destruct (String.eqb pn ""); [reflexivity|].
    now rewrite price_lookup_absent.
Qed.

Lemma getPartCost_reads_the_last_row_witness :
  Maintenance.getPartCost Examples.priceRows (Some "OIL-FILTER") 2 20
  = 45 * (1 - 20 / 100) * 2
  /\ Maintenance.getPartCost Examples.priceRows None 2 20 = 0
  /\ Maintenance.getPartCost Examples.priceRows (Some "") 2 20 = 0
  /\ forall pn, Maintenance.ownNames Examples.priceRows pn ->
       (forall i, In i Examples.priceRows ->
                  Maintenance.item_part_number i <> pn) ->
       Maintenance.getPartCost Examples.priceRows (Some pn) 2 20 = 0.
Proof.
  apply (getPartCost_reads_the_last_row
           Examples.priceRows
           [Examples.oilFilter 40; Examples.sparkPlug] []
           (Examples.oilFilter 45) 2 20).
  - split.
    + simpl. intuition discriminate.
    + intros item [<- | [<- | [<- | []]]]; discriminate.
  - discriminate.
  - reflexivity.
  - intros i [].
Defined.
End PriceLookup.

(* ================================================================== *)
(** * Rounding, default hours and the head count *)
(* ================================================================== *)

Section Rounding.
Import Js.
Local Open Scope Q_scope.

Lemma Qfloor_unique (x : Q) (n : Z) :
  inject_Z n <= x -> x < inject_Z (n + 1) -> Qfloor x = n.
Proof.
  intros Hlo Hhi.
  pose proof (Qfloor_le x) as H1. pose proof (Qlt_floor x) as H2.
  assert (Ha : (n < Qfloor x + 1)%Z).
  { rewrite Zlt_Qlt. eapply Qle_lt_trans; [exact Hlo | exact H2]. }
  assert (Hb : (Qfloor x < n + 1)%Z).
  { rewrite Zlt_Qlt. eapply Qle_lt_trans; [exact H1 | exact Hhi]. }
  lia.
Qed.

Lemma Math_round_inject_Z (n : Z) : Math_round (inject_Z n) = n.
Proof.
  unfold Math_round. apply Qfloor_unique.
  - lra.
  - rewrite inject_Z_plus. change (inject_Z 1) with 1. lra.
Qed.

Lemma Math_round_bounds (x : Q) :
  x - (1 # 2) < inject_Z (Math_round x) <= x + (1 # 2).
Proof.
  unfold Math_round.
  pose proof (Qfloor_le (x + (1 # 2))) as H1.
  pose proof (Qlt_floor (x + (1 # 2))) as H2.
  rewrite inject_Z_plus in H2. change (inject_Z 1) with 1 in H2.
  split; lra.
Qed.

Lemma round2_monotone x y :
  x <= y -> Maintenance.round2 x <= Maintenance.round2 y.
Proof.
  intros H. unfold Maintenance.round2, Math_round.
  apply Qmult_le_compat_r; [|discriminate].
  rewrite <- Zle_Qle. apply Qfloor_resp_le. lra.
Qed.

(** X2: [round2] moves its argument by less than a hundredth, rounding
    a rounded value again changes nothing, and a larger argument never
    gets a smaller result. *)
Theorem round2_rounds_to_the_cent (val other : Q) :
  val - (1 # 100) < Maintenance.round2 val < val + (1 # 100)
  /\ Maintenance.round2 (Maintenance.round2 val) == Maintenance.round2 val
  /\ (val <= other -> Maintenance.round2 val <= Maintenance.round2 other).
Proof.
  pose proof (Math_round_bounds (val * 100)) as [Hlo Hhi].
  split; [|split].
  - unfold Maintenance.round2. split.
    + apply Qlt_shift_div_l; lra.
    + apply Qlt_shift_div_r; lra.
  - unfold Maintenance.round2.
    assert (E : inject_Z (Math_round (val * 100)) / 100 * 100
                == inject_Z (Math_round (val * 100))) by field.
    unfold Math_round at 1. rewrite E.
    fold (Math_round (inject_Z (Math_round (val * 100)))).
    rewrite Math_round_inject_Z. reflexivity.
  - apply round2_monotone.
Qed.
End Rounding.

Section DefaultHours.
Import Js.
Local Open Scope Q_scope.

Lemma or_num_nonzero (x : option Q) (d : Q) : ~ d == 0 -> ~ or_num x d == 0.
Proof.
  intros Hd. unfold or_num. destruct x as [q|]; [|exact Hd].
  destruct (Qeq_bool q 0) eqn:E; [exact Hd|].
  now apply Qeq_bool_neq.
Qed.

Lemma or_num_absent (x : option Q) (d : Q) :
  truthy x = false -> or_num x d = d.
Proof.
  unfold truthy, or_num. destruct x as [q|]; [|reflexivity].
  rewrite negb_false_iff. now intros ->.
Qed.

(** X3: the annual hours taken for a fleet unit are never zero; a unit
    without hours of its own, of a model without default hours, is
    analysed at 6500 hours a year. *)
Theorem unit_hours_are_never_zero (u : Maintenance.FleetUnit) :
  ~ Maintenance.unitHours u == 0
  /\ (truthy (Maintenance.annual_hours u) = false ->
      truthy (Maintenance.default_annual_hours_standby u) = false ->
      truthy (Maintenance.default_annual_hours_prime u) = false ->
      truthy (Maintenance.default_annual_hours_ltp u) = false ->
      truthy (Maintenance.default_annual_hours_continuous u) = false ->
      Maintenance.unitHours u = 6500).
Proof.
  split.
  - unfold Maintenance.unitHours, Maintenance.getDefaultHours.
    repeat apply or_num_nonzero. discriminate.
  - intros Ha Hs Hp Hl Hc.
    unfold Maintenance.unitHours, Maintenance.getDefaultHours.
    rewrite (or_num_absent _ _ Ha), (or_num_absent _ 6500 Hp).
    apply or_num_absent. unfold Maintenance.default_hours_key.
    repeat match goal with
           | |- context [if ?b then _ else _] => destruct b
           end; auto.
Qed.

Lemma unit_hours_are_never_zero_witness :
  ~ Maintenance.unitHours Examples.bareUnit == 0
  /\ Maintenance.unitHours Examples.bareUnit = 6500.
Proof.
  destruct (unit_hours_are_never_zero Examples.bareUnit) as [H1 H2].
  split; [exact H1 | apply H2; reflexivity].
Defined.
End DefaultHours.

Section Technicians.
Import Js.
Local Open Scope Q_scope.

Lemma Math_ceil_bounds (x : Q) :
  x <= inject_Z (Math_ceil x) /\ inject_Z (Math_ceil x) - 1 < x.
Proof.
  unfold Math_ceil. split; [apply Qle_ceiling|].
  pose proof (Qceiling_lt x) as H.
  unfold Z.sub in H. rewrite inject_Z_plus, inject_Z_opp in H.
  change (inject_Z 1) with 1 in H. lra.
Qed.

Lemma techniciansFor_bounds (data : Maintenance.ScenarioData) (w : Q) :
  0 < Maintenance.availableHoursPerTech data ->
  w * 1.15
  <= inject_Z (Maintenance.techniciansFor data w)
     * Maintenance.availableHoursPerTech data
  /\ (inject_Z (Maintenance.techniciansFor data w) - 1)
     * Maintenance.availableHoursPerTech data
     < w * 1.15.
Proof.
  intros Hpos.
  unfold Maintenance.techniciansFor, Maintenance.safetyFactor.
  rewrite (proj2 (ltb_true_iff _ _) Hpos).
  set (a := Maintenance.availableHoursPerTech data) in *.
  destruct (Math_ceil_bounds (w * 1.15 / a)) as [Hlo Hhi].
  split.
  - apply Qle_trans with (w * 1.15 / a * a).
    + apply Qle_lteq. right. field. lra.
    + apply Qmult_le_compat_r; [exact Hlo | lra].
  - apply Qlt_le_trans with (w * 1.15 / a * a).
    + apply Qmult_lt_compat_r; [exact Hpos | exact Hhi].
    + apply Qle_lteq. right. field. lra.
Qed.

(** X5: with labor to do and working hours to offer, the reported
    utilization of the technicians without the safety factor is positive
    and never above 86.96 percent, the share that the safety factor of
    15 percent leaves. *)
Theorem utilization_stays_below_the_safety_margin
    (data : Maintenance.ScenarioData) :
  0 < Maintenance.availableHoursPerTech data ->
  0 < Maintenance.totalAnnualLaborHours data ->
  (1 <= Maintenance.technicians_needed (Maintenance.staffing data))%Z
  /\ 0 <= Maintenance.utilization_without_safety (Maintenance.staffing data)
  /\ Maintenance.utilization_without_safety (Maintenance.staffing data)
     <= 86.96.
Proof.
  intros Ha HL. simpl. rewrite (proj2 (ltb_true_iff _ _) Ha).
  destruct (techniciansFor_bounds
              data (Maintenance.totalAnnualLaborHours data) Ha)
    as [Hlo _].
  fold (Maintenance.techniciansNeeded data) in Hlo.
  set (n := Maintenance.techniciansNeeded data) in *.
  set (a := Maintenance.availableHoursPerTech data) in *.
  set (L := Maintenance.totalAnnualLaborHours data) in *.
  assert (Hna : 0 < inject_Z n * a) by lra.
  assert (Hn : 0 < inject_Z n).
  { destruct (Qlt_le_dec 0 (inject_Z n)) as [H | H]; [exact H|].
    exfalso. assert (inject_Z n * a <= 0 * a)
      by (apply Qmult_le_compat_r; lra). lra. }
  split; [rewrite <- (Zlt_Qlt 0) in Hn; lia|].
  assert (Hu : L / (inject_Z n * a) * 100 <= 100 / 1.15).
  { apply Qle_shift_div_l; [reflexivity|].
    assert (E : L / (inject_Z n * a) * 100 * 1.15
                == L * 1.15 / (inject_Z n * a) * 100) by (field; lra).
    rewrite E.
    assert (Hq : L * 1.15 / (inject_Z n * a) <= 1)
      by (apply Qle_shift_div_r; lra).
    lra. }
  split.
  - apply Qle_trans with (Maintenance.round2 0); [discriminate|].
    apply round2_monotone.
    assert (0 < L / (inject_Z n * a)) by (apply Qlt_shift_div_l; lra).
    lra.
  - apply Qle_trans with (Maintenance.round2 (100 / 1.15));
      [|discriminate].
    now apply round2_monotone.
Qed.

Lemma utilization_stays_below_the_safety_margin_witness :
  let data := Examples.recurringData 500 in
  (1 <= Maintenance.technicians_needed (Maintenance.staffing data))%Z
  /\ 0 <= Maintenance.utilization_without_safety (Maintenance.staffing data)
  /\ Maintenance.utilization_without_safety (Maintenance.staffing data)
     <= 86.96.
Proof.
  apply (utilization_stays_below_the_safety_margin
           (Examples.recurringData 500)); reflexivity.
Defined.
End Technicians.

(* ================================================================== *)
(** * The year-by-year projection of [runAnalysis] *)
(* ================================================================== *)

Section YearlyProjection.
Import Js.
Local Open Scope Q_scope.
Variable data : Maintenance.ScenarioData.

Lemma projection_years years st :
  map Maintenance.pr_year
      (Maintenance.annualProjections
         (fold_left (Maintenance.projectionStep data) years st))
  = map Maintenance.pr_year (Maintenance.annualProjections st) ++ years.
Proof.
  revert st. induction years as [|y years IH]; intros st; simpl.
  - now rewrite app_nil_r.
  - rewrite IH. simpl. rewrite map_app. simpl.
    now rewrite <- app_assoc.
Qed.

Lemma projection_last_row years st :
  years <> [] ->
  exists init row,
    Maintenance.annualProjections
      (fold_left (Maintenance.projectionStep data) years st)
    = init ++ [row]
    /\ Maintenance.cumulative_cost row
       = Maintenance.round2
           (Maintenance.cumulativeCost
              (fold_left (Maintenance.projectionStep data) years st)).
Proof.
  revert st. induction years as [|y years IH]; intros st Hne;
    [contradiction|].
  destruct years as [|y' years].
  - simpl. eexists _, _. split; reflexivity.
  - change (fold_left (Maintenance.projectionStep data) (y :: y' :: years) st)
      with (fold_left (Maintenance.projectionStep data) (y' :: years)
                      (Maintenance.projectionStep data st y)).
    apply IH. discriminate.
Qed.

Lemma projection_rows years st row :
  In row (Maintenance.annualProjections
            (fold_left (Maintenance.projectionStep data) years st)) ->
  In row (Maintenance.annualProjections st)
  \/ exists year,
       In year years
       /\ Maintenance.pr_year row = year
       /\ Maintenance.units_commissioned row
          = Maintenance.unitsCommissioned data year
       /\ Maintenance.pr_technicians_needed row
          = Maintenance.techniciansFor
              data (Maintenance.yearLaborHoursScaled data year).
Proof.
  revert st. induction years as [|y years IH]; intros st; simpl.
  - now left.
  - intros H. destruct (IH _ H) as [Hin | [year [Hy Hrow]]].
    + simpl in Hin. apply in_app_or in Hin.
      destruct Hin as [Hin | [<- | []]]; [now left|].
      right. exists y. simpl. auto.
    + right. exists year. split; [now right | exact Hrow].
Qed.

Lemma projection_sums years st :
  Maintenance.cumulativeCost
    (fold_left (Maintenance.projectionStep data) years st)
  == Maintenance.cumulativeCost st
     + fold_left (fun acc y => acc + Maintenance.yearTotalCost data y)
                 years 0
  /\ Maintenance.npvTotal
       (fold_left (Maintenance.projectionStep data) years st)
     == Maintenance.npvTotal st
        + fold_left (fun acc y => acc + Maintenance.yearNpv data y) years 0.
Proof.
  revert st. induction years as [|y years IH]; intros st; simpl.
  - split; ring.
  - destruct (IH (Maintenance.projectionStep data st y)) as [-> ->].
    simpl.
    rewrite (fold_left_add_shift (Maintenance.yearTotalCost data) years
                                 (0 + _)).
    rewrite (fold_left_add_shift (Maintenance.yearNpv data) years (0 + _)).
    split; ring.
Qed.
End YearlyProjection.

Section ProjectionProperties.
Import Js.
Local Open Scope Q_scope.

Lemma upto_nonempty (p : Q) : 1 <= p -> upto (Math_floor p) <> [].
Proof.
  intros Hp.
  assert (H : (1 <= Math_floor p)%Z).
  { unfold Math_floor. rewrite <- (Qfloor_Z 1). now apply Qfloor_resp_le. }
  unfold upto. destruct (Z.to_nat _) eqn:E; [lia | discriminate].
Qed.

Lemma unitCommissioned_le (year : Z) (u : Maintenance.FleetUnit) :
  Maintenance.unitCommissioned year u <= Maintenance.quantity u.
Proof.
  unfold Maintenance.unitCommissioned.
  destruct (_ <=? year)%Z; [apply Qle_refl | apply Math_min_le_l].
Qed.

(** X6: for an analysis period of at least one year, the rows of the
    projection are the years 1, 2, ... up to the period, in order, and
    the cumulative cost of the last row is the nominal total of the TCO
    summary. *)
Theorem projection_covers_the_analysis_period
    (data : Maintenance.ScenarioData) (now : string) :
  1 <= Maintenance.analysis_period_years (Maintenance.scenario data) ->
  let r := Maintenance.runAnalysis data now in
  map Maintenance.pr_year (Maintenance.annual_projections r)
  = upto (Math_floor (Maintenance.analysis_period_years
                        (Maintenance.scenario data)))
  /\ exists init row,
       Maintenance.annual_projections r = init ++ [row]
       /\ Maintenance.cumulative_cost row
          = Maintenance.total_nominal (Maintenance.res_tco r).
Proof.
  intros Hp. simpl. split.
  - unfold Maintenance.projection. now rewrite projection_years.
  - unfold Maintenance.projection, Maintenance.analysisPeriod.
    apply projection_last_row. now apply upto_nonempty.
Qed.

Lemma projection_covers_the_analysis_period_witness :
  let r := Maintenance.runAnalysis Examples.twoYearData Examples.clockA in
  map Maintenance.pr_year (Maintenance.annual_projections r) = upto 2
  /\ exists init row,
       Maintenance.annual_projections r = init ++ [row]
       /\ Maintenance.cumulative_cost row
          = Maintenance.total_nominal (Maintenance.res_tco r).
Proof.
  apply (projection_covers_the_analysis_period
           Examples.twoYearData Examples.clockA).
  discriminate.
Defined.

(** X7: when the annual labor hours are not negative, no year of the
    projection counts more commissioned units than the fleet holds or
    needs more technicians than the fully deployed fleet. *)
Theorem projection_ramp_stays_within_the_fleet
    (data : Maintenance.ScenarioData) (now : string) :
  0 <= Maintenance.totalAnnualLaborHours data ->
  let r := Maintenance.runAnalysis data now in
  Forall
    (fun row =>
       Maintenance.units_commissioned row
       <= Maintenance.fs_total_units (Maintenance.fleet_summary r)
       /\ (Maintenance.pr_technicians_needed row
           <= Maintenance.technicians_needed (Maintenance.res_staffing r))%Z)
    (Maintenance.annual_projections r).
Proof.
  intros Hlabor. cbv zeta. apply Forall_forall. intros row Hrow.
  simpl in *. unfold Maintenance.projection in Hrow.
  apply projection_rows in Hrow.
  destruct Hrow as [[] | [year [_ [_ [-> ->]]]]].
  assert (Hu : Maintenance.unitsCommissioned data year
               <= Maintenance.totalUnits data).
  { unfold Maintenance.unitsCommissioned, Maintenance.totalUnits.
    apply fold_left_add_le. intros u _. apply unitCommissioned_le. }
  split; [exact Hu|].
  unfold Maintenance.techniciansNeeded, Maintenance.techniciansFor,
    Maintenance.yearLaborHoursScaled, Maintenance.safetyFactor.
  destruct (ltb 0 (Maintenance.availableHoursPerTech data)) eqn:Ea;
    [|lia].
  apply ltb_true_iff in Ea. apply Qceiling_resp_le.
  set (a := Maintenance.availableHoursPerTech data) in *.
  set (L := Maintenance.totalAnnualLaborHours data) in *.
  assert (Hscaled : (if ltb 0 (Maintenance.totalUnits data)
                     then L * (Maintenance.unitsCommissioned data year
                               / Maintenance.totalUnits data)
                     else 0) <= L).
  { destruct (ltb 0 (Maintenance.totalUnits data)) eqn:Et; [|exact Hlabor].
    apply ltb_true_iff in Et.
    assert (Hr : Maintenance.unitsCommissioned data year
                 / Maintenance.totalUnits data <= 1).
    { apply Qle_shift_div_r; [exact Et | lra]. }
    rewrite <- (Qmult_1_r L) at 2.
    rewrite (Qmult_comm L), (Qmult_comm L 1).
    apply Qmult_le_compat_r; assumption. }
  apply Qle_shift_div_l; [exact Ea|].
  assert (E : forall w, w * 1.15 / a * a == w * 1.15) by (intro; field; lra).
  rewrite E. lra.
Qed.

Lemma projection_ramp_stays_within_the_fleet_witness :
  let r := Maintenance.runAnalysis Examples.twoYearData Examples.clockA in
  Forall
    (fun row =>
       Maintenance.units_commissioned row
       <= Maintenance.fs_total_units (Maintenance.fleet_summary r)
       /\ (Maintenance.pr_technicians_needed row
           <= Maintenance.technicians_needed (Maintenance.res_staffing r))%Z)
    (Maintenance.annual_projections r).
Proof.
  apply (projection_ramp_stays_within_the_fleet
           Examples.twoYearData Examples.clockA).
  vm_compute. discriminate.
Defined.
End ProjectionProperties.

(* ================================================================== *)
(** * The replacement events of [runAnalysis] *)
(* ================================================================== *)

Section ComponentSchedule.
Import Js.
Local Open Scope Q_scope.
Variable data : Maintenance.ScenarioData.

Lemma scheduleLoop_events ypr cost rs e :
  In e (Maintenance.scheduleLoop data ypr cost rs) ->
  In (fst (fst e)) rs
  /\ snd (fst e) = Math_ceil (ypr * inject_Z (fst (fst e)))
  /\ inject_Z (snd (fst e)) <= Maintenance.analysisPeriod data.
Proof.
  induction rs as [|r rs IH]; simpl; [contradiction|].
  destruct (ltb _ _) eqn:E; [contradiction|].
  apply ltb_false_iff in E.
  intros [<- | Hin]; simpl.
  - auto.
  - destruct (IH Hin) as [H1 H2]. auto.
Qed.

Lemma scheduleLoop_prefix ypr cost rs :
  map (fun e => fst (fst e)) (Maintenance.scheduleLoop data ypr cost rs)
  = firstn (List.length (Maintenance.scheduleLoop data ypr cost rs)) rs.
Proof.
  induction rs as [|r rs IH]; simpl; [reflexivity|].
  destruct (ltb _ _); simpl; [reflexivity|].
  now rewrite IH.
Qed.

Lemma scheduleLoop_length ypr cost rs :
  (List.length (Maintenance.scheduleLoop data ypr cost rs)
   <= List.length rs)%nat.
Proof.
  induction rs as [|r rs IH]; simpl; [lia|].
  destruct (ltb _ _); simpl; lia.
Qed.

Lemma firstn_seq_prefix (k a m : nat) :
  (k <= m)%nat -> firstn k (seq a m) = seq a k.
Proof.
  revert a m. induction k as [|k IH]; intros a m Hk; [reflexivity|].
  destruct m as [|m]; [lia|]. simpl. f_equal. apply IH. lia.
Qed.

Lemma firstn_upto (k : nat) (n : Z) :
  (k <= Z.to_nat n)%nat -> firstn k (upto n) = upto (Z.of_nat k).
Proof.
  intros Hk. unfold upto. rewrite firstn_map, firstn_seq_prefix by exact Hk.
  now rewrite Nat2Z.id.
Qed.

Lemma In_componentReplacements comp :
  In comp (Maintenance.componentReplacements data) ->
  exists lc u,
    comp = Maintenance.componentReplacement data lc u
    /\ 0 < Maintenance.unitHours u
    /\ 0 < Maintenance.expected_life_hours lc.
Proof.
  unfold Maintenance.componentReplacements. rewrite in_flat_map.
  intros [lc [_ Hin]]. apply in_map_iff in Hin.
  destruct Hin as [u [<- Hu]]. exists lc, u. split; [reflexivity|].
  unfold Maintenance.replacingUnits in Hu. apply filter_In in Hu.
  destruct Hu as [_ Hf].
  apply andb_prop in Hf. destruct Hf as [Hf _].
  apply andb_prop in Hf. destruct Hf as [_ Hf].
  apply negb_true_iff, orb_false_elim in Hf. destruct Hf as [H1 H2].
  now split; apply leb_false_iff.
Qed.

(** X8: every entry of the component replacement schedule numbers its
    events 1, 2, ... without a gap, reports their count as
    [replacements_over_period], and places each event in a year from 1
    to the analysis period. *)
Theorem component_events_fall_within_the_period comp :
  In comp (Maintenance.componentReplacements data) ->
  map Maintenance.replacement_number (Maintenance.schedule comp)
  = upto (Maintenance.replacements_over_period comp)
  /\ Maintenance.replacements_over_period comp
     = Z.of_nat (List.length (Maintenance.schedule comp))
  /\ Forall
       (fun s =>
          (1 <= Maintenance.si_year s)%Z
          /\ inject_Z (Maintenance.si_year s)
             <= Maintenance.analysis_period_years
                  (Maintenance.scenario data))
       (Maintenance.schedule comp).
Proof.
  intros Hin. destruct (In_componentReplacements comp Hin)
    as [lc [u [-> [Hh Hl]]]].
  unfold Maintenance.componentReplacement. simpl.
  unfold Maintenance.scheduleEvents.
  set (ypr := Maintenance.yearsPerReplacement lc u).
  set (cost := Maintenance.costPerReplacement data lc).
  set (n := Maintenance.replacementsOverPeriod data lc u).
  assert (Hypr : 0 < ypr).
  { unfold ypr, Maintenance.yearsPerReplacement.
    apply Qlt_shift_div_l; [exact Hh | lra]. }
  split; [|split].
  - rewrite map_map.
    rewrite (map_ext _ (fun e => fst (fst e)))
      by (now intros [[r y] c]).
    rewrite scheduleLoop_prefix, length_map.
    apply firstn_upto.
    rewrite <- (length_upto n). apply scheduleLoop_length.
  - reflexivity.
  - apply Forall_forall.
    intros s Hs. apply in_map_iff in Hs. destruct Hs as [e [<- He]].
    destruct (scheduleLoop_events _ _ _ _ He) as [Hr [Hy Hle]].
    destruct e as [[r y] c]. simpl in *. split; [|exact Hle].
    apply In_upto in Hr. subst y.
    assert (H0 : 0 < ypr * inject_Z r).
    { apply Qmult_lt_0_compat; [exact Hypr|].
      rewrite <- (Zlt_Qlt 0). lia. }
    pose proof (Qle_ceiling (ypr * inject_Z r)) as Hc.
    assert (H1 : 0 < inject_Z (Math_ceil (ypr * inject_Z r))).
    { eapply Qlt_le_trans; [exact H0 | exact Hc]. }
    rewrite <- (Zlt_Qlt 0) in H1. lia.
Qed.
End ComponentSchedule.

Section ComponentScheduleExample.
Import Js.
Local Open Scope Q_scope.

Lemma component_events_fall_within_the_period_witness :
  let comp := Maintenance.componentReplacement
                Examples.continuousData Examples.turbocharger
                (Examples.unitWith 1 8760 0.75) in
  map Maintenance.replacement_number (Maintenance.schedule comp)
  = upto (Maintenance.replacements_over_period comp)
  /\ Maintenance.replacements_over_period comp
     = Z.of_nat (List.length (Maintenance.schedule comp))
  /\ Forall
       (fun s =>
          (1 <= Maintenance.si_year s)%Z
          /\ inject_Z (Maintenance.si_year s)
             <= Maintenance.analysis_period_years
                  (Maintenance.scenario Examples.continuousData))
       (Maintenance.schedule comp).
Proof.
  apply (component_events_fall_within_the_period Examples.continuousData).
  left. reflexivity.
Defined.
End ComponentScheduleExample.

Section ComponentTotal.
Import Js.
Local Open Scope Q_scope.

Lemma scheduleEvents_by_hours (d1 d2 : Maintenance.ScenarioData) lc u1 u2 :
  Maintenance.scenario d1 = Maintenance.scenario d2 ->
  Maintenance.priceMap d1 = Maintenance.priceMap d2 ->
  Maintenance.unitHours u1 = Maintenance.unitHours u2 ->
  Maintenance.scheduleEvents d1 lc u1 = Maintenance.scheduleEvents d2 lc u2.
Proof.
  intros Hs Hp Hh.
  unfold Maintenance.scheduleEvents, Maintenance.replacementsOverPeriod,
    Maintenance.yearsPerReplacement, Maintenance.costPerReplacement,
    Maintenance.partsDiscount, Maintenance.analysisPeriod.
  rewrite Hs, Hp, Hh.
  generalize (upto (Math_floor
                      (Maintenance.analysis_period_years
                         (Maintenance.scenario d2)
                       / (Maintenance.expected_life_hours lc
                          / Maintenance.unitHours u2)))).
  intros rs. induction rs as [|r rs IH]; simpl; [reflexivity|].
  unfold Maintenance.analysisPeriod, Maintenance.inflationRate.
  rewrite Hs. destruct (ltb _ _); [reflexivity|]. f_equal. exact IH.
Qed.

Lemma replacing_units_by_hours (d1 d2 : Maintenance.ScenarioData) lc
    (us1 us2 : list Maintenance.FleetUnit) :
  Maintenance.scenario d1 = Maintenance.scenario d2 ->
  Maintenance.priceMap d1 = Maintenance.priceMap d2 ->
  Forall2 (fun u1 u2 =>
             Maintenance.equipment_model_id u1
             = Maintenance.equipment_model_id u2
             /\ Maintenance.unitHours u1 = Maintenance.unitHours u2)
          us1 us2 ->
  forall acc,
    fold_left
      (fun acc' u =>
         fold_left (fun a e => a + snd e)
                   (Maintenance.scheduleEvents d1 lc u) acc')
      (filter (fun u =>
                 Z.eqb (Maintenance.equipment_model_id u)
                       (Maintenance.lc_equipment_model_id lc)
                 && negb (leb (Maintenance.unitHours u) 0
                          || leb (Maintenance.expected_life_hours lc) 0)
                 && negb (Z.leb (Maintenance.replacementsOverPeriod d1 lc u)
                                0))%bool us1) acc
    = fold_left
        (fun acc' u =>
           fold_left (fun a e => a + snd e)
                     (Maintenance.scheduleEvents d2 lc u) acc')
        (filter (fun u =>
                   Z.eqb (Maintenance.equipment_model_id u)
                         (Maintenance.lc_equipment_model_id lc)
                   && negb (leb (Maintenance.unitHours u) 0
                            || leb (Maintenance.expected_life_hours lc) 0)
                   && negb (Z.leb
                              (Maintenance.replacementsOverPeriod d2 lc u)
                              0))%bool us2) acc.
Proof.
  intros Hs Hp Hunits.
  induction Hunits as [|u1 u2 us1 us2 [Hid Hh] _ IH]; intros acc;
    [reflexivity|].
  cbn [filter].
  assert (Er : Maintenance.replacementsOverPeriod d1 lc u1
               = Maintenance.replacementsOverPeriod d2 lc u2).
  { unfold Maintenance.replacementsOverPeriod,
      Maintenance.yearsPerReplacement, Maintenance.analysisPeriod.
    now rewrite Hs, Hh. }
  rewrite Er, Hid, Hh.
  match goal with
  | |- context [if ?c then u1 :: _ else _] => destruct c
  end; cbn [fold_left].
  - rewrite (scheduleEvents_by_hours d1 d2 lc u1 u2 Hs Hp Hh). apply IH.
  - apply IH.
Qed.

(** X9: [total_cost_over_period] of the component summary depends on the
    fleet rows only through their model and their annual hours: it
    counts the replacements of one unit per fleet row, whatever the
    quantity of the row. *)
Theorem component_total_ignores_the_quantities
    (data : Maintenance.ScenarioData) (units : list Maintenance.FleetUnit)
    (now : string) :
  Forall2 (fun u u' =>
             Maintenance.equipment_model_id u
             = Maintenance.equipment_model_id u'
             /\ Maintenance.unitHours u = Maintenance.unitHours u')
          (Maintenance.fleetUnits data) units ->
  let data' := {| Maintenance.scenario := Maintenance.scenario data;
                  Maintenance.fleetUnits := units;
                  Maintenance.pmTasks := Maintenance.pmTasks data;
                  Maintenance.priceMap := Maintenance.priceMap data;
                  Maintenance.componentLifecycles :=
                    Maintenance.componentLifecycles data |} in
  Maintenance.total_cost_over_period
    (Maintenance.component_replacements
       (Maintenance.runAnalysis data now))
  = Maintenance.total_cost_over_period
      (Maintenance.component_replacements
         (Maintenance.runAnalysis data' now)).
Proof.
  intros Hunits data'. unfold Maintenance.runAnalysis.
  cbn [Maintenance.component_replacements Maintenance.total_cost_over_period].
  f_equal. unfold Maintenance.totalComponentCostOverPeriod.
  change (Maintenance.componentLifecycles data')
    with (Maintenance.componentLifecycles data).
  generalize (0 : Q).
  induction (Maintenance.componentLifecycles data) as [|lc lcs IH];
    intros acc; [reflexivity|].
  cbn [fold_left]. rewrite IH. f_equal.
  exact (replacing_units_by_hours data data' lc _ _ eq_refl eq_refl
                                  Hunits acc).
Qed.

Lemma component_total_ignores_the_quantities_witness :
  let data' := {| Maintenance.scenario :=
                    Maintenance.scenario Examples.continuousData;
                  Maintenance.fleetUnits := [Examples.unitWith 25 8760 0.5];
                  Maintenance.pmTasks :=
                    Maintenance.pmTasks Examples.continuousData;
                  Maintenance.priceMap :=
                    Maintenance.priceMap Examples.continuousData;
                  Maintenance.componentLifecycles :=
                    Maintenance.componentLifecycles
                      Examples.continuousData |} in
  Maintenance.total_cost_over_period
    (Maintenance.component_replacements
       (Maintenance.runAnalysis Examples.continuousData Examples.clockA))
  = Maintenance.total_cost_over_period
      (Maintenance.component_replacements
         (Maintenance.runAnalysis data' Examples.clockA)).
Proof.
  apply (component_total_ignores_the_quantities
           Examples.continuousData [Examples.unitWith 25 8760 0.5]
           Examples.clockA).
  repeat constructor.
Defined.
End ComponentTotal.

(* ================================================================== *)
(** * Downtime and discounting in [runAnalysis] *)
(* ================================================================== *)

Section Downtime.
Import Js.
Local Open Scope Q_scope.

(** X10: when the schedule has tasks and the services of the breakdown do
    not add up to zero, the annual downtime cost is one and a half hours
    of downtime for every annual labor hour, at the downtime rate: the
    number of services cancels out. *)
Theorem downtime_is_one_and_a_half_times_the_labor
    (data : Maintenance.ScenarioData) :
  Maintenance.include_downtime_costs (Maintenance.scenario data) = true ->
  Maintenance.pmTasks data <> [] ->
  ~ Maintenance.totalServicesPerYear data == 0 ->
  Maintenance.annualDowntimeCost data
  == Maintenance.totalAnnualLaborHours data * 1.5
     * Maintenance.downtime_cost_per_hour (Maintenance.scenario data).
Proof.
  intros Hflag Htasks Hs.
  unfold Maintenance.annualDowntimeCost, Maintenance.avgDowntimePerService.
  rewrite Hflag. destruct (Maintenance.pmTasks data); [contradiction|].
  field. exact Hs.
Qed.

Lemma downtime_is_one_and_a_half_times_the_labor_witness :
  Maintenance.annualDowntimeCost (Examples.recurringData 500)
  == Maintenance.totalAnnualLaborHours (Examples.recurringData 500) * 1.5
     * 500.
Proof.
  apply (downtime_is_one_and_a_half_times_the_labor
           (Examples.recurringData 500)).
  - reflexivity.
  - discriminate.
  - vm_compute. discriminate.
Defined.
End Downtime.

Section Discounting.
Import Js.
Local Open Scope Q_scope.

Lemma fold_left_add_ext {A} (f g : A -> Q) l :
  (forall x, In x l -> f x == g x) ->
  fold_left (fun acc x => acc + f x) l 0
  == fold_left (fun acc x => acc + g x) l 0.
Proof.
  intros H. apply Qle_antisym; apply fold_left_add_le;
    intros x Hx; rewrite (H x Hx); apply Qle_refl.
Qed.

(** X11: discounting never raises the total: when the discount rate is
    not negative and no year of the projection has a negative total
    cost, the NPV total is at most the nominal total; at a discount rate
    of zero the two are equal. *)
Theorem npv_is_at_most_the_nominal_total
    (data : Maintenance.ScenarioData) (now : string) :
  0 <= Maintenance.discount_rate_pct (Maintenance.scenario data) ->
  Forall (fun year => 0 <= Maintenance.yearTotalCost data year)
         (upto (Math_floor (Maintenance.analysis_period_years
                              (Maintenance.scenario data)))) ->
  let tco := Maintenance.res_tco (Maintenance.runAnalysis data now) in
  Maintenance.total_npv tco <= Maintenance.total_nominal tco
  /\ (Maintenance.discount_rate_pct (Maintenance.scenario data) == 0 ->
      Maintenance.total_npv tco == Maintenance.total_nominal tco).
Proof.
  intros Hd Hcost. simpl. unfold Maintenance.projection.
  unfold Maintenance.analysisPeriod.
  set (years := upto _) in *.
  set (st0 := {| Maintenance.cumulativeCost := 0;
                 Maintenance.npvTotal := 0;
                 Maintenance.annualProjections := [] |}).
  destruct (projection_sums data years st0) as [Hc Hn].
  simpl in Hc, Hn. rewrite Qplus_0_l in Hc, Hn.
  assert (Hrate : 0 <= Maintenance.discountRate data).
  { unfold Maintenance.discountRate. apply Qle_shift_div_l; lra. }
  rewrite Forall_forall in Hcost.
  split.
  - apply round2_monotone. rewrite Hc, Hn.
    apply fold_left_add_le. intros y Hy.
    specialize (Hcost y Hy). apply In_upto in Hy.
    unfold Maintenance.yearNpv, Maintenance.discountMultiplier, Math_pow.
    assert (H1 : 1 <= (1 + Maintenance.discountRate data) ^ y).
    { apply Qpower_1_le; [lra | lia]. }
    apply Qle_shift_div_r; [lra|].
    rewrite <- (Qmult_1_r (Maintenance.yearTotalCost data y)) at 1.
    rewrite !(Qmult_comm (Maintenance.yearTotalCost data y)).
    apply Qmult_le_compat_r; assumption.
  - intros H0. apply round2_comp. rewrite Hc, Hn.
    apply fold_left_add_ext. intros y _.
    unfold Maintenance.yearNpv, Maintenance.discountMultiplier, Math_pow,
      Maintenance.discountRate.
    assert (E : 1 + Maintenance.discount_rate_pct
                       (Maintenance.scenario data) / 100 == 1)
      by (rewrite H0; reflexivity).
    rewrite E, Qpower_1. field.
Qed.

Lemma npv_is_at_most_the_nominal_total_witness :
  let tco := Maintenance.res_tco
               (Maintenance.runAnalysis Examples.twoYearData
                                        Examples.clockA) in
  Maintenance.total_npv tco <= Maintenance.total_nominal tco
  /\ (Maintenance.discount_rate_pct
        (Maintenance.scenario Examples.twoYearData) == 0 ->
      Maintenance.total_npv tco == Maintenance.total_nominal tco).
Proof.
  apply (npv_is_at_most_the_nominal_total
           Examples.twoYearData Examples.clockA).
  - discriminate.
  - repeat constructor; vm_compute; discriminate.
Defined.
End Discounting.

(* ================================================================== *)
(** * The comparison of scenarios and the route handlers *)
(* ================================================================== *)

Section LowestTco.
Import Js.
Local Open Scope Q_scope.


Lemma In_insertByNpv x l y :
  In y (Maintenance.insertByNpv x l) <-> y = x \/ In y l.
Proof.
  induction l as [|z l IH]; simpl.
  - intuition.
  - destruct (ltb _ _); simpl; [intuition|].
    rewrite IH. intuition.
Qed.

Lemma insertByNpv_sorted x l :
  StronglySorted Maintenance.npv_le l ->
  StronglySorted Maintenance.npv_le (Maintenance.insertByNpv x l).
Proof.
  induction l as [|z l IH]; intros Hs; simpl.
  - constructor; [constructor | constructor].
  - inversion Hs as [|? ? Hl Hz]; subst.
    destruct (ltb _ _) eqn:E.
    + apply ltb_true_iff in E.
      constructor; [exact Hs|].
      constructor; [unfold Maintenance.npv_le; lra|].
      rewrite Forall_forall in *. intros w Hw. specialize (Hz w Hw).
      unfold Maintenance.npv_le in *. lra.
    + apply ltb_false_iff in E.
      constructor; [now apply IH|].
      rewrite Forall_forall in *. intros w Hw.
      apply In_insertByNpv in Hw.
      destruct Hw as [-> | Hw]; [unfold Maintenance.npv_le; lra|].
      now apply Hz.
Qed.

Lemma sortByNpv_spec l :
  StronglySorted Maintenance.npv_le (Maintenance.sortByNpv l)
  /\ forall y, In y (Maintenance.sortByNpv l) <-> In y l.
Proof.
  unfold Maintenance.sortByNpv.
  assert (H : forall acc,
             StronglySorted Maintenance.npv_le acc ->
             StronglySorted
               Maintenance.npv_le
               (fold_left (fun acc x => Maintenance.insertByNpv x acc) l acc)
             /\ forall y,
                  In y (fold_left
                          (fun acc x => Maintenance.insertByNpv x acc) l acc)
                  <-> In y l \/ In y acc).
  { induction l as [|x l IH]; intros acc Hacc; simpl.
    - split; [exact Hacc | intuition].
    - destruct (IH _ (insertByNpv_sorted x acc Hacc)) as [Hs Hin].
      split; [exact Hs|]. intros y. rewrite Hin, In_insertByNpv.
      intuition. }
  destruct (H [] (SSorted_nil _)) as [Hs Hin].
  split; [exact Hs|]. intros y. rewrite Hin. simpl. intuition.
Qed.

Lemma lastRow_spec l z :
  Maintenance.lastRow l = Some z ->
  In z l
  /\ (StronglySorted Maintenance.npv_le l ->
      forall y, In y l -> Maintenance.tco_npv y <= Maintenance.tco_npv z).
Proof.
  induction l as [|x l IH]; [discriminate|].
  destruct l as [|x' l].
  - intros [= ->]. split; [now left|].
    intros _ y [-> | []]. apply Qle_refl.
  - intros H. change (Maintenance.lastRow (x' :: l) = Some z) in H.
    destruct (IH H) as [Hin Hmax]. split; [now right|].
    intros Hs y Hy. inversion Hs as [|? ? Hl Hx]; subst.
    destruct Hy as [-> | Hy]; [|now apply Hmax].
    rewrite Forall_forall in Hx. now apply Hx.
Qed.

Lemma lastRow_nonempty x l : Maintenance.lastRow (x :: l) <> None.
Proof.
  revert x. induction l as [|y l IH]; intros x; [discriminate|].
  change (Maintenance.lastRow (y :: l) <> None). apply IH.
Qed.

Lemma lowestTco_present rows :
  Maintenance.lowestTco rows <> None <-> (2 <= List.length rows)%nat.
Proof.
  unfold Maintenance.lowestTco.
  destruct (2 <=? List.length rows)%nat eqn:E.
  - apply Nat.leb_le in E. split; [auto|]. intros _.
    destruct (sortByNpv_spec rows) as [_ Hin].
    destruct (Maintenance.sortByNpv rows) as [|first rest] eqn:Es.
    + destruct rows as [|x rows]; [simpl in E; lia|].
      exfalso. apply (proj2 (Hin x)). now left.
    + destruct (Maintenance.lastRow (first :: rest)) eqn:El;
        [discriminate | now apply lastRow_nonempty in El].
  - apply Nat.leb_gt in E. split; [intros H; now contradiction H | lia].
Qed.

(** X12: whenever at least two scenarios were analysed, the comparison
    names as [lowest_tco] one of them whose NPV no other scenario
    undercuts, and reports as savings the rounded difference to an NPV
    that no other scenario exceeds; the savings are never negative. *)
Theorem lowest_tco_is_the_cheapest_scenario
    (results : list Maintenance.AnalysisResult)
    (errs : list Maintenance.CompareError) :
  (2 <= List.length results)%nat ->
  exists best lo hi,
    Maintenance.lowest_tco (Maintenance.buildComparison results errs)
    = Some best
    /\ In lo results /\ In hi results
    /\ Maintenance.lt_scenario_id best = Maintenance.scenario_id lo
    /\ Maintenance.lt_scenario_name best = Maintenance.scenario_name lo
    /\ Maintenance.lt_tco_npv best
       = Maintenance.total_npv (Maintenance.res_tco lo)
    /\ Maintenance.savings_vs_highest best
       = Maintenance.round2
           (Maintenance.total_npv (Maintenance.res_tco hi)
            - Maintenance.total_npv (Maintenance.res_tco lo))
    /\ (forall r, In r results ->
          Maintenance.total_npv (Maintenance.res_tco lo)
          <= Maintenance.total_npv (Maintenance.res_tco r)
          /\ Maintenance.total_npv (Maintenance.res_tco r)
             <= Maintenance.total_npv (Maintenance.res_tco hi))
    /\ 0 <= Maintenance.savings_vs_highest best.
Proof.
  intros Hlen. simpl. unfold Maintenance.lowestTco.
  rewrite length_map. rewrite (proj2 (Nat.leb_le _ _) Hlen).
  set (rows := map Maintenance.comparisonRow results).
  destruct (sortByNpv_spec rows) as [Hs Hin].
  destruct (Maintenance.sortByNpv rows) as [|first rest] eqn:Esorted.
  { destruct results as [|r results]; [simpl in Hlen; lia|].
    exfalso. apply (proj2 (Hin (Maintenance.comparisonRow r))).
    now left. }
  destruct (Maintenance.lastRow (first :: rest)) as [highest|] eqn:Elast;
    [|now apply lastRow_nonempty in Elast].
  destruct (lastRow_spec _ _ Elast) as [Hhi Hmax].
  specialize (Hmax Hs).
  assert (Hfirst : In first rows) by (apply Hin; now left).
  apply Hin in Hhi.
  apply in_map_iff in Hfirst. destruct Hfirst as [lo [<- Hlo]].
  apply in_map_iff in Hhi. destruct Hhi as [hi [<- Hhi]].
  assert (Hmin : forall r, In r results ->
                   Maintenance.total_npv (Maintenance.res_tco lo)
                   <= Maintenance.total_npv (Maintenance.res_tco r)).
  { intros r Hr.
    assert (Hrow : In (Maintenance.comparisonRow r)
                      (Maintenance.comparisonRow lo :: rest)).
    { apply Hin. now apply in_map. }
    inversion Hs as [|? ? _ Hall]; subst.
    destruct Hrow as [E | Hrow].
    - apply (f_equal Maintenance.tco_npv) in E. simpl in E.
      rewrite E. apply Qle_refl.
    - rewrite Forall_forall in Hall. apply (Hall _ Hrow). }
  assert (Hmax' : forall r, In r results ->
                    Maintenance.total_npv (Maintenance.res_tco r)
                    <= Maintenance.total_npv (Maintenance.res_tco hi)).
  { intros r Hr.
    apply (Hmax (Maintenance.comparisonRow r)). apply Hin.
    now apply in_map. }
  eexists _, lo, hi. split; [reflexivity|].
  repeat split; simpl; auto.
  apply Qle_trans with (Maintenance.round2 0); [discriminate|].
  apply round2_monotone. specialize (Hmin hi Hhi). lra.
Qed.

Lemma lowest_tco_is_the_cheapest_scenario_witness :
  let results := [ Examples.resultWithNpv 1 "OEM baseline" 100;
                   Examples.resultWithNpv 2 "Extended intervals" 80;
                   Examples.resultWithNpv 3 "Condition based" 90 ] in
  exists best lo hi,
    Maintenance.lowest_tco (Maintenance.buildComparison results [])
    = Some best
    /\ In lo results /\ In hi results
    /\ Maintenance.lt_scenario_id best = Maintenance.scenario_id lo
    /\ Maintenance.lt_scenario_name best = Maintenance.scenario_name lo
    /\ Maintenance.lt_tco_npv best
       = Maintenance.total_npv (Maintenance.res_tco lo)
    /\ Maintenance.savings_vs_highest best
       = Maintenance.round2
           (Maintenance.total_npv (Maintenance.res_tco hi)
            - Maintenance.total_npv (Maintenance.res_tco lo))
    /\ (forall r, In r results ->
          Maintenance.total_npv (Maintenance.res_tco lo)
          <= Maintenance.total_npv (Maintenance.res_tco r)
          /\ Maintenance.total_npv (Maintenance.res_tco r)
             <= Maintenance.total_npv (Maintenance.res_tco hi))
    /\ 0 <= Maintenance.savings_vs_highest best.
Proof.
  apply (lowest_tco_is_the_cheapest_scenario
           [ Examples.resultWithNpv 1 "OEM baseline" 100;
             Examples.resultWithNpv 2 "Extended intervals" 80;
             Examples.resultWithNpv 3 "Condition based" 90 ] []).
  simpl. lia.
Defined.
End LowestTco.

Section RouteHandlers.
Import Js.
Local Open Scope Q_scope.
Variable loadScenarioData : Z -> option Maintenance.ScenarioData.

Lemma compare_fold_accounts clock ids results errs :
  let st := fold_left (Maintenance.compareStep loadScenarioData clock) ids
                      (results, errs) in
  (List.length (fst st) + List.length (snd st)
   = List.length results + List.length errs + List.length ids)%nat
  /\ (forall e, In e (snd st) ->
        In e errs
        \/ (In (Maintenance.err_scenario_id e) ids
            /\ match loadScenarioData (Maintenance.err_scenario_id e) with
               | None => True
               | Some data => Maintenance.incompleteScenario data = true
               end)).
Proof.
  revert results errs. induction ids as [|id ids IH]; intros results errs.
  - simpl. split; [lia | auto].
  - simpl fold_left.
    destruct (Maintenance.compareStep loadScenarioData clock (results, errs) id)
      as [results' errs'] eqn:Estep.
    destruct (IH results' errs') as [Hlen Herr]. cbv zeta in *.
    unfold Maintenance.compareStep in Estep.
    destruct (loadScenarioData id) as [data|] eqn:Eload.
    + destruct (Maintenance.incompleteScenario data) eqn:Einc;
        injection Estep as <- <-.
      * split; [rewrite Hlen, length_app; simpl; lia|].
        intros e He. destruct (Herr e He) as [Hin | [Hin Hl]].
        -- apply in_app_or in Hin. destruct Hin as [Hin | [<- | []]];
             [now left|].
           right. simpl. split; [now left|]. now rewrite Eload.
        -- right. split; [now right | exact Hl].
      * split; [rewrite Hlen, length_app; simpl; lia|].
        intros e He. destruct (Herr e He) as [Hin | [Hin Hl]];
          [now left|].
        right. split; [now right | exact Hl].
    + injection Estep as <- <-.
      split; [rewrite Hlen, length_app; simpl; lia|].
      intros e He. destruct (Herr e He) as [Hin | [Hin Hl]].
      * apply in_app_or in Hin. destruct Hin as [Hin | [<- | []]];
          [now left|].
        right. simpl. split; [now left|]. now rewrite Eload.
      * right. split; [now right | exact Hl].
Qed.

(** X13: a comparison that is answered accounts for every requested
    scenario exactly once, as a result or as an error; an error is only
    reported for a scenario that does not exist or is incomplete; the
    summary rows are those of the results; and [lowest_tco] is present
    exactly when at least two scenarios could be analysed. *)
Theorem compare_accounts_for_every_scenario
    (clock : nat -> string) (ids : list Z) (cmp : Maintenance.Comparison) :
  Maintenance.compareHandler loadScenarioData clock (Some ids)
  = Maintenance.Json cmp ->
  let errs := match Maintenance.errors cmp with
              | Some errs => errs
              | None => []
              end in
  (2 <= List.length ids)%nat
  /\ (List.length (Maintenance.full_results cmp) + List.length errs
      = List.length ids)%nat
  /\ (1 <= List.length (Maintenance.full_results cmp))%nat
  /\ Maintenance.scenarios cmp
     = map Maintenance.comparisonRow (Maintenance.full_results cmp)
  /\ (forall e, In e errs ->
        In (Maintenance.err_scenario_id e) ids
        /\ match loadScenarioData (Maintenance.err_scenario_id e) with
           | None => True
           | Some data => Maintenance.incompleteScenario data = true
           end)
  /\ (Maintenance.lowest_tco cmp <> None
      <-> (2 <= List.length (Maintenance.full_results cmp))%nat).
Proof.
  unfold Maintenance.compareHandler.
  destruct (List.length ids <? 2)%nat eqn:Elen; [discriminate|].
  apply Nat.ltb_ge in Elen.
  pose proof (compare_fold_accounts clock ids [] []) as H.
  destruct (fold_left _ ids ([], [])) as [results errs].
  cbv zeta in H. simpl in H. destruct H as [Hlen Herr].
  destruct results as [|r results]; [discriminate|].
  intros [= <-]. simpl.
  assert (Eerrs : match match errs with
                        | [] => None
                        | _ :: _ => Some errs
                        end with
                  | Some errs0 => errs0
                  | None => []
                  end = errs) by (now destruct errs).
  rewrite Eerrs.
  split; [exact Elen|]. split; [exact Hlen|]. split; [lia|].
  split; [reflexivity|]. split.
  - intros e He. destruct (Herr e He) as [[] | H]. exact H.
  - rewrite lowestTco_present. simpl. rewrite length_map. reflexivity.
Qed.

Lemma calculateHandler_clock clock clock' scenario_id :
  clock 0%nat = clock' 0%nat ->
  Maintenance.calculateHandler loadScenarioData clock scenario_id
  = Maintenance.calculateHandler loadScenarioData clock' scenario_id.
Proof.
  intros E. unfold Maintenance.calculateHandler. now rewrite E.
Qed.

Lemma calculateHandler_accepts clock id r :
  Maintenance.calculateHandler loadScenarioData clock (Some id)
  = Maintenance.Json r ->
  exists data,
    loadScenarioData id = Some data
    /\ Maintenance.incompleteScenario data = false
    /\ r = Maintenance.runAnalysis data (clock 0%nat).
Proof.
  unfold Maintenance.calculateHandler, Maintenance.incompleteScenario.
  destruct (negb (Maintenance.truthy_id (Some id))); [discriminate|].
  destruct (loadScenarioData id) as [data|]; [|discriminate].
  destruct (negb (Maintenance.truthy_id (Maintenance.fleet_id _))) eqn:E1;
    [discriminate|].
  destruct (negb (Maintenance.truthy_id (Maintenance.pm_schedule_id _)))
    eqn:E2; [discriminate|].
  destruct (List.length (Maintenance.fleetUnits data) =? 0)%nat eqn:E3;
    [discriminate|].
  intros [= <-]. exists data. split; [reflexivity|].
  now rewrite E1, E2, E3.
Qed.

Lemma compare_fold_runs clock ids rs results errs :
  List.length rs = List.length ids ->
  (forall k id r,
     nth_error ids k = Some id -> nth_error rs k = Some r ->
     Maintenance.calculateHandler
       loadScenarioData (fun j => clock (List.length results + k + j)%nat)
       (Some id)
     = Maintenance.Json r) ->
  fold_left (Maintenance.compareStep loadScenarioData clock) ids
            (results, errs)
  = (results ++ rs, errs).
Proof.
  revert rs results. induction ids as [|id ids IH]; intros rs results Hlen H.
  - destruct rs; [|discriminate]. simpl. now rewrite app_nil_r.
  - destruct rs as [|r rs]; [discriminate|]. simpl in Hlen.
    injection Hlen as Hlen.
    pose proof (H 0%nat id r eq_refl eq_refl) as H0.
    apply calculateHandler_accepts in H0.
    destruct H0 as [data [Eload [Einc ->]]].
    cbn [fold_left].
    assert (Estep : Maintenance.compareStep loadScenarioData clock
                      (results, errs) id
                    = (results
                       ++ [Maintenance.runAnalysis
                             data (clock (List.length results))], errs)).
    { unfold Maintenance.compareStep. now rewrite Eload, Einc. }
    rewrite Estep.
    replace (List.length results + 0 + 0)%nat with (List.length results)
      by lia.
    rewrite (IH rs _ Hlen).
    + now rewrite <- app_assoc.
    + intros k id' r' Hid Hr.
      rewrite <- (H (S k) id' r' Hid Hr).
      apply calculateHandler_clock. rewrite length_app. simpl.
      f_equal. lia.
Qed.

(** X14: when [POST /calculate] would answer each of the requested
    scenarios with an analysis, [POST /compare] answers with the
    comparison built from exactly these analyses, in the order of the
    request and without errors. *)
Theorem compare_runs_the_analysis_of_calculate
    (clock : nat -> string) (ids : list Z)
    (rs : list Maintenance.AnalysisResult) :
  (2 <= List.length ids)%nat ->
  List.length rs = List.length ids ->
  (forall k id r,
     nth_error ids k = Some id -> nth_error rs k = Some r ->
     Maintenance.calculateHandler
       loadScenarioData (fun j => clock (k + j)%nat) (Some id)
     = Maintenance.Json r) ->
  Maintenance.compareHandler loadScenarioData clock (Some ids)
  = Maintenance.Json (Maintenance.buildComparison rs []).
Proof.
  intros Hids Hlen H. unfold Maintenance.compareHandler.
  rewrite (proj2 (Nat.ltb_ge _ _) Hids).
  rewrite (compare_fold_runs clock ids rs [] [] Hlen H). simpl.
  destruct rs as [|r rs]; [simpl in Hlen; lia | reflexivity].
Qed.
End RouteHandlers.

Section RouteHandlersExample.
Import Js.
Local Open Scope Q_scope.

Lemma compare_accounts_for_every_scenario_witness :
  let cmp := Maintenance.buildComparison
               [ Maintenance.runAnalysis Examples.twoYearData
                                         (Examples.requestClock 0);
                 Maintenance.runAnalysis Examples.continuousData
                                         (Examples.requestClock 1) ]
               [ {| Maintenance.err_scenario_id := 3;
                    Maintenance.err_message :=
                      "Scenario is incomplete (missing fleet, PM schedule, or fleet has no units)" |};
                 {| Maintenance.err_scenario_id := 7;
                    Maintenance.err_message := "Scenario not found" |} ] in
  let ids := [1; 3; 7; 2]%Z in
  let errs := match Maintenance.errors cmp with
              | Some errs => errs
              | None => []
              end in
  (2 <= List.length ids)%nat
  /\ (List.length (Maintenance.full_results cmp) + List.length errs
      = List.length ids)%nat
  /\ (1 <= List.length (Maintenance.full_results cmp))%nat
  /\ Maintenance.scenarios cmp
     = map Maintenance.comparisonRow (Maintenance.full_results cmp)
  /\ (forall e, In e errs ->
        In (Maintenance.err_scenario_id e) ids
        /\ match Examples.scenarioTable (Maintenance.err_scenario_id e) with
           | None => True
           | Some data => Maintenance.incompleteScenario data = true
           end)
  /\ (Maintenance.lowest_tco cmp <> None
      <-> (2 <= List.length (Maintenance.full_results cmp))%nat).
Proof.
  apply (compare_accounts_for_every_scenario
           Examples.scenarioTable Examples.requestClock [1; 3; 7; 2]%Z).
  reflexivity.
Defined.

Lemma compare_runs_the_analysis_of_calculate_witness :
  Maintenance.compareHandler Examples.scenarioTable Examples.requestClock
                             (Some [1; 2]%Z)
  = Maintenance.Json
      (Maintenance.buildComparison
         [ Maintenance.runAnalysis Examples.twoYearData Examples.clockA;
           Maintenance.runAnalysis Examples.continuousData Examples.clockB ]
         []).
Proof.
  apply (compare_runs_the_analysis_of_calculate
           Examples.scenarioTable Examples.requestClock [1; 2]%Z
           [ Maintenance.runAnalysis Examples.twoYearData Examples.clockA;
             Maintenance.runAnalysis Examples.continuousData
                                     Examples.clockB ]).
  - simpl. lia.
  - reflexivity.
  - intros k id r Hid Hr. destruct k as [|[|k]]; simpl in Hid, Hr.
    + injection Hid as <-. injection Hr as <-. reflexivity.
    + injection Hid as <-. injection Hr as <-. reflexivity.
    + destruct k; discriminate.
Defined.
End RouteHandlersExample.

(* ================================================================== *)
(** * Tasks, ramp, schedule and projection of [calculateFullAnalysis] *)
(* ================================================================== *)

Section InactiveTasks.
Import Js.
Local Open Scope Q_scope.
Variable config : Calculator.Config.

Lemma fold_left_add_filter {A} (f : A -> Q) (keep : A -> bool) l :
  (forall x, In x l -> keep x = false -> f x == 0) ->
  fold_left (fun acc x => acc + f x) l 0
  == fold_left (fun acc x => acc + f x) (filter keep l) 0.
Proof.
  induction l as [|x l IH]; intros H; simpl; [reflexivity|].
  rewrite (fold_left_add_shift f l (0 + f x)).
  rewrite IH by (intros y Hy; apply H; now right).
  destruct (keep x) eqn:E; simpl.
  - rewrite (fold_left_add_shift f (filter keep l) (0 + f x)). reflexivity.
  - rewrite (H x (or_introl eq_refl) E). ring.
Qed.

(** X15: an automated or disabled task is listed with zero services,
    hours and costs, and the annual totals are the sums over the active
    tasks alone. *)
Theorem only_active_tasks_are_costed :
  let isActive task := match Calculator.taskStatus task with
                       | Calculator.active => true
                       | _ => false
                       end in
  (forall task,
     isActive task = false ->
     let row := Calculator.taskRow config task in
     Calculator.services_per_year row == 0
     /\ Calculator.labor_hours_per_year row == 0
     /\ Calculator.labor_cost_per_year row == 0
     /\ Calculator.parts_cost_per_year row == 0
     /\ Calculator.total_cost_per_year row == 0
     /\ Calculator.pct_of_workload row == 0)
  /\ Calculator.totalAnnualServices config
     == fold_left (fun acc t => acc + Calculator.servicesPerYear config t)
                  (filter isActive (Calculator.pm_tasks config)) 0
  /\ Calculator.totalAnnualLaborHours config
     == fold_left (fun acc t => acc + Calculator.laborHoursPerYear config t)
                  (filter isActive (Calculator.pm_tasks config)) 0
  /\ Calculator.totalAnnualLaborCost config
     == fold_left (fun acc t => acc + Calculator.laborCostPerYear config t)
                  (filter isActive (Calculator.pm_tasks config)) 0
  /\ Calculator.totalAnnualPartsCost config
     == fold_left (fun acc t => acc + Calculator.partsCostPerYear config t)
                  (filter isActive (Calculator.pm_tasks config)) 0.
Proof.
  intros isActive. split; [|repeat split].
  - intros task Hin. unfold isActive in Hin.
    unfold Calculator.taskRow, Calculator.servicesPerYear. simpl.
    assert (E : forall T, inject_Z (Math_round (0 / T * 1000)) / 10 == 0).
    { intros T. unfold Math_round.
      assert (E0 : 0 / T * 1000 + (1 # 2) == 1 # 2)
        by (unfold Qdiv; ring).
      rewrite E0. reflexivity. }
    destruct (Calculator.taskStatus task); try discriminate;
      (repeat split; try reflexivity;
       destruct (ltb 0 (Calculator.totalAnnualLaborHours config));
       [apply E | reflexivity]).
  - apply fold_left_add_filter. intros t _ Ht. unfold isActive in Ht.
    unfold Calculator.servicesPerYear.
    destruct (Calculator.taskStatus t); try discriminate; reflexivity.
  - apply fold_left_add_filter. intros t _ Ht. unfold isActive in Ht.
    unfold Calculator.laborHoursPerYear.
    destruct (Calculator.taskStatus t); try discriminate; reflexivity.
  - apply fold_left_add_filter. intros t _ Ht. unfold isActive in Ht.
    unfold Calculator.laborCostPerYear, Calculator.laborHoursPerYear.
    destruct (Calculator.taskStatus t); try discriminate; ring.
  - apply fold_left_add_filter. intros t _ Ht. unfold isActive in Ht.
    unfold Calculator.partsCostPerYear.
    destruct (Calculator.taskStatus t); try discriminate; reflexivity.
Qed.
End InactiveTasks.

Section RampShape.
Import Js.
Local Open Scope Q_scope.
Variable config : Calculator.Config.

Lemma Math_min_monotone q x y : x <= y -> Math_min q x <= Math_min q y.
Proof.
  intros H. unfold Math_min.
  destruct (Qle_bool q x) eqn:E1; destruct (Qle_bool q y) eqn:E2.
  - apply Qle_refl.
  - apply Qle_bool_iff in E1.
    assert (~ q <= y) by (rewrite <- Qle_bool_iff; now rewrite E2).
    lra.
  - assert (~ q <= x) by (rewrite <- Qle_bool_iff; now rewrite E1).
    lra.
  - exact H.
Qed.

Lemma Math_min_l q x : q <= x -> Math_min q x = q.
Proof.
  intros H. unfold Math_min. now rewrite (proj2 (Qle_bool_iff _ _) H).
Qed.

Lemma rampRate_is_rate u : Calculator.rampRate u = Calculator.rate u.
Proof. reflexivity. Qed.

Lemma maxCommissioning_upper (l : list Calculator.FleetUnit) (a : Z) u :
  In u l -> 0 < Calculator.rate u ->
  (Math_ceil (Calculator.qty u / Calculator.rate u)
   <= fold_left
        (fun acc u =>
           if ltb 0 (Calculator.rate u)
           then Z.max acc (Math_ceil (Calculator.qty u / Calculator.rate u))
           else acc) l a)%Z.
Proof.
  assert (Hmono : forall l a,
             (a <= fold_left
                     (fun acc u =>
                        if ltb 0 (Calculator.rate u)
                        then Z.max acc (Math_ceil (Calculator.qty u
                                                   / Calculator.rate u))
                        else acc) l a)%Z).
  { clear. induction l as [|v l IH]; intros a; simpl; [lia|].
    eapply Z.le_trans; [|apply IH].
    destruct (ltb 0 (Calculator.rate v)); lia. }
  revert a. induction l as [|v l IH]; intros a Hin Hr; [contradiction|].
  simpl. destruct Hin as [-> | Hin].
  - rewrite (proj2 (ltb_true_iff _ _) Hr).
    eapply Z.le_trans; [|apply Hmono]. lia.
  - now apply IH.
Qed.

(** X16: when no commissioning rate is negative, the staffing ramp never
    goes down: a later month has at least as many active units and, the
    inputs being non-negative, at least as many technicians. *)
Theorem staffing_ramp_never_decreases (m1 m2 : Z) :
  Calculator.nonNegativeInputs config ->
  (forall u, In u (Calculator.fleet_units config) ->
             0 <= Calculator.rate u) ->
  (m1 <= m2)%Z ->
  Calculator.units_active (Calculator.staffingRow config m1)
  <= Calculator.units_active (Calculator.staffingRow config m2)
  /\ (Calculator.technicians (Calculator.staffingRow config m1)
      <= Calculator.technicians (Calculator.staffingRow config m2))%Z.
Proof.
  intros Hwf Hrate Hm. simpl.
  assert (Hu : Calculator.unitsActive config m1
               <= Calculator.unitsActive config m2).
  { unfold Calculator.unitsActive. apply fold_left_add_le.
    intros u Hin. apply Math_min_monotone.
    rewrite rampRate_is_rate. specialize (Hrate u Hin).
    rewrite !(Qmult_comm (Calculator.rate u)).
    apply Qmult_le_compat_r; [|exact Hrate].
    now rewrite <- Zle_Qle. }
  split; [exact Hu|].
  unfold Calculator.proportionalTechs.
  destruct (ltb 0 (Calculator.totalUnits config)) eqn:Et; [|lia].
  apply ltb_true_iff in Et. apply Qceiling_resp_le.
  pose proof (techsRequired_nonneg config Hwf) as HT.
  rewrite (Zle_Qle 0) in HT. change (inject_Z 0) with 0 in HT.
  apply Qmult_le_compat_r; [|exact HT].
  unfold Qdiv. apply Qmult_le_compat_r; [exact Hu|].
  apply Qlt_le_weak, Qinv_lt_0_compat, Et.
Qed.

(** X17: when every unit has a positive commissioning rate, the ramp is
    complete from the month [maxCommissioningMonths] on: all units of
    the fleet are active and the technicians are the required head
    count. *)
Theorem staffing_ramp_completes (m : Z) :
  (forall u, In u (Calculator.fleet_units config) ->
             0 < Calculator.rate u) ->
  0 < Calculator.totalUnits config ->
  (Calculator.maxCommissioningMonths config <= m)%Z ->
  Calculator.units_active (Calculator.staffingRow config m)
  == Calculator.totalUnits config
  /\ Calculator.technicians (Calculator.staffingRow config m)
     = Calculator.techsRequired config.
Proof.
  intros Hrate Hunits Hm. simpl.
  assert (Hu : Calculator.unitsActive config m
               == Calculator.totalUnits config).
  { unfold Calculator.unitsActive, Calculator.totalUnits.
    apply fold_left_add_ext. intros u Hin.
    rewrite Math_min_l; [reflexivity|].
    rewrite rampRate_is_rate. specialize (Hrate u Hin).
    pose proof (maxCommissioning_upper
                  (Calculator.fleet_units config) 0 u Hin Hrate) as Hmax.
    fold (Calculator.maxCommissioningMonths config) in Hmax.
    pose proof (Qle_ceiling (Calculator.qty u / Calculator.rate u)) as Hc.
    assert (Hq : Calculator.qty u / Calculator.rate u <= inject_Z m).
    { eapply Qle_trans; [exact Hc|]. rewrite <- Zle_Qle.
      unfold Math_ceil in Hmax. lia. }
    assert (E : Calculator.qty u
                == Calculator.qty u / Calculator.rate u * Calculator.rate u)
      by (field; lra).
    rewrite E, (Qmult_comm (Calculator.rate u)).
    apply Qmult_le_compat_r; [exact Hq | lra]. }
  split; [exact Hu|].
  unfold Calculator.proportionalTechs.
  rewrite (proj2 (ltb_true_iff _ _) Hunits).
  unfold Math_ceil.
  assert (E : Calculator.unitsActive config m / Calculator.totalUnits config
              * inject_Z (Calculator.techsRequired config)
              == inject_Z (Calculator.techsRequired config)).
  { rewrite Hu. field. lra. }
  rewrite E. apply Qceiling_Z.
Qed.
End RampShape.

Section RampShapeExample.
Import Js.
Local Open Scope Q_scope.

Lemma staffing_ramp_never_decreases_witness :
  Calculator.units_active
    (Calculator.staffingRow (Examples.rampConfig 40) 3)
  <= Calculator.units_active
       (Calculator.staffingRow (Examples.rampConfig 40) 10)
  /\ (Calculator.technicians
        (Calculator.staffingRow (Examples.rampConfig 40) 3)
      <= Calculator.technicians
           (Calculator.staffingRow (Examples.rampConfig 40) 10))%Z.
Proof.
  apply (staffing_ramp_never_decreases (Examples.rampConfig 40) 3 10).
  - split; intros x [<- | []]; split; vm_compute; discriminate.
  - intros u [<- | []]. vm_compute. discriminate.
  - lia.
Defined.

Lemma staffing_ramp_completes_witness :
  Calculator.units_active
    (Calculator.staffingRow (Examples.rampConfig 31) 31)
  == Calculator.totalUnits (Examples.rampConfig 31)
  /\ Calculator.technicians
       (Calculator.staffingRow (Examples.rampConfig 31) 31)
     = Calculator.techsRequired (Examples.rampConfig 31).
Proof.
  apply (staffing_ramp_completes (Examples.rampConfig 31) 31).
  - intros u [<- | []]. reflexivity.
  - reflexivity.
  - vm_compute. discriminate.
Defined.
End RampShapeExample.

Section CalculatorSchedule.
Import Js.
Local Open Scope Q_scope.
Variable config : Calculator.Config.

Lemma filter_all {A} (f : A -> bool) l :
  (forall x, In x l -> f x = true) -> filter f l = l.
Proof.
  induction l as [|x l IH]; intros H; simpl; [reflexivity|].
  rewrite (H x (or_introl eq_refl)). f_equal. apply IH.
  intros y Hy. apply H. now right.
Qed.

End CalculatorSchedule.

Section CalculatorScheduleExample.
Import Js.
Local Open Scope Q_scope.

End CalculatorScheduleExample.

Section CalculatorProjection.
Import Js.
Local Open Scope Q_scope.
Variable config : Calculator.Config.

Lemma calculator_projection_years years st :
  map Calculator.yr_year
      (Calculator.yearlyProjection
         (fold_left (Calculator.projectionStep config) years st))
  = map Calculator.yr_year (Calculator.yearlyProjection st) ++ years.
Proof.
  revert st. induction years as [|y years IH]; intros st; simpl.
  - now rewrite app_nil_r.
  - rewrite IH. simpl. rewrite map_app. simpl.
    now rewrite <- app_assoc.
Qed.

Lemma calculator_projection_last_row years st :
  years <> [] ->
  exists init row,
    Calculator.yearlyProjection
      (fold_left (Calculator.projectionStep config) years st)
    = init ++ [row]
    /\ Calculator.cumulative row
       = Calculator.roundQ
           (Calculator.cumulativeCost
              (fold_left (Calculator.projectionStep config) years st))
    /\ Calculator.npv_cumulative row
       = Calculator.roundQ
           (Calculator.npv
              (fold_left (Calculator.projectionStep config) years st)).
Proof.
  revert st. induction years as [|y years IH]; intros st Hne;
    [contradiction|].
  destruct years as [|y' years].
  - simpl. eexists _, _. repeat split; reflexivity.
  - change (fold_left (Calculator.projectionStep config) (y :: y' :: years) st)
      with (fold_left (Calculator.projectionStep config) (y' :: years)
                      (Calculator.projectionStep config st y)).
    apply IH. discriminate.
Qed.

(** X19: the yearly projection of [calculateFullAnalysis] lists the
    years 1, 2, ... up to the analysis period in order, and the
    cumulative NPV of its last row is the [npv_total_cost] of the
    summary. *)
Theorem calculator_projection_ends_at_the_summary :
  1 <= Calculator.analysis_period_years config ->
  let result := Calculator.calculateFullAnalysis config in
  map Calculator.yr_year (Calculator.yearly_projection result)
  = upto (Math_floor (Calculator.analysis_period_years config))
  /\ exists init row,
       Calculator.yearly_projection result = init ++ [row]
       /\ Calculator.npv_cumulative row
          = Calculator.npv_total_cost (Calculator.res_summary result).
Proof.
  intros Hp. simpl. unfold Calculator.projection. split.
  - now rewrite calculator_projection_years.
  - assert (Hne : upto (Math_floor (Calculator.analysis_period_years config))
                  <> []).
    { assert (H : (1 <= Math_floor (Calculator.analysis_period_years
                                      config))%Z).
      { unfold Math_floor. rewrite <- (Qfloor_Z 1).
        now apply Qfloor_resp_le. }
      unfold upto. destruct (Z.to_nat _) eqn:E; [lia | discriminate]. }
    destruct (calculator_projection_last_row
                (upto (Math_floor (Calculator.analysis_period_years config)))
                {| Calculator.cumulativeCost := 0; Calculator.npv := 0;
                   Calculator.yearlyProjection := [] |} Hne)
      as [init [row [E [_ Hn]]]].
    exists init, row. split; assumption.
Qed.
End CalculatorProjection.

Section CalculatorProjectionExample.
Import Js.
Local Open Scope Q_scope.

Lemma calculator_projection_ends_at_the_summary_witness :
  let result := Calculator.calculateFullAnalysis Examples.continuousConfig in
  map Calculator.yr_year (Calculator.yearly_projection result) = upto 20
  /\ exists init row,
       Calculator.yearly_projection result = init ++ [row]
       /\ Calculator.npv_cumulative row
          = Calculator.npv_total_cost (Calculator.res_summary result).
Proof.
  apply (calculator_projection_ends_at_the_summary
           Examples.continuousConfig).
  discriminate.
Defined.
End CalculatorProjectionExample.

(* ================================================================== *)
(** * The Weibull distribution, the failure curve and the search *)
(* ================================================================== *)

Section WeibullDistribution.
Import Weibull LanczosReal.
Local Open Scope R_scope.

Lemma weibull_exponent t beta eta :
  0 < t -> 0 < eta ->
  Math_pow (div (Fin t) (Fin eta)) (Fin beta) = Fin (Rpower (t / eta) beta).
Proof.
  intros Ht He. cbn [div]. rewrite (Reqb_false eta 0) by lra.
  assert (Hq : 0 < t / eta) by (apply Rdiv_lt_0_compat; lra).
  cbn [Math_pow]. unfold Reqb. destruct (Req_dec_T beta 0) as [-> | _].
  - now rewrite Rpower_O.
  - now rewrite (Rltb_true 0 (t / eta)).
Qed.

Lemma weibullCDF_closed t beta eta :
  0 < t -> 0 < eta ->
  weibullCDF (Fin t) (Fin beta) (Fin eta)
  = Fin (1 + - exp (- Rpower (t / eta) beta)).
Proof.
  intros Ht He. unfold weibullCDF. cbn [le].
  rewrite (Rleb_false t 0) by lra.
  now rewrite weibull_exponent.
Qed.

Lemma weibullCDF_before_zero t beta eta :
  t <= 0 -> weibullCDF (Fin t) beta eta = Fin 0.
Proof.
  intros Ht. unfold weibullCDF. cbn [le]. now rewrite (Rleb_true t 0).
Qed.

Lemma weibullPDF_closed t beta eta :
  0 < t -> 0 < eta ->
  weibullPDF (Fin t) (Fin beta) (Fin eta)
  = Fin (beta / eta * Rpower (t / eta) (beta + - (1))
         * exp (- Rpower (t / eta) beta)).
Proof.
  intros Ht He. unfold weibullPDF. cbn [le].
  rewrite (Rleb_false t 0) by lra.
  rewrite weibull_exponent by assumption.
  cbn [sub neg add]. rewrite weibull_exponent by assumption.
  cbn [div]. rewrite (Reqb_false eta 0) by lra. reflexivity.
Qed.

Lemma exp_neg_lt_1 u : 0 < u -> exp (- u) < 1.
Proof.
  intros Hu. rewrite <- exp_0. apply exp_increasing. lra.
Qed.

(** X20: for a positive shape and a positive scale the cumulative
    failure probability is a number from 0 to 1 at every time, 0 up to
    time 0; it never decreases with time; and the reliability is its
    complement, a number from 0 to 1 as well. *)
Theorem weibull_cdf_is_a_distribution (t1 t2 beta eta : R) :
  0 < beta -> 0 < eta -> t1 <= t2 ->
  exists p1 p2,
    weibullCDF (Fin t1) (Fin beta) (Fin eta) = Fin p1
    /\ weibullCDF (Fin t2) (Fin beta) (Fin eta) = Fin p2
    /\ 0 <= p1 /\ p1 <= p2 /\ p2 <= 1
    /\ (t1 <= 0 -> p1 = 0)
    /\ weibullReliability (Fin t1) (Fin beta) (Fin eta) = Fin (1 + - p1)
    /\ 0 <= 1 + - p1 <= 1.
Proof.
  intros Hb He Ht.
  assert (Hpos : forall t, 0 < t -> 0 < Rpower (t / eta) beta).
  { intros t _. apply exp_pos. }
  assert (Hrange : forall t, 0 < t ->
            0 < 1 + - exp (- Rpower (t / eta) beta) < 1).
  { intros t H0. pose proof (exp_neg_lt_1 _ (Hpos t H0)).
    pose proof (exp_pos (- Rpower (t / eta) beta)). lra. }
  unfold weibullReliability.
  destruct (Rle_lt_dec t1 0) as [H1 | H1];
    destruct (Rle_lt_dec t2 0) as [H2 | H2].
  - exists 0, 0. rewrite !weibullCDF_before_zero by assumption.
    repeat split; try lra.
  - exists 0, (1 + - exp (- Rpower (t2 / eta) beta)).
    rewrite weibullCDF_before_zero, weibullCDF_closed by assumption.
    pose proof (Hrange t2 H2). repeat split; try lra.
  - lra.
  - exists (1 + - exp (- Rpower (t1 / eta) beta)),
           (1 + - exp (- Rpower (t2 / eta) beta)).
    rewrite !weibullCDF_closed by assumption.
    pose proof (Hrange t1 H1). pose proof (Hrange t2 H2).
    repeat split; try lra.
    assert (Hmono : Rpower (t1 / eta) beta <= Rpower (t2 / eta) beta).
    { apply Rle_Rpower_l; [lra|]. split.
      - apply Rdiv_lt_0_compat; lra.
      - apply Rmult_le_compat_r; [|exact Ht].
        apply Rlt_le, Rinv_0_lt_compat, He. }
    assert (exp (- Rpower (t2 / eta) beta) <= exp (- Rpower (t1 / eta) beta)).
    { destruct Hmono as [Hlt | Heq].
      - apply Rlt_le, exp_increasing. lra.
      - rewrite Heq. lra. }
    lra.
Qed.

Lemma weibull_cdf_is_a_distribution_witness :
  exists p1 p2,
    weibullCDF (Fin 1000) (Fin 2.5) (Fin 10000) = Fin p1
    /\ weibullCDF (Fin 2000) (Fin 2.5) (Fin 10000) = Fin p2
    /\ 0 <= p1 /\ p1 <= p2 /\ p2 <= 1
    /\ (1000 <= 0 -> p1 = 0)
    /\ weibullReliability (Fin 1000) (Fin 2.5) (Fin 10000)
       = Fin (1 + - p1)
    /\ 0 <= 1 + - p1 <= 1.
Proof.
  apply (weibull_cdf_is_a_distribution 1000 2000 2.5 10000); lra.
Defined.

(** X21: at the characteristic life, the time equal to the scale, the
    cumulative failure probability is 1 - 1/e whatever the shape. *)
Theorem weibull_cdf_at_the_characteristic_life (beta eta : R) :
  0 < eta ->
  weibullCDF (Fin eta) (Fin beta) (Fin eta) = Fin (1 + - exp (- (1)))
  /\ weibullReliability (Fin eta) (Fin beta) (Fin eta) = Fin (exp (- (1))).
Proof.
  intros He.
  assert (E : weibullCDF (Fin eta) (Fin beta) (Fin eta)
              = Fin (1 + - exp (- (1)))).
  { rewrite weibullCDF_closed by assumption.
    replace (eta / eta) with 1 by (field; lra).
    unfold Rpower. rewrite ln_1, Rmult_0_r, exp_0. reflexivity. }
  split; [exact E|].
  unfold weibullReliability. rewrite E. cbn [sub neg add]. f_equal. ring.
Qed.

Lemma weibull_cdf_at_the_characteristic_life_witness :
  weibullCDF (Fin 10000) (Fin 2.5) (Fin 10000) = Fin (1 + - exp (- (1)))
  /\ weibullReliability (Fin 10000) (Fin 2.5) (Fin 10000)
     = Fin (exp (- (1))).
Proof.
  apply (weibull_cdf_at_the_characteristic_life 2.5 10000). lra.
Defined.

(** X22: after time 0 the failure density is the derivative of the
    cumulative failure probability, and it is not negative. *)
Theorem weibull_density_is_the_derivative (t beta eta : R) :
  0 < t -> 0 < beta -> 0 < eta ->
  exists (F : R -> R) (d : R),
    (forall s, 0 < s -> weibullCDF (Fin s) (Fin beta) (Fin eta) = Fin (F s))
    /\ weibullPDF (Fin t) (Fin beta) (Fin eta) = Fin d
    /\ derivable_pt_lim F t d
    /\ 0 <= d.
Proof.
  intros Ht Hb He.
  exists (fun s => 1 + - exp (- Rpower (s / eta) beta)),
         (beta / eta * Rpower (t / eta) (beta + - (1))
          * exp (- Rpower (t / eta) beta)).
  split; [intros s Hs; now apply weibullCDF_closed|].
  split; [now apply weibullPDF_closed|].
  assert (Hq : 0 < t / eta) by (apply Rdiv_lt_0_compat; lra).
  split.
  - assert (D1 : derivable_pt_lim (fun s => s / eta) t (1 / eta)).
    { apply (derivable_pt_lim_div_scal id t 1 eta).
      apply derivable_pt_lim_id. }
    pose proof (derivable_pt_lim_power (t / eta) beta Hq) as D2.
    pose proof (derivable_pt_lim_comp _ _ _ _ _ D1 D2) as D3.
    apply derivable_pt_lim_opp in D3.
    pose proof (derivable_pt_lim_exp (- Rpower (t / eta) beta)) as D4.
    pose proof (derivable_pt_lim_comp _ _ _ _ _ D3 D4) as D5.
    apply derivable_pt_lim_opp in D5.
    pose proof (derivable_pt_lim_plus _ _ _ _ _
                  (derivable_pt_lim_const 1 t) D5) as D6.
    eapply derivable_pt_lim_ext in D6.
    + replace (beta / eta * Rpower (t / eta) (beta + - (1))
               * exp (- Rpower (t / eta) beta))
        with (0 + - (exp (- Rpower (t / eta) beta)
                     * - (beta * Rpower (t / eta) (beta - 1) * (1 / eta)))).
      * exact D6.
      * unfold Rminus. field. lra.
    + intros z. reflexivity.
  - apply Rmult_le_pos; [apply Rmult_le_pos|].
    + apply Rlt_le, Rdiv_lt_0_compat; lra.
    + apply Rlt_le, exp_pos.
    + apply Rlt_le, exp_pos.
Qed.

Lemma weibull_density_is_the_derivative_witness :
  exists (F : R -> R) (d : R),
    (forall s, 0 < s ->
       weibullCDF (Fin s) (Fin 2.5) (Fin 10000) = Fin (F s))
    /\ weibullPDF (Fin 5000) (Fin 2.5) (Fin 10000) = Fin d
    /\ derivable_pt_lim F 5000 d
    /\ 0 <= d.
Proof.
  apply (weibull_density_is_the_derivative 5000 2.5 10000); lra.
Defined.
End WeibullDistribution.

Section FailureCurve.
Import Weibull LanczosReal.
Local Open Scope R_scope.

Lemma round_to_fin (scale x : R) :
  0 < scale ->
  round_to scale (Fin x) = Fin (IZR (Zfloor (x * scale + / 2)) / scale).
Proof.
  intros Hs. unfold round_to. cbn [mul Math_round div].
  now rewrite (Reqb_false scale 0) by lra.
Qed.

Lemma rounded_share (scale x : R) :
  1 <= scale -> 0 <= x <= 1 ->
  IZR (Zfloor (scale + / 2)) = scale ->
  0 <= IZR (Zfloor (x * scale + / 2)) / scale <= 1.
Proof.
  intros Hs Hx Hint. split.
  - apply Rmult_le_pos; [|apply Rlt_le, Rinv_0_lt_compat; lra].
    apply (IZR_le 0). apply Zfloor_lub. simpl. nra.
  - apply Rmult_le_reg_r with scale; [lra|].
    replace (IZR (Zfloor (x * scale + / 2)) / scale * scale)
      with (IZR (Zfloor (x * scale + / 2))) by (field; lra).
    rewrite Rmult_1_l. rewrite <- Hint at 2.
    apply IZR_le, Zfloor_le. nra.
Qed.

Lemma rounded_nonneg (scale x : R) :
  0 < scale -> 0 <= x -> 0 <= IZR (Zfloor (x * scale + / 2)) / scale.
Proof.
  intros Hs Hx.
  apply Rmult_le_pos; [|apply Rlt_le, Rinv_0_lt_compat; lra].
  apply (IZR_le 0). apply Zfloor_lub. simpl. nra.
Qed.

Lemma Zfloor_10000 : IZR (Zfloor (10000 + / 2)) = 10000.
Proof. rewrite (Zfloor_eq 10000 (10000 + / 2)); [reflexivity | lra]. Qed.

Lemma weibullCDF_range t beta eta :
  0 < eta ->
  exists p,
    weibullCDF (Fin t) (Fin beta) (Fin eta) = Fin p
    /\ 0 <= p < 1
    /\ weibullReliability (Fin t) (Fin beta) (Fin eta) = Fin (1 + - p).
Proof.
  intros He. unfold weibullReliability.
  destruct (Rle_lt_dec t 0) as [Ht | Ht].
  - exists 0. rewrite weibullCDF_before_zero by exact Ht.
    repeat split; lra.
  - exists (1 + - exp (- Rpower (t / eta) beta)).
    rewrite weibullCDF_closed by assumption.
    assert (Hu : 0 < Rpower (t / eta) beta) by apply exp_pos.
    pose proof (exp_neg_lt_1 _ Hu).
    pose proof (exp_pos (- Rpower (t / eta) beta)).
    repeat split; lra.
Qed.

Lemma weibullPDF_nonneg t beta eta :
  0 < beta -> 0 < eta ->
  exists d, weibullPDF (Fin t) (Fin beta) (Fin eta) = Fin d /\ 0 <= d.
Proof.
  intros Hb He. destruct (Rle_lt_dec t 0) as [Ht | Ht].
  - exists 0. split; [|lra]. unfold weibullPDF. cbn [le].
    now rewrite (Rleb_true t 0).
  - eexists. split; [now apply weibullPDF_closed|].
    apply Rmult_le_pos; [apply Rmult_le_pos|].
    + apply Rlt_le, Rdiv_lt_0_compat; lra.
    + apply Rlt_le, exp_pos.
    + apply Rlt_le, exp_pos.
Qed.

(** X23: for a positive expected life, a positive shape and at least one
    interval, the failure curve has one point more than intervals; it
    starts at hour 0 with failure probability 0, reliability 1 and
    failure rate 0; and every point lies between hour 0 and twice the
    expected life, with a failure probability and a reliability from 0
    to 1 and a failure rate that is not negative. *)
Theorem failure_curve_is_well_formed (life shape : R) (points : nat) :
  0 < life -> 0 < shape -> (0 < points)%nat ->
  let fc := generateFailureCurve (Fin life) (Fin shape) points in
  List.length (curve fc) = S points
  /\ nth_error (curve fc) 0
     = Some {| hours := Fin 0; failure_probability := Fin 0;
               reliability := Fin 1; failure_rate := Fin 0 |}
  /\ forall pt, In pt (curve fc) ->
       exists h f r d,
         hours pt = Fin h /\ failure_probability pt = Fin f
         /\ reliability pt = Fin r /\ failure_rate pt = Fin d
         /\ 0 <= h <= 2 * life + / 2
         /\ 0 <= f <= 1 /\ 0 <= r <= 1 /\ 0 <= d.
Proof.
  intros Hl Hs Hp. cbv zeta.
  assert (HN : 0 < INR points) by (now apply lt_0_INR).
  unfold generateFailureCurve. cbn [curve].
  rewrite (etaOf_fin life shape Hs).
  set (e := life / lanczosReal (1 + 1 / shape)).
  assert (He : 0 < e).
  { unfold e. apply Rdiv_lt_0_compat; [exact Hl|].
    apply lanczosReal_pos. destruct (inverse_shape shape Hs). lra. }
  cbn [mul div]. rewrite (Reqb_false (INR points) 0) by lra.
  set (step := life * 2 / INR points).
  assert (Hstep : 0 < step).
  { unfold step. apply Rdiv_lt_0_compat; lra. }
  split; [now rewrite length_map, length_seq|]. split.
  - cbn [seq map nth_error]. unfold curvePoint. cbn [mul INR].
    rewrite Rmult_0_l. unfold weibullReliability.
    rewrite weibullCDF_before_zero by lra.
    unfold weibullPDF. cbn [le]. rewrite (Rleb_true 0 0) by lra.
    cbn [sub neg add Math_round].
    rewrite !round_to_fin by lra.
    replace (0 * 10000 + / 2) with (/ 2) by ring.
    replace (0 * 1000000 + / 2) with (/ 2) by ring.
    replace (0 + / 2) with (/ 2) by ring.
    replace ((1 + - 0) * 10000 + / 2) with (10000 + / 2) by ring.
    rewrite (Zfloor_eq 0 (/ 2)) by (simpl; lra).
    rewrite Zfloor_10000.
    do 2 f_equal; f_equal; field.
  - intros pt Hpt. apply in_map_iff in Hpt. destruct Hpt as [i [<- Hi]].
    apply in_seq in Hi.
    assert (Hi' : 0 <= INR i <= INR points).
    { split; [apply pos_INR | apply le_INR; lia]. }
    unfold curvePoint. cbn [mul hours failure_probability reliability
                              failure_rate].
    set (t := INR i * step).
    assert (Ht : 0 <= t <= 2 * life).
    { unfold t. split; [nra|].
      replace (2 * life) with (INR points * step)
        by (unfold step; field; lra).
      apply Rmult_le_compat_r; lra. }
    destruct (weibullCDF_range t shape e He) as [p [Hc [[Hp0 Hp1] Hr]]].
    destruct (weibullPDF_nonneg t shape e Hs He) as [d [Hd Hd0]].
    rewrite Hc, Hr, Hd. rewrite !round_to_fin by lra. cbn [Math_round].
    eexists _, _, _, _. repeat split; try reflexivity.
    + apply (IZR_le 0). apply Zfloor_lub. simpl. lra.
    + pose proof (Zfloor_bound (t + / 2)). lra.
    + apply rounded_share; [lra | lra | exact Zfloor_10000].
    + apply rounded_share; [lra | lra | exact Zfloor_10000].
    + apply rounded_share; [lra | lra | exact Zfloor_10000].
    + apply rounded_share; [lra | lra | exact Zfloor_10000].
    + apply rounded_nonneg; lra.
Qed.

Lemma failure_curve_is_well_formed_witness :
  let fc := generateFailureCurve (Fin 10000) (Fin 2.5) 50 in
  List.length (curve fc) = 51%nat
  /\ nth_error (curve fc) 0
     = Some {| hours := Fin 0; failure_probability := Fin 0;
               reliability := Fin 1; failure_rate := Fin 0 |}
  /\ forall pt, In pt (curve fc) ->
       exists h f r d,
         hours pt = Fin h /\ failure_probability pt = Fin f
         /\ reliability pt = Fin r /\ failure_rate pt = Fin d
         /\ 0 <= h <= 2 * 10000 + / 2
         /\ 0 <= f <= 1 /\ 0 <= r <= 1 /\ 0 <= d.
Proof.
  apply (failure_curve_is_well_formed 10000 2.5 50); [lra | lra | lia].
Defined.
End FailureCurve.

Section OptimalInterval.
Import Weibull LanczosReal.
Local Open Scope R_scope.

Lemma searchLoop_range life shape cost mult (fuel : nat) :
  0 < life ->
  forall t b bestCostRate,
    life / 100 <= t ->
    life / 100 <= b <= life * 1.5 ->
    life * 1.5 - t < INR fuel * (life / 100) ->
    exists b' c',
      searchLoop (Fin life) shape cost mult (S fuel) (Fin t)
                 (Fin b) bestCostRate = Some (Fin b', c')
      /\ life / 100 <= b' <= life * 1.5.
Proof.
  intro Hl. induction fuel as [|fuel IH]; intros t b bc Hlo Hb Ht.
  - simpl in Ht. cbn [searchLoop mul le].
    rewrite (Rleb_false t (life * 1.5)) by lra. eexists _, _.
    split; [reflexivity | exact Hb].
  - rewrite S_INR in Ht.
    remember (S fuel) as n eqn:En. cbn [searchLoop]. cbn [mul le].
    unfold Rleb. destruct (Rle_dec t (life * 1.5)) as [Hle | _];
      [|eexists _, _; split; [reflexivity | exact Hb]].
    unfold searchStep. cbn [div]. rewrite (Reqb_false 100 0) by lra.
    cbn [add]. subst n.
    destruct (lt (costRate (Fin life) shape cost mult (Fin t)) bc);
      apply IH; lra.
Qed.

(** X24: for a positive expected life the search for the replacement
    interval ends, whatever the shape and the costs, and recommends an
    interval between a hundredth and one and a half times the expected
    life: [vs_oem_interval] lies between 1 and 150. *)
Theorem optimal_interval_stays_in_the_search_range
    (life : R) (shape cost mult : num) (fuel : nat) :
  0 < life -> (152 <= fuel)%nat ->
  exists h c v,
    optimalReplacementInterval (Fin life) shape cost mult fuel
    = Some {| optimal_interval_hours := Fin h;
              cost_per_hour := c;
              vs_oem_interval := Fin v |}
    /\ life / 100 - / 2 < h <= life * 1.5 + / 2
    /\ 1 <= v <= 150.
Proof.
  intros Hl Hfuel. destruct fuel as [|fuel]; [lia|].
  unfold optimalReplacementInterval, searchStep. cbn [div].
  rewrite (Reqb_false 100 0) by lra.
  destruct (searchLoop_range life shape cost mult fuel Hl
              (life / 100) life PInf) as [b [c [Hr Hb]]]; try lra.
  - assert (H : INR 151 <= INR fuel) by (apply le_INR; lia).
    rewrite (INR_IZR_INZ 151) in H. change (Z.of_nat 151) with 151%Z in H.
    nra.
  - rewrite Hr. cbn [Math_round div mul].
    rewrite (Reqb_false life 0) by lra.
    eexists _, _, _. split; [reflexivity|].
    assert (Hv : 1 <= b / life * 100 <= 150).
    { split.
      - apply Rmult_le_reg_r with (life / 100); [lra|].
        replace (b / life * 100 * (life / 100)) with b by (field; lra).
        lra.
      - apply Rmult_le_reg_r with (life / 100); [lra|].
        replace (b / life * 100 * (life / 100)) with b by (field; lra).
        lra. }
    pose proof (Zfloor_bound (b + / 2)) as Hfb.
    repeat split; try lra.
    + apply (IZR_le 1). apply Zfloor_lub. lra.
    + pose proof (Zfloor_le (b / life * 100 + / 2) (150 + / 2)) as H.
      rewrite (Zfloor_eq 150 (150 + / 2)) in H by lra.
      apply (IZR_le _ 150). apply H. lra.
Qed.

Lemma optimal_interval_stays_in_the_search_range_witness :
  exists h c v,
    optimalReplacementInterval (Fin 10000) (Fin 2.5) (Fin 5000) (Fin 3) 152
    = Some {| optimal_interval_hours := Fin h;
              cost_per_hour := c;
              vs_oem_interval := Fin v |}
    /\ 10000 / 100 - / 2 < h <= 10000 * 1.5 + / 2
    /\ 1 <= v <= 150.
Proof.
  apply (optimal_interval_stays_in_the_search_range
           10000 (Fin 2.5) (Fin 5000) (Fin 3) 152); [lra | lia].
Defined.
End OptimalInterval.

(* ================================================================== *)
(** * The fleet-wide replacement schedule *)
(* ================================================================== *)

Section FleetReplacementSchedule.
Import Js.
Local Open Scope Q_scope.
Variable components : list FleetSchedule.Component.
Variables totalUnits avgAnnualHours periodYears : Q.

Lemma upto_succ (n : nat) :
  upto (Z.of_nat (S n)) = upto (Z.of_nat n) ++ [Z.of_nat (S n)].
Proof.
  unfold upto. rewrite !Nat2Z.id, seq_S, map_app. reflexivity.
Qed.

Lemma Qfloor_lt_cases (x : Q) (k : Z) : (Qfloor x < k)%Z -> x < inject_Z k.
Proof.
  intros H. apply Qlt_le_trans with (inject_Z (Qfloor x + 1)).
  - apply Qlt_floor.
  - rewrite <- Zle_Qle. lia.
Qed.

(** X25: the fleet-wide replacement schedule has one entry for each year
    1, 2, ... of the period, in order.  For whole numbers of annual
    hours and of life hours (the hours run by the end of the period
    being a whole number up to 2^52 as well) and positive lives, a
    replacement listed in a year with the number k belongs to a component
    of the list whose k-th life ends during that year: it is listed
    neither before the fleet has run k lives nor a year late; it affects
    the whole fleet and costs the fleet size times the unit cost. *)
Theorem replacement_is_listed_in_the_year_its_life_ends :
  FleetSchedule.wholeHours avgAnnualHours ->
  FleetSchedule.wholeHours
    (inject_Z (Math_floor periodYears) * avgAnnualHours) ->
  (forall comp, In comp components ->
                FleetSchedule.wholeHours
                  (FleetSchedule.expected_life_hours comp)
                /\ 0 < FleetSchedule.expected_life_hours comp) ->
  let sched := FleetSchedule.generateReplacementSchedule
                 components totalUnits avgAnnualHours periodYears in
  map FleetSchedule.year sched = upto (Math_floor periodYears)
  /\ forall e r,
       In e sched -> In r (FleetSchedule.replacements e) ->
       exists comp,
         In comp components
         /\ FleetSchedule.component r = FleetSchedule.component_name comp
         /\ (1 <= FleetSchedule.replacement_number r)%Z
         /\ inject_Z (FleetSchedule.year e - 1) * avgAnnualHours
            < inject_Z (FleetSchedule.replacement_number r)
              * FleetSchedule.expected_life_hours comp
         /\ inject_Z (FleetSchedule.replacement_number r)
            * FleetSchedule.expected_life_hours comp
            <= inject_Z (FleetSchedule.year e) * avgAnnualHours
         /\ FleetSchedule.units_affected r = totalUnits
         /\ FleetSchedule.total_cost r
            = FleetSchedule.cost_per_unit r * totalUnits.
Proof.
  intros Hwhole _ Hlives. cbv zeta.
  assert (HH : 0 <= avgAnnualHours).
  { destruct Hwhole as (a & -> & Ha & _). rewrite <- (Zle_Qle 0). exact Ha. }
  assert (HL : forall comp, In comp components ->
                 0 < FleetSchedule.expected_life_hours comp)
    by (intros comp Hc; apply (Hlives comp Hc)).
  unfold FleetSchedule.generateReplacementSchedule. split.
  - rewrite map_map. simpl. apply map_id.
  - intros e r He Hr. apply in_map_iff in He. destruct He as [y [<- Hy]].
    apply In_upto in Hy. simpl in Hr |- *.
    unfold FleetSchedule.yearReplacements in Hr.
    apply in_map_iff in Hr. destruct Hr as [comp [<- Hc]].
    apply filter_In in Hc. destruct Hc as [Hin Hrep].
    exists comp. split; [exact Hin|]. split; [reflexivity|]. simpl.
    specialize (HL comp Hin).
    set (L := FleetSchedule.expected_life_hours comp) in *.
    unfold FleetSchedule.replacedIn in Hrep. apply Z.ltb_lt in Hrep.
    unfold FleetSchedule.previousReplacements,
      FleetSchedule.replacementNumber, FleetSchedule.hoursAtYear,
      Math_floor in *.
    fold L in Hrep |- *.
    set (k := Qfloor (inject_Z y * avgAnnualHours / L)) in *.
    assert (Hprev : (0 <= Qfloor ((inject_Z y * avgAnnualHours
                                   - avgAnnualHours) / L))%Z).
    { rewrite <- (Qfloor_Z 0). apply Qfloor_resp_le.
      apply Qle_shift_div_l; [exact HL|].
      assert (Hy1 : 1 <= inject_Z y).
      { change 1 with (inject_Z 1). rewrite <- Zle_Qle. lia. }
      change (inject_Z 0) with 0. nra. }
    split; [lia|]. split; [|split; [|split; reflexivity]].
    + apply Qfloor_lt_cases in Hrep.
      assert (E : inject_Z (y - 1) * avgAnnualHours
                  == (inject_Z y * avgAnnualHours - avgAnnualHours) / L * L).
      { unfold Z.sub. rewrite inject_Z_plus, inject_Z_opp.
        change (inject_Z 1) with 1. field. lra. }
      rewrite E. apply Qmult_lt_compat_r; assumption.
    + pose proof (Qfloor_le (inject_Z y * avgAnnualHours / L)) as Hk.
      fold k in Hk.
      apply Qle_trans with (inject_Z y * avgAnnualHours / L * L).
      * apply Qmult_le_compat_r; [exact Hk | lra].
      * apply Qle_lteq. right. field. lra.
Qed.

Lemma previous_is_the_year_before (comp : FleetSchedule.Component) (y : Z) :
  FleetSchedule.previousReplacements avgAnnualHours comp (y + 1)
  = FleetSchedule.replacementNumber avgAnnualHours comp y.
Proof.
  unfold FleetSchedule.previousReplacements,
    FleetSchedule.replacementNumber, FleetSchedule.hoursAtYear, Math_floor.
  apply Qfloor_comp. rewrite inject_Z_plus.
  change (inject_Z 1) with 1. unfold Qdiv. ring.
Qed.

Lemma replacements_grow_by_at_most_one (comp : FleetSchedule.Component) y :
  0 < avgAnnualHours ->
  avgAnnualHours <= FleetSchedule.expected_life_hours comp ->
  (FleetSchedule.replacementNumber avgAnnualHours comp y
   <= FleetSchedule.replacementNumber avgAnnualHours comp (y + 1)
   <= FleetSchedule.replacementNumber avgAnnualHours comp y + 1)%Z.
Proof.
  intros HH HL.
  set (L := FleetSchedule.expected_life_hours comp) in *.
  unfold FleetSchedule.replacementNumber, FleetSchedule.hoursAtYear,
    Math_floor. fold L.
  assert (Hq : 0 <= avgAnnualHours / L <= 1).
  { split.
    - apply Qle_shift_div_l; lra.
    - apply Qle_shift_div_r; lra. }
  assert (E : inject_Z (y + 1) * avgAnnualHours / L
              == inject_Z y * avgAnnualHours / L + avgAnnualHours / L).
  { rewrite inject_Z_plus. change (inject_Z 1) with 1. field. lra. }
  rewrite (Qfloor_comp _ _ E).
  set (x := inject_Z y * avgAnnualHours / L) in *.
  split.
  - apply Qfloor_resp_le. lra.
  - replace (Qfloor x + 1)%Z with (Qfloor (x + 1)).
    + apply Qfloor_resp_le. lra.
    + apply Qfloor_unique.
      * rewrite inject_Z_plus. change (inject_Z 1) with 1.
        pose proof (Qfloor_le x). lra.
      * rewrite !inject_Z_plus. change (inject_Z 1) with 1.
        pose proof (Qlt_floor x) as H. rewrite inject_Z_plus in H.
        change (inject_Z 1) with 1 in H. lra.
Qed.

Lemma replaced_years_count (comp : FleetSchedule.Component) (n : nat) :
  0 < avgAnnualHours ->
  avgAnnualHours <= FleetSchedule.expected_life_hours comp ->
  Z.of_nat (List.length
              (filter (fun y => FleetSchedule.replacedIn avgAnnualHours y comp)
                      (upto (Z.of_nat n))))
  = FleetSchedule.replacementNumber avgAnnualHours comp (Z.of_nat n).
Proof.
  intros HH HL. induction n as [|n IH].
  - simpl. unfold FleetSchedule.replacementNumber,
      FleetSchedule.hoursAtYear, Math_floor.
    symmetry. apply Qfloor_unique.
    + unfold Qdiv. rewrite Qmult_0_l, Qmult_0_l. apply Qle_refl.
    + unfold Qdiv. rewrite Qmult_0_l, Qmult_0_l. reflexivity.
  - rewrite upto_succ, filter_app, length_app, Nat2Z.inj_add, IH.
    rewrite Nat2Z.inj_succ. unfold Z.succ.
    pose proof (replacements_grow_by_at_most_one comp (Z.of_nat n) HH HL)
      as Hstep.
    simpl. unfold FleetSchedule.replacedIn.
    replace (Z.pos (Pos.of_succ_nat n)) with (Z.of_nat n + 1)%Z by lia.
    rewrite previous_is_the_year_before.
    destruct (Z.ltb_spec
                (FleetSchedule.replacementNumber avgAnnualHours comp
                   (Z.of_nat n))
                (FleetSchedule.replacementNumber avgAnnualHours comp
                   (Z.of_nat n + 1))); simpl; lia.
Qed.

Lemma fold_left_Zadd_shift {A} (f : A -> Z) l a :
  fold_left (fun acc x => (acc + f x)%Z) l a
  = (a + fold_left (fun acc x => (acc + f x)%Z) l 0)%Z.
Proof.
  revert a. induction l as [|x l IH]; intros a; simpl; [lia|].
  rewrite IH, (IH (f x)). lia.
Qed.

Lemma fold_left_Zadd_ext {A} (f g : A -> Z) l :
  (forall x, In x l -> f x = g x) ->
  fold_left (fun acc x => (acc + f x)%Z) l 0%Z
  = fold_left (fun acc x => (acc + g x)%Z) l 0%Z.
Proof.
  induction l as [|x l IH]; intros H; simpl; [reflexivity|].
  rewrite (fold_left_Zadd_shift f), (fold_left_Zadd_shift g).
  rewrite IH by (intros y Hy; apply H; now right).
  now rewrite (H x (or_introl eq_refl)).
Qed.

Lemma fold_left_Zadd_plus {A} (f g : A -> Z) l :
  fold_left (fun acc x => (acc + (f x + g x))%Z) l 0%Z
  = (fold_left (fun acc x => (acc + f x)%Z) l 0
     + fold_left (fun acc x => (acc + g x)%Z) l 0)%Z.
Proof.
  induction l as [|x l IH]; simpl; [reflexivity|].
  rewrite (fold_left_Zadd_shift f), (fold_left_Zadd_shift g),
    (fold_left_Zadd_shift (fun x => (f x + g x)%Z)), IH. lia.
Qed.

Lemma fold_left_Zadd_count {A} (p : A -> bool) l :
  fold_left (fun acc x => (acc + (if p x then 1 else 0))%Z) l 0%Z
  = Z.of_nat (List.length (filter p l)).
Proof.
  induction l as [|x l IH]; [reflexivity|].
  cbn [fold_left filter].
  rewrite fold_left_Zadd_shift, IH.
  destruct (p x); cbn [List.length]; lia.
Qed.

Lemma count_by_year_or_by_component (ys : list Z)
    (comps : list FleetSchedule.Component) :
  fold_left (fun acc y =>
               (acc + Z.of_nat
                        (List.length
                           (filter (FleetSchedule.replacedIn avgAnnualHours y)
                                   comps)))%Z) ys 0%Z
  = fold_left (fun acc comp =>
                 (acc + Z.of_nat
                          (List.length
                             (filter (fun y => FleetSchedule.replacedIn
                                                 avgAnnualHours y comp)
                                     ys)))%Z) comps 0%Z.
Proof.
  induction ys as [|y ys IH]; simpl.
  - induction comps as [|comp comps IHc]; simpl; [reflexivity | exact IHc].
  - rewrite fold_left_Zadd_shift, IH.
    rewrite (fold_left_Zadd_ext
               (fun comp =>
                  Z.of_nat
                    (List.length
                       (if FleetSchedule.replacedIn avgAnnualHours y comp
                        then y :: filter (fun y0 => FleetSchedule.replacedIn
                                                      avgAnnualHours y0 comp)
                                         ys
                        else filter (fun y0 => FleetSchedule.replacedIn
                                                 avgAnnualHours y0 comp) ys)))
               (fun comp =>
                  ((if FleetSchedule.replacedIn avgAnnualHours y comp
                    then 1 else 0)
                   + Z.of_nat
                       (List.length
                          (filter (fun y0 => FleetSchedule.replacedIn
                                               avgAnnualHours y0 comp)
                                  ys)))%Z)).
    + rewrite fold_left_Zadd_plus, fold_left_Zadd_count. lia.
    + intros comp _.
      destruct (FleetSchedule.replacedIn avgAnnualHours y comp);
        cbn [List.length]; lia.
Qed.

(** X26: for whole numbers of annual hours and of life hours (the hours
    run by the end of the period being a whole number up to 2^52 as
    well), when the fleet runs at most one expected life of every
    component a year, the schedule lists, over the whole period, as many
    replacements of a component as lives of it elapse during the period:
    the total number of listed replacements is the sum of
    floor(years * annual hours / expected life) over the components. *)
Theorem replacement_schedule_counts_every_life :
  FleetSchedule.wholeHours avgAnnualHours ->
  FleetSchedule.wholeHours
    (inject_Z (Math_floor periodYears) * avgAnnualHours) ->
  0 < avgAnnualHours ->
  (forall comp, In comp components ->
     FleetSchedule.wholeHours (FleetSchedule.expected_life_hours comp)
     /\ avgAnnualHours <= FleetSchedule.expected_life_hours comp) ->
  0 <= periodYears ->
  fold_left
    (fun acc e =>
       (acc + Z.of_nat (List.length (FleetSchedule.replacements e)))%Z)
    (FleetSchedule.generateReplacementSchedule
       components totalUnits avgAnnualHours periodYears) 0%Z
  = fold_left
      (fun acc comp =>
         (acc + Math_floor (inject_Z (Math_floor periodYears) * avgAnnualHours
                            / FleetSchedule.expected_life_hours comp))%Z)
      components 0%Z.
Proof.
  intros _ _ HH Hlives Hp.
  assert (HL : forall comp, In comp components ->
                 avgAnnualHours <= FleetSchedule.expected_life_hours comp)
    by (intros comp Hc; apply (Hlives comp Hc)).
  unfold FleetSchedule.generateReplacementSchedule.
  assert (Hn : (0 <= Math_floor periodYears)%Z).
  { unfold Math_floor. rewrite <- (Qfloor_Z 0). now apply Qfloor_resp_le. }
  rewrite <- (Z2Nat.id _ Hn).
  set (n := Z.to_nat (Math_floor periodYears)).
  assert (E1 : forall ys acc,
             fold_left
               (fun acc e =>
                  (acc + Z.of_nat
                           (List.length (FleetSchedule.replacements e)))%Z)
               (map (FleetSchedule.yearEntry components totalUnits
                                             avgAnnualHours) ys) acc
             = fold_left
                 (fun acc y =>
                    (acc + Z.of_nat
                             (List.length
                                (filter (FleetSchedule.replacedIn
                                           avgAnnualHours y)
                                        components)))%Z) ys acc).
  { induction ys as [|y ys IH]; intros acc; simpl; [reflexivity|].
    rewrite IH. unfold FleetSchedule.yearReplacements.
    now rewrite length_map. }
  rewrite E1, count_by_year_or_by_component.
  assert (E2 : forall comps acc,
             (forall comp, In comp comps ->
                avgAnnualHours <= FleetSchedule.expected_life_hours comp) ->
             fold_left
               (fun acc comp =>
                  (acc + Z.of_nat
                           (List.length
                              (filter (fun y => FleetSchedule.replacedIn
                                                  avgAnnualHours y comp)
                                      (upto (Z.of_nat n)))))%Z) comps acc
             = fold_left
                 (fun acc comp =>
                    (acc + Math_floor
                             (inject_Z (Z.of_nat n) * avgAnnualHours
                              / FleetSchedule.expected_life_hours comp))%Z)
                 comps acc).
  { induction comps as [|comp comps IH]; intros acc H; simpl;
      [reflexivity|].
    rewrite replaced_years_count
      by (auto; apply H; now left).
    apply IH. intros c Hc. apply H. now right. }
  now apply E2.
Qed.
End FleetReplacementSchedule.

Section FleetReplacementScheduleExample.
Import Js.
Local Open Scope Q_scope.

Lemma replacement_is_listed_in_the_year_its_life_ends_witness :
  let sched := FleetSchedule.generateReplacementSchedule
                 Examples.fleetComponents 10 6500 10 in
  map FleetSchedule.year sched = upto (Math_floor 10)
  /\ forall e r,
       In e sched -> In r (FleetSchedule.replacements e) ->
       exists comp,
         In comp Examples.fleetComponents
         /\ FleetSchedule.component r = FleetSchedule.component_name comp
         /\ (1 <= FleetSchedule.replacement_number r)%Z
         /\ inject_Z (FleetSchedule.year e - 1) * 6500
            < inject_Z (FleetSchedule.replacement_number r)
              * FleetSchedule.expected_life_hours comp
         /\ inject_Z (FleetSchedule.replacement_number r)
            * FleetSchedule.expected_life_hours comp
            <= inject_Z (FleetSchedule.year e) * 6500
         /\ FleetSchedule.units_affected r = 10
         /\ FleetSchedule.total_cost r
            = FleetSchedule.cost_per_unit r * 10.
Proof.
  apply (replacement_is_listed_in_the_year_its_life_ends
           Examples.fleetComponents 10 6500 10).
  - exists 6500%Z. split; [reflexivity | lia].
  - exists 65000%Z. split; [reflexivity | lia].
  - intros comp [<- | [<- | []]]; (split; [|reflexivity]).
    + exists 20000%Z. split; [reflexivity | lia].
    + exists 8000%Z. split; [reflexivity | lia].
Defined.

Lemma replacement_schedule_counts_every_life_witness :
  fold_left
    (fun acc e =>
       (acc + Z.of_nat (List.length (FleetSchedule.replacements e)))%Z)
    (FleetSchedule.generateReplacementSchedule
       Examples.fleetComponents 10 6500 10) 0%Z
  = fold_left
      (fun acc comp =>
         (acc + Math_floor (inject_Z (Math_floor 10) * 6500
                            / FleetSchedule.expected_life_hours comp))%Z)
      Examples.fleetComponents 0%Z.
Proof.
  apply (replacement_schedule_counts_every_life
           Examples.fleetComponents 10 6500 10).
  - exists 6500%Z. split; [reflexivity | lia].
  - exists 65000%Z. split; [reflexivity | lia].
  - reflexivity.
  - intros comp [<- | [<- | []]]; (split; [|discriminate]).
    + exists 20000%Z. split; [reflexivity | lia].
    + exists 8000%Z. split; [reflexivity | lia].
  - discriminate.
Defined.
End FleetReplacementScheduleExample.


(* ================================================================== *)
(** * The column names of a price-list upload *)
(* ================================================================== *)

Section ColumnNames.
Local Open Scope string_scope.

Lemma trimStart_chars s ch :
  In ch (list_ascii_of_string (PriceLists.trimStart s)) ->
  In ch (list_ascii_of_string s).
Proof.
  induction s as [|a s IH]; simpl; [auto|].
  destruct (PriceLists.is_space a); simpl; auto.
Qed.

Lemma trimEnd_chars s ch :
  In ch (list_ascii_of_string (PriceLists.trimEnd s)) ->
  In ch (list_ascii_of_string s).
Proof.
  induction s as [|a s IH]; simpl; [auto|].
  destruct (PriceLists.trimEnd s) as [|b rest].
  - destruct (PriceLists.is_space a); simpl; [contradiction|].
    intros [-> | []]. now left.
  - simpl. intros [-> | H]; [now left|]. right. apply IH. exact H.
Qed.

Lemma strip_chars s ch :
  In ch (list_ascii_of_string (PriceLists.strip s)) ->
  PriceLists.kept ch = true.
Proof.
  induction s as [|a s IH]; simpl; [contradiction|].
  destruct (PriceLists.kept a) eqn:E; simpl; [|exact IH].
  intros [<- | H]; [exact E | now apply IH].
Qed.

Lemma normalForm_chars header ch :
  In ch (list_ascii_of_string (PriceLists.normalForm header)) ->
  PriceLists.kept ch = true.
Proof.
  intros H. unfold PriceLists.normalForm, PriceLists.trim in H.
  apply trimEnd_chars, trimStart_chars in H. now apply strip_chars in H.
Qed.

Lemma normalForm_has_no_underscore header alias :
  In "_"%char (list_ascii_of_string alias) ->
  PriceLists.normalForm header <> alias.
Proof.
  intros Hin E. rewrite <- E in Hin.
  apply normalForm_chars in Hin. discriminate.
Qed.

Lemma includes_In aliases s :
  PriceLists.includes aliases s = true <-> In s aliases.
Proof.
  unfold PriceLists.includes. rewrite existsb_exists. split.
  - intros [a [Ha E]]. apply String.eqb_eq in E. now subst.
  - intros H. exists s. split; [exact H | apply String.eqb_refl].
Qed.

(** X27: a header is compared with the aliases after every character
    other than a lower-case letter, a digit, white space and [#] has been
    removed from it, underscores included.  So a header counts as the
    price column exactly when that form is one of the seven aliases
    written without an underscore, and the column names [unit_price] and
    [applicable_models] themselves are not recognised: an upload whose
    headers are [part_number], [description], [unit_price] is refused
    for want of a price column. *)
Theorem headers_are_matched_without_underscores (header : string) :
  (forall ch, In ch (list_ascii_of_string (PriceLists.normalForm header)) ->
              PriceLists.kept ch = true)
  /\ (PriceLists.normalizeColumnName header = Some PriceLists.unit_price
      <-> In (PriceLists.normalForm header)
             [ "unit price"; "price"; "cost"; "unit cost"; "list price";
               "amount"; "rate" ])
  /\ PriceLists.normalizeColumnName "unit_price" = None
  /\ PriceLists.normalizeColumnName "applicable_models" = None
  /\ PriceLists.normalizeColumnName " Unit Price ($) "
     = Some PriceLists.unit_price
  /\ PriceLists.checkColumns ["part_number"; "description"; "unit_price"]
     = PriceLists.no_unit_price_column.
Proof.
  split; [apply normalForm_chars|].
  split; [|repeat split; reflexivity].
  unfold PriceLists.normalizeColumnName.
  set (s := PriceLists.normalForm header).
  assert (Hno : forall alias,
             In "_"%char (list_ascii_of_string alias) -> s <> alias)
    by (intros alias; apply normalForm_has_no_underscore).
  split.
  - cbn [PriceLists.firstMatch PriceLists.COLUMN_ALIASES].
    match goal with
    | |- context [if PriceLists.includes ?l s
                  then Some PriceLists.part_number else _] =>
        destruct (PriceLists.includes l s); [discriminate|]
    end.
    match goal with
    | |- context [if PriceLists.includes ?l s
                  then Some PriceLists.description else _] =>
        destruct (PriceLists.includes l s); [discriminate|]
    end.
    match goal with
    | |- context [if PriceLists.includes ?l s
                  then Some PriceLists.category else _] =>
        destruct (PriceLists.includes l s); [discriminate|]
    end.
    match goal with
    | |- context [if PriceLists.includes ?l s
                  then Some PriceLists.unit_price else _] =>
        destruct (PriceLists.includes l s) eqn:E
    end.
    + intros _. apply includes_In in E. simpl in E.
      destruct E as [E|[E|[E|[E|[E|[E|[E|[E|[E|[E|[]]]]]]]]]]];
        try (exfalso; symmetry in E; revert E; apply Hno; simpl; tauto);
        rewrite <- E; simpl; tauto.
    + repeat match goal with
             | |- context [if PriceLists.includes ?l s then _ else _] =>
                 destruct (PriceLists.includes l s)
             end; discriminate.
  - intros H. simpl in H.
    destruct H as [H|[H|[H|[H|[H|[H|[H|[]]]]]]]];
      rewrite <- H; reflexivity.
Qed.
End ColumnNames.

(* ================================================================== *)
(** * Inflation in the projection of [runAnalysis] *)
(* ================================================================== *)

Section Inflation.
Import Js.
Local Open Scope Q_scope.

Lemma Qpower_next (q : Q) (n : Z) : (0 <= n)%Z -> q ^ (n + 1) == q ^ n * q.
Proof.
  intros Hn. rewrite Qpower_plus' by lia. now rewrite Qpower_1_r.
Qed.

(** X28: from the second year on, the unrounded maintenance cost, fuel
    cost and downtime cost of the next year are those of the year times
    one plus the inflation rate. *)
Theorem yearly_costs_grow_with_inflation
    (data : Maintenance.ScenarioData) (year : Z) :
  (2 <= year)%Z ->
  Maintenance.yearMaintenanceCost data (year + 1)
  == Maintenance.yearMaintenanceCost data year
     * (1 + Maintenance.inflation_rate_pct (Maintenance.scenario data) / 100)
  /\ Maintenance.yearFuelCost data (year + 1)
     == Maintenance.yearFuelCost data year
        * (1 + Maintenance.inflation_rate_pct (Maintenance.scenario data)
               / 100)
  /\ Maintenance.yearDowntimeCost data (year + 1)
     == Maintenance.yearDowntimeCost data year
        * (1 + Maintenance.inflation_rate_pct (Maintenance.scenario data)
               / 100).
Proof.
  intros Hy.
  assert (E : Maintenance.inflationMultiplier data (year + 1)
              == Maintenance.inflationMultiplier data year
                 * (1 + Maintenance.inflation_rate_pct
                          (Maintenance.scenario data) / 100)).
  { unfold Maintenance.inflationMultiplier, Math_pow.
    replace (year + 1 - 1)%Z with (year - 1 + 1)%Z by lia.
    rewrite Qpower_next by lia. reflexivity. }
  unfold Maintenance.yearMaintenanceCost, Maintenance.yearFuelCost,
    Maintenance.yearDowntimeCost.
  replace (1 <? year + 1)%Z with true by (symmetry; apply Z.ltb_lt; lia).
  replace (1 <? year)%Z with true by (symmetry; apply Z.ltb_lt; lia).
  cbv zeta. repeat split.
  - rewrite E. ring.
  - destruct (Maintenance.include_fuel_costs _); [rewrite E|]; ring.
  - destruct (Maintenance.include_downtime_costs _); [rewrite E|]; ring.
Qed.

Lemma yearly_costs_grow_with_inflation_witness :
  Maintenance.yearMaintenanceCost (Examples.oneTimeData 15) (2 + 1)
  == Maintenance.yearMaintenanceCost (Examples.oneTimeData 15) 2
     * (1 + 3 / 100)
  /\ Maintenance.yearFuelCost (Examples.oneTimeData 15) (2 + 1)
     == Maintenance.yearFuelCost (Examples.oneTimeData 15) 2 * (1 + 3 / 100)
  /\ Maintenance.yearDowntimeCost (Examples.oneTimeData 15) (2 + 1)
     == Maintenance.yearDowntimeCost (Examples.oneTimeData 15) 2
        * (1 + 3 / 100).
Proof.
  apply (yearly_costs_grow_with_inflation (Examples.oneTimeData 15) 2).
  lia.
Defined.
End Inflation.
